(** * GScore adapter: connection lifecycle and message translation

    A shallow embedding of [GScoreService] (services/gscore-service.ts):
    the connection manager ([connect], [disconnect], [scheduleReconnect],
    the socket event handlers), the two content codecs
    ([convertOB11ToGsCoreContent], [convertGsCoreToOB11]) and the two
    bridges ([forwardMessage], [handleGsCoreMessage]).

    Around the service: the blacklist, the group switches and the
    uptime of the plugin state (core/state.ts), the message handler
    with its management commands (handlers/message-handler.ts), and the
    reconnection the configuration hooks perform (index.ts).

    JavaScript strings are modelled as [string]; a non-ASCII character is
    the sequence of its UTF-8 bytes.  Every pattern the service searches
    for is ASCII, so searching bytes and searching UTF-16 code units find
    the same occurrences. *)

From Stdlib Require Import Bool Arith ZArith List String Ascii Lia.
From Stdlib Require Import DecimalString.
Import ListNotations.

Set Warnings "-register-all".

Local Open Scope string_scope.

(** ** String primitives of the host language *)

Module Js.

(** [s.startsWith(p)] *)
Definition startsWith (s p : string) : bool := String.prefix p s.

(** [s.endsWith(p)] *)
Definition endsWith (s p : string) : bool :=
  let n := String.length s in
  let m := String.length p in
  (m <=? n)%nat && String.eqb (String.substring (n - m) m s) p.

(** Position of the first occurrence of [p] in [s], if any. *)
Fixpoint search (p s : string) : option nat :=
  if String.prefix p s then Some 0%nat
  else match s with
       | EmptyString => None
       | String _ s' => option_map S (search p s')
       end.

(** [s.indexOf(p)]: -1 when [p] does not occur. *)
Definition indexOf (s p : string) : Z :=
  match search p s with
  | Some i => Z.of_nat i
  | None => (-1)%Z
  end.

(** [s.includes(p)] *)
Definition includes (s p : string) : bool :=
  match search p s with Some _ => true | None => false end.

(** Index arguments are clamped to [0, length]. *)
Definition clamp (len : nat) (i : Z) : nat :=
  Z.to_nat (Z.min (Z.max i 0) (Z.of_nat len)).

(** [s.substring(a, b)]: the arguments are clamped and swapped when
    [a > b]. *)
Definition substring (s : string) (a b : Z) : string :=
  let a' := clamp (String.length s) a in
  let b' := clamp (String.length s) b in
  String.substring (Nat.min a' b') (Nat.max a' b' - Nat.min a' b') s.

(** [s.substring(a)] *)
Definition substringFrom (s : string) (a : Z) : string :=
  substring s a (Z.of_nat (String.length s)).

(** A negative index of [slice] counts from the end. *)
Definition relative (len : nat) (i : Z) : nat :=
  if (i <? 0)%Z then Z.to_nat (Z.max (Z.of_nat len + i) 0)
  else Nat.min (Z.to_nat i) len.

(** [s.slice(a, b)] *)
Definition slice (s : string) (a b : Z) : string :=
  let from := relative (String.length s) a in
  let to := relative (String.length s) b in
  String.substring from (to - from) s.

(** [s.replace(p, r)] with a string pattern: only the first occurrence
    is replaced ([r] holds no [$] pattern in this program). *)
Definition replace (s p r : string) : string :=
  match search p s with
  | None => s
  | Some i =>
      String.substring 0 i s ++ r ++
      String.substring (i + String.length p)
                       (String.length s - (i + String.length p)) s
  end.

Definition lowerAscii (c : ascii) : ascii :=
  let n := nat_of_ascii c in
  if ((65 <=? n) && (n <=? 90))%nat then ascii_of_nat (n + 32) else c.

(** [s.toLowerCase()] on the ASCII letters.  No character outside
    ASCII lower-cases to a letter of [info], [warning], [error] or
    [success], the only words the result is compared with. *)
Fixpoint toLowerCase (s : string) : string :=
  match s with
  | EmptyString => EmptyString
  | String c s' => String (lowerAscii c) (toLowerCase s')
  end.

(** [xs.join(sep)] *)
Definition join (sep : string) (xs : list string) : string :=
  String.concat sep xs.

End Js.


(** ** Values exchanged with the platform and with the remote engine *)

(** What the service needs from the host runtime.  Numbers are kept
    abstract: the service only tests them for truthiness and prints them.
    [URL_new] is the constructor of the URL class ([None]: it throws on an
    invalid URL), [WebSocket_new url] tells whether the socket constructor
    accepts [url] or throws. *)
Class Host : Type := {
  Num : Type;
  num_truthy : Num -> bool;
  num_toString : Num -> string;
  URL : Type;
  URL_new : string -> option URL;
  searchParams_has : URL -> string -> bool;
  searchParams_append : URL -> string -> string -> URL;
  URL_toString : URL -> string;
  WebSocket_new : string -> bool;
  String_trim : string -> string
}.

Inductive LogLevel : Type := Debug | Info | Warn | Error.

(** A segment of an outgoing platform message, as [convertGsCoreToOB11]
    builds them: [{type, data}] with the attributes of each kind. *)
Inductive OB11Segment : Type :=
  | SegText (text : string)
  | SegImage (file : string)
  | SegAt (qq : string)
  | SegReply (id : string)
  | SegRecord (file : string)
  | SegNode (user_id nickname : string) (content : list OB11Segment).

(** Parameters of the platform action [send_msg]. *)
Inductive OB11PostSendMsg : Type :=
  | SendPrivate (user_id : string) (message : list OB11Segment)
  | SendGroup (group_id : string) (message : list OB11Segment).

Section Values.

Context `{Host}.

(** A dynamically typed value ([unknown] in the source).  An array
    holds content items, as the cast [msg.data as GsCoreMessage[]]
    assumes; any other object is opaque. *)
Inductive JsValue : Type :=
  | JUndefined
  | JNull
  | JBool (b : bool)
  | JNumber (n : Num)
  | JString (s : string)
  | JObject
  | JArray (items : list GsCoreMessage)
(** interface GsCoreMessage: [{ type: string | null; data: unknown }] *)
with GsCoreMessage : Type :=
  | Message (type : option string) (data : JsValue).

Definition type (m : GsCoreMessage) : option string :=
  let (t, _) := m in t.

Definition data (m : GsCoreMessage) : JsValue :=
  let (_, d) := m in d.

(** interface GsCoreMessageSend *)
Record GsCoreMessageSend : Type := {
  bot_id : string;
  bot_self_id : string;
  msg_id : string;
  target_type : option string;
  target_id : option string;
  content : option (list GsCoreMessage)
}.

(** Truthiness of a value. *)
Definition truthy (v : JsValue) : bool :=
  match v with
  | JUndefined | JNull => false
  | JBool b => b
  | JNumber n => num_truthy n
  | JString s => negb (String.eqb s "")
  | JObject | JArray _ => true
  end.

(** [String(v)]; an array prints its elements separated by commas, and
    every element here is an object. *)
Definition ToString (v : JsValue) : string :=
  match v with
  | JUndefined => "undefined"
  | JNull => "null"
  | JBool true => "true"
  | JBool false => "false"
  | JNumber n => num_toString n
  | JString s => s
  | JObject => "[object Object]"
  | JArray items => Js.join "," (map (fun _ => "[object Object]") items)
  end.

(** [a || b] *)
Definition orElse (a b : JsValue) : JsValue := if truthy a then a else b.

(** The attributes of an object, by name. *)
Definition Attributes : Type := list (string * JsValue).

Fixpoint get (k : string) (o : Attributes) : JsValue :=
  match o with
  | [] => JUndefined
  | (k', v) :: o' => if String.eqb k k' then v else get k o'
  end.

(** [o?.k] *)
Definition prop (o : option Attributes) (k : string) : JsValue :=
  match o with
  | None => JUndefined
  | Some fields => get k fields
  end.

(** [{...o, k: v}] *)
Fixpoint set (k : string) (v : JsValue) (o : Attributes) : Attributes :=
  match o with
  | [] => [(k, v)]
  | (k', v') :: o' =>
      if String.eqb k k' then (k, v) :: o' else (k', v') :: set k v o'
  end.

(** A segment of an incoming platform message: [seg.type] and
    [seg.data as Record<string, unknown> | undefined]. *)
Record MessageSegment : Type := {
  seg_type : string;
  seg_data : option Attributes
}.

(** [event.message] is absent, a string, or an array of segments. *)
Inductive MessageField : Type :=
  | NoMessage
  | MessageString (s : string)
  | MessageArray (segments : list MessageSegment).

(** The attributes of an OB11Message event the service reads. *)
Record OB11Message : Type := {
  message_type : string;
  message : MessageField;
  raw_message : string;
  self_id : JsValue;
  message_id : JsValue;
  group_id : JsValue;
  user_id : JsValue;
  sender : option Attributes
}.

(** The MessageReceive frame sent upstream. *)
Record MessageReceive : Type := {
  recv_bot_id : string;
  recv_bot_self_id : string;
  recv_msg_id : string;
  recv_user_type : string;
  recv_group_id : option string;
  recv_user_id : string;
  recv_sender : Attributes;
  recv_user_pm : Z;
  recv_content : list GsCoreMessage
}.

(** ** ContentCodec, platform to engine *)

Definition item (t : string) (d : JsValue) : GsCoreMessage :=
  Message (Some t) d.

(** One iteration of the loop of [convertOB11ToGsCoreContent]: what the
    segment pushes onto [content]. *)
Definition convertSegment (seg : MessageSegment) : list GsCoreMessage :=
  let segData := seg_data seg in
  let t := seg_type seg in
  if String.eqb t "text" then
    [item "text" (orElse (prop segData "text") (JString ""))]
  else if String.eqb t "image" then
    [item "image"
          (orElse (orElse (prop segData "url") (prop segData "file"))
                  (JString ""))]
  else if String.eqb t "at" then
    [item "at" (JString (ToString (orElse (prop segData "qq") (JString ""))))]
  else if String.eqb t "reply" then
    [item "reply"
          (JString (ToString (orElse (prop segData "id") (JString ""))))]
  else if String.eqb t "face" then
    [item "text"
          (JString ("[表情:" ++
                    ToString (orElse (prop segData "id") (JString "")) ++ "]"))]
  else if String.eqb t "record" then
    [item "record"
          (orElse (orElse (prop segData "url") (prop segData "file"))
                  (JString ""))]
  else if String.eqb t "file" then
    [item "file"
          (JString (ToString (orElse (prop segData "name") (JString "file")) ++
                    "|" ++
                    ToString (orElse (prop segData "url") (JString ""))))]
  else if truthy (prop segData "text") then
    [item "text" (prop segData "text")]
  else [].

Definition convertOB11ToGsCoreContent (event : OB11Message)
  : list GsCoreMessage :=
  match message event with
  | MessageArray segments => flat_map convertSegment segments
  | NoMessage | MessageString _ =>
      if negb (String.eqb (raw_message event) "")
      then [item "text" (JString (raw_message event))]
      else []
  end.

(** ** ContentCodec, engine to platform *)

Definition isNullish (v : JsValue) : bool :=
  match v with JUndefined | JNull => true | _ => false end.

(** One iteration of the loop of [convertGsCoreToOB11]: what the item
    pushes onto [result].  A [node] item converts each sub-item by the
    recursive call [convertGsCoreToOB11([subMsg])], which runs this
    iteration once. *)
Fixpoint convertItem (msg : GsCoreMessage) : list OB11Segment :=
  match msg with
  | Message None _ => []
  | Message (Some t) d =>
      if String.eqb t "" || isNullish d then []
      else if String.eqb t "text" then [SegText (ToString d)]
      else if String.eqb t "image" then
        let imgData := ToString d in
        if Js.startsWith imgData "base64://" then [SegImage imgData]
        else if Js.startsWith imgData "link://" then
          [SegImage (Js.replace imgData "link://" "")]
        else if Js.startsWith imgData "http" then [SegImage imgData]
        else [SegImage imgData]
      else if String.eqb t "at" then [SegAt (ToString d)]
      else if String.eqb t "reply" then [SegReply (ToString d)]
      else if String.eqb t "record" then [SegRecord (ToString d)]
      else if String.eqb t "file" then
        let fileStr := ToString d in
        let sepIdx := Js.indexOf fileStr "|" in
        if (sepIdx >? 0)%Z then
          let fileName := Js.substring fileStr 0 sepIdx in
          let fileContent := Js.substringFrom fileStr (sepIdx + 1) in
          if Js.startsWith fileContent "link://" then
            [SegText ("[文件: " ++ fileName ++ "] " ++
                      Js.replace fileContent "link://" "")]
          else [SegText ("[文件: " ++ fileName ++ "]")]
        else []
      else if String.eqb t "markdown" then [SegText (ToString d)]
      else if String.eqb t "node" then
        match d with
        | JArray subMessagesRaw =>
            flat_map
              (fun subMsg =>
                 let ob11Segments := convertItem subMsg in
                 if (0 <? List.length ob11Segments)%nat
                 then [SegNode "3889929917" "🦊小助手" ob11Segments]
                 else [])
              subMessagesRaw
        | _ => []
        end
      else if String.eqb t "image_size" then []
      else if String.eqb t "buttons" || String.eqb t "template_buttons"
              || String.eqb t "template_markdown" || String.eqb t "group"
      then []
      else
        match d with
        | JString s => if (0 <? String.length s)%nat then [SegText s] else []
        | _ => []
        end
  end.

Definition convertGsCoreToOB11 (content : list GsCoreMessage)
  : list OB11Segment :=
  flat_map convertItem content.

End Values.

(** ** The service and the runtime it lives in *)

(** [ws.readyState] *)
Inductive ReadyState : Type := CONNECTING | OPEN | CLOSING | CLOSED.

(** The result of [getStatus]. *)
Inductive Status : Type := connected | connecting | disconnected.

(** The part of [PluginConfig] the service reads.  The two numbers may
    be missing ([?? 10], [?? 5000]). *)
Record PluginConfig : Type := {
  gscoreUrl : string;
  gscoreToken : string;
  gscoreEnable : bool;
  reconnectInterval : option Z;
  maxReconnectAttempts : option Z
}.

Section Service.

Context `{Host}.

(** The text of a log line.  A line made of text only is [Text]; a line
    that prints other values keeps them as they are.  An error object
    passed to the logger after the text is left out. *)
Inductive LogText : Type :=
  | Text (s : string)
  | ReceivedText (target_type target_id : option string)
  | ClosedText (code : Z) (reason : string)
  | LimitText (maxAttempts : Z)
  | RetryText (interval attempt : Z) (maxAttempts : option Z)
  | QuotedText (replyMsg : option OB11Message).

(** The platform actions reached through [pluginState.ctx]:
    [get_msg] returns the quoted message, [None] when the call fails;
    [send_msg] tells whether the send call is accepted. *)
Record Actions : Type := {
  get_msg : JsValue -> option (option OB11Message);
  send_msg : OB11PostSendMsg -> bool
}.

(** What the service does to the outside, in order. *)
Inductive Effect : Type :=
  | Logged (level : LogLevel) (text : LogText)
  | InvalidURL (url : string)
  | Constructed (url : string) (socket : option nat)
  | SocketClosed (socket : nat)
  | SocketSent (socket : nat) (frame : MessageReceive)
  | TimeoutSet (timer : nat) (delay : Z)
  | TimeoutCleared (timer : nat)
  | Called (params : OB11PostSendMsg).

(** The fields of [GScoreService] ([ws], [reconnectTimer],
    [isConnecting], [reconnectAttempts]), the global [pluginState] it
    reads, and the runtime: the ready state of every socket created so
    far (a socket is named by its position), the pending timeouts and
    the effects performed. *)
Record World : Type := {
  config : PluginConfig;
  selfId : string;
  ctx : Actions;
  ws : option nat;
  reconnectTimer : option nat;
  isConnecting : bool;
  reconnectAttempts : Z;
  sockets : list ReadyState;
  timers : list (nat * Z);
  timerSeq : nat;
  trace : list Effect
}.

Definition set_ws (v : option nat) (w : World) : World :=
  {| config := config w; selfId := selfId w; ctx := ctx w;
     ws := v; reconnectTimer := reconnectTimer w;
     isConnecting := isConnecting w;
     reconnectAttempts := reconnectAttempts w;
     sockets := sockets w; timers := timers w; timerSeq := timerSeq w;
     trace := trace w |}.

Definition set_reconnectTimer (v : option nat) (w : World) : World :=
  {| config := config w; selfId := selfId w; ctx := ctx w;
     ws := ws w; reconnectTimer := v;
     isConnecting := isConnecting w;
     reconnectAttempts := reconnectAttempts w;
     sockets := sockets w; timers := timers w; timerSeq := timerSeq w;
     trace := trace w |}.

Definition set_isConnecting (v : bool) (w : World) : World :=
  {| config := config w; selfId := selfId w; ctx := ctx w;
     ws := ws w; reconnectTimer := reconnectTimer w;
     isConnecting := v;
     reconnectAttempts := reconnectAttempts w;
     sockets := sockets w; timers := timers w; timerSeq := timerSeq w;
     trace := trace w |}.

Definition set_reconnectAttempts (v : Z) (w : World) : World :=
  {| config := config w; selfId := selfId w; ctx := ctx w;
     ws := ws w; reconnectTimer := reconnectTimer w;
     isConnecting := isConnecting w;
     reconnectAttempts := v;
     sockets := sockets w; timers := timers w; timerSeq := timerSeq w;
     trace := trace w |}.

Definition set_sockets (v : list ReadyState) (w : World) : World :=
  {| config := config w; selfId := selfId w; ctx := ctx w;
     ws := ws w; reconnectTimer := reconnectTimer w;
     isConnecting := isConnecting w;
     reconnectAttempts := reconnectAttempts w;
     sockets := v; timers := timers w; timerSeq := timerSeq w;
     trace := trace w |}.

Definition set_timers (v : list (nat * Z)) (n : nat) (w : World) : World :=
  {| config := config w; selfId := selfId w; ctx := ctx w;
     ws := ws w; reconnectTimer := reconnectTimer w;
     isConnecting := isConnecting w;
     reconnectAttempts := reconnectAttempts w;
     sockets := sockets w; timers := v; timerSeq := n;
     trace := trace w |}.

Definition emit (e : Effect) (w : World) : World :=
  {| config := config w; selfId := selfId w; ctx := ctx w;
     ws := ws w; reconnectTimer := reconnectTimer w;
     isConnecting := isConnecting w;
     reconnectAttempts := reconnectAttempts w;
     sockets := sockets w; timers := timers w; timerSeq := timerSeq w;
     trace := trace w ++ [e] |}.

Definition log (level : LogLevel) (text : LogText) : World -> World :=
  emit (Logged level text).

(** *** Runtime primitives *)

(** [setTimeout(callback, delay)]: a fresh one-shot timer becomes
    pending.  The only callback this service registers is the one of
    [scheduleReconnect]. *)
Definition setTimeout (delay : Z) (w : World) : nat * World :=
  let t := timerSeq w in
  (t, emit (TimeoutSet t delay)
           (set_timers (timers w ++ [(t, delay)]) (S t) w)).

Definition isTimer (t : nat) (entry : nat * Z) : bool := (fst entry =? t)%nat.

(** [clearTimeout(t)] *)
Definition clearTimeout (t : nat) (w : World) : World :=
  emit (TimeoutCleared t)
       (set_timers (filter (fun e => negb (isTimer t e)) (timers w))
                   (timerSeq w) w).

Definition pending (t : nat) (w : World) : bool :=
  existsb (isTimer t) (timers w).

Fixpoint update {A : Type} (i : nat) (x : A) (l : list A) : list A :=
  match l, i with
  | [], _ => []
  | _ :: l', O => x :: l'
  | y :: l', S i' => y :: update i' x l'
  end.

(** [socket.close()]: a socket that is not closed yet starts closing. *)
Definition closeSocket (id : nat) (w : World) : World :=
  let w := emit (SocketClosed id) w in
  match nth_error (sockets w) id with
  | Some CLOSED | None => w
  | Some _ => set_sockets (update id CLOSING (sockets w)) w
  end.

(** [this.ws?.readyState] *)
Definition readyState (w : World) : option ReadyState :=
  match ws w with
  | Some id => nth_error (sockets w) id
  | None => None
  end.

Definition isOpen (w : World) : bool :=
  match readyState w with Some OPEN => true | _ => false end.

(** *** ConnectionManager *)

Definition getStatus (w : World) : Status :=
  if isOpen w then connected
  else if isConnecting w
          || match readyState w with Some CONNECTING => true | _ => false end
  then connecting
  else disconnected.

Definition disconnect (w : World) : World :=
  let w :=
    match reconnectTimer w with
    | Some t => set_reconnectTimer None (clearTimeout t w)
    | None => w
    end in
  let w :=
    match ws w with
    | Some id => set_ws None (closeSocket id w)
    | None => w
    end in
  set_reconnectAttempts 0 (set_isConnecting false w).

Definition scheduleReconnect (w : World) : World :=
  if negb (gscoreEnable (config w)) then w
  else
    let maxAttempts :=
      match maxReconnectAttempts (config w) with
      | Some m => m
      | None => 10%Z
      end in
    if (maxAttempts >? 0)%Z && (reconnectAttempts w >=? maxAttempts)%Z then
      log Error (LimitText maxAttempts) w
    else
      let interval :=
        match reconnectInterval (config w) with
        | Some i => i
        | None => 5000%Z
        end in
      let w :=
        log Info
            (RetryText interval (reconnectAttempts w + 1)
                       (if (maxAttempts >? 0)%Z then Some maxAttempts
                        else None)) w in
      let (t, w) := setTimeout interval w in
      set_reconnectTimer (Some t) w.

Definition connect (w : World) : World :=
  if negb (gscoreEnable (config w)) then disconnect w
  else if isOpen w || isConnecting w then w
  else
    let w := set_isConnecting true w in
    let url :=
      if String.eqb (gscoreUrl (config w)) "" then "ws://localhost:8765"
      else gscoreUrl (config w) in
    let url := if Js.endsWith url "/" then Js.slice url 0 (-1) else url in
    let url :=
      if negb (Js.includes url "/ws/") then url ++ "/ws/napcat" else url in
    let token := gscoreToken (config w) in
    match URL_new url with
    | None => emit (InvalidURL url) w
    | Some wsUrl =>
        let wsUrl :=
          if negb (String.eqb token "")
             && negb (searchParams_has wsUrl "token")
          then searchParams_append wsUrl "token" token
          else wsUrl in
        let w := log Info (Text "[GScore] 正在连接...") w in
        if WebSocket_new (URL_toString wsUrl) then
          let id := List.length (sockets w) in
          let w := emit (Constructed (URL_toString wsUrl) (Some id)) w in
          set_ws (Some id) (set_sockets (sockets w ++ [CONNECTING]) w)
        else
          let w := emit (Constructed (URL_toString wsUrl) None) w in
          let w := log Error (Text "[GScore] 创建连接失败:") w in
          scheduleReconnect (set_isConnecting false w)
    end.

(** *** OutboundBridge *)

(** The first branch of [handleGsCoreMessage] that applies to a
    [log_] item: the line to log and its severity. *)
Definition logLine (firstMsgType : string) (firstMsgData : JsValue)
  : LogLevel * LogText :=
  let level := Js.toLowerCase (Js.replace firstMsgType "log_" "") in
  let logData := ToString (orElse firstMsgData (JString "")) in
  if String.eqb level "info" then (Info, Text ("[GScore Log] " ++ logData))
  else if String.eqb level "warning" then
    (Warn, Text ("[GScore Log] " ++ logData))
  else if String.eqb level "error" then
    (Error, Text ("[GScore Log] " ++ logData))
  else if String.eqb level "success" then
    (Info, Text ("[GScore Log] ✅ " ++ logData))
  else (Debug, Text ("[GScore Log] [" ++ level ++ "] " ++ logData)).

Definition isLogType (t : option string) : bool :=
  match t with
  | Some s => negb (String.eqb s "") && Js.startsWith s "log_"
  | None => false
  end.

(** [target_type === 'direct'] *)
Definition isDirect (t : option string) : bool :=
  match t with
  | Some s => String.eqb s "direct"
  | None => false
  end.

Definition handleGsCoreMessage (msgSend : GsCoreMessageSend) (w : World)
  : World :=
  match content msgSend with
  | None | Some [] => log Debug (Text "[GScore] 收到空消息，忽略") w
  | Some ((firstMsg :: _) as content) =>
      if isLogType (type firstMsg) then
        match type firstMsg with
        | Some t =>
            let (level, line) := logLine t (data firstMsg) in
            log level line w
        | None => w
        end
      else
        match target_id msgSend with
        | None | Some "" =>
            log Warn (Text "[GScore] 收到消息但没有 target_id，无法发送") w
        | Some target_id =>
            let ob11Message := convertGsCoreToOB11 content in
            if (List.length ob11Message =? 0)%nat then
              log Debug (Text "[GScore] 转换后消息为空，忽略") w
            else if isDirect (target_type msgSend) then
              let params := SendPrivate target_id ob11Message in
              let w := emit (Called params) w in
              if send_msg (ctx w) params then
                log Debug (Text ("[GScore] 已发送私聊消息到 " ++ target_id)) w
              else log Error (Text "[GScore] 发送回复消息失败:") w
            else
              let params := SendGroup target_id ob11Message in
              let w := emit (Called params) w in
              if send_msg (ctx w) params then
                log Debug (Text ("[GScore] 已发送群消息到 " ++ target_id)) w
              else log Error (Text "[GScore] 发送回复消息失败:") w
        end
  end.

(** *** InboundBridge *)

(** The images of a quoted message: for every [image] segment,
    [url || file] when it is a string that is not empty once trimmed. *)
Definition quotedImage (seg : MessageSegment) : list string :=
  if String.eqb (seg_type seg) "image" then
    match orElse (prop (seg_data seg) "url") (prop (seg_data seg) "file") with
    | JString url =>
        if negb (String.eqb (String_trim url) "") then [String_trim url]
        else []
    | _ => []
    end
  else [].

Definition pushQuotedImage (acc : list GsCoreMessage * World) (url : string)
  : list GsCoreMessage * World :=
  ((fst acc ++ [item "image" (JString url)])%list,
   log Debug (Text ("[GScore] 已提取引用消息中的图片: " ++ url)) (snd acc)).

(** The reply enrichment of [forwardMessage]. *)
Definition enrichReply (event : OB11Message)
           (content : list GsCoreMessage) (w : World)
  : list GsCoreMessage * World :=
  let replySeg :=
    match message event with
    | MessageArray segments =>
        find (fun seg => String.eqb (seg_type seg) "reply") segments
    | _ => None
    end in
  match replySeg with
  | None => (content, w)
  | Some seg =>
      let replyId := prop (seg_data seg) "id" in
      if truthy replyId then
        match get_msg (ctx w) replyId with
        | None => (content, log Warn (Text "[GScore] 获取引用消息失败") w)
        | Some replyMsg =>
            let w := log Debug (QuotedText replyMsg) w in
            match replyMsg with
            | Some quoted =>
                match message quoted with
                | MessageArray segments =>
                    fold_left pushQuotedImage
                              (flat_map quotedImage segments) (content, w)
                | _ => (content, w)
                end
            | None => (content, w)
            end
        end
      else (content, w)
  end.

Definition isRole (sender : Attributes) (role : string) : bool :=
  match get "role" sender with
  | JString r => String.eqb r role
  | _ => false
  end.

Definition forwardMessage (event : OB11Message) (w : World) : World :=
  match getStatus w with
  | connected =>
      if negb (String.eqb (message_type event) "group")
         && negb (String.eqb (message_type event) "private")
      then w
      else
        let content := convertOB11ToGsCoreContent event in
        let (content, w) := enrichReply event content w in
        let userType :=
          if String.eqb (message_type event) "group" then "group"
          else "direct" in
        let userPm :=
          match sender event with
          | Some sender =>
              if isRole sender "owner" then 2%Z
              else if isRole sender "admin" then 3%Z
              else 6%Z
          | None => 6%Z
          end in
        let messageReceive :=
          {| recv_bot_id := "onebot";
             recv_bot_self_id :=
               ToString (orElse (orElse (JString (selfId w)) (self_id event))
                            (JString ""));
             recv_msg_id := ToString (orElse (message_id event) (JString ""));
             recv_user_type := userType;
             recv_group_id :=
               if truthy (group_id event)
               then Some (ToString (group_id event))
               else None;
             recv_user_id := ToString (user_id event);
             recv_sender :=
               match sender event with
               | Some sender =>
                   set "nickname"
                       (orElse (orElse (get "nickname" sender)
                                       (get "card" sender))
                               (JString ""))
                       (set "user_id"
                            (if truthy (get "user_id" sender)
                             then JString (ToString (get "user_id" sender))
                             else JString (ToString (user_id event)))
                            sender)
               | None => []
               end;
             recv_user_pm := userPm;
             recv_content := content |} in
        let w :=
          match ws w with
          | Some id => emit (SocketSent id messageReceive) w
          | None => w
          end in
        log Debug
            (Text ("[GScore] 已转发" ++
                   (if String.eqb userType "group" then "群" else "私聊") ++
                   " " ++ ToString (orElse (group_id event) (user_id event)) ++
                   " 消息"))
            w
  | _ => w
  end.

(** *** Socket and timer events *)

Definition onOpen (w : World) : World :=
  let w := log Info (Text "[GScore] 连接成功！") w in
  let w := set_reconnectAttempts 0 (set_isConnecting false w) in
  match reconnectTimer w with
  | Some t => set_reconnectTimer None (clearTimeout t w)
  | None => w
  end.

(** [parsed] is the result of [JSON.parse] on the frame, [None] when
    it throws. *)
Definition onMessage (parsed : option GsCoreMessageSend) (w : World)
  : World :=
  match parsed with
  | Some msgSend =>
      handleGsCoreMessage msgSend
        (log Debug (ReceivedText (target_type msgSend) (target_id msgSend))
             w)
  | None => log Error (Text "[GScore] 解析收到的消息失败:") w
  end.

(** [message] is [err.message]. *)
Definition onError (message : string) (w : World) : World :=
  log Error (Text ("[GScore] 连接错误: " ++ message)) w.

Definition onClose (code : Z) (reason : string) (w : World) : World :=
  let w := set_ws None (set_isConnecting false w) in
  let w := log Warn (ClosedText code reason) w in
  scheduleReconnect w.

(** The callback [scheduleReconnect] hands to [setTimeout]. *)
Definition onTimeout (w : World) : World :=
  connect (set_reconnectAttempts (reconnectAttempts w + 1) w).

(** What the runtime delivers to the service.  A socket opens only
    while connecting, a closed socket emits nothing more, and a timer
    fires once, while it is pending. *)
Inductive Event : Type :=
  | SocketOpen (socket : nat)
  | SocketMessage (socket : nat) (parsed : option GsCoreMessageSend)
  | SocketError (socket : nat) (message : string)
  | SocketClose (socket : nat) (code : Z) (reason : string)
  | Timeout (timer : nat).

Definition deliver (e : Event) (w : World) : World :=
  match e with
  | SocketOpen id =>
      match nth_error (sockets w) id with
      | Some CONNECTING => onOpen (set_sockets (update id OPEN (sockets w)) w)
      | _ => w
      end
  | SocketMessage id parsed =>
      match nth_error (sockets w) id with
      | Some OPEN => onMessage parsed w
      | _ => w
      end
  | SocketError id message =>
      match nth_error (sockets w) id with
      | Some CLOSED | None => w
      | Some _ => onError message w
      end
  | SocketClose id code reason =>
      match nth_error (sockets w) id with
      | Some CLOSED | None => w
      | Some _ =>
          onClose code reason (set_sockets (update id CLOSED (sockets w)) w)
      end
  | Timeout t =>
      if pending t w then
        onTimeout
          (set_timers (filter (fun e => negb (isTimer t e)) (timers w))
                      (timerSeq w) w)
      else w
  end.

(** One turn of the reconnect loop: the close handler runs and, when it
    left a timer, the timer fires. *)
Definition closeAndRetry (code : Z) (reason : string) (w : World) : World :=
  let w := onClose code reason w in
  match reconnectTimer w with
  | Some t => deliver (Timeout t) w
  | None => w
  end.

(** What a run of the service added to the trace. *)
Definition since (w w' : World) : list Effect :=
  skipn (List.length (trace w)) (trace w').

End Service.

(** ** Vocabulary of the statements *)

(** [p] occurs somewhere in [s]. *)
Definition contains (s p : string) : Prop := exists a b, s = a ++ p ++ b.

(** [s] is [base] without one trailing [/]. *)
Definition stripped (base s : string) : Prop :=
  base = s ++ "/" \/ (s = base /\ forall r, base <> r ++ "/").

(** [r] is [s] with the routing suffix, added when [s] has no [/ws/]. *)
Definition routed (s r : string) : Prop :=
  (contains s "/ws/" /\ r = s) \/
  (~ contains s "/ws/" /\ r = s ++ "/ws/napcat").

(** The severity a log suffix selects, and the line logged for it. *)
Definition severity (level : string) : LogLevel :=
  if String.eqb level "info" then Info
  else if String.eqb level "warning" then Warn
  else if String.eqb level "error" then Error
  else if String.eqb level "success" then Info
  else Debug.

Definition logText (level payload : string) : string :=
  if String.eqb level "success" then "[GScore Log] ✅ " ++ payload
  else if String.eqb level "info" || String.eqb level "warning"
          || String.eqb level "error"
  then "[GScore Log] " ++ payload
  else "[GScore Log] [" ++ level ++ "] " ++ payload.

Section Vocabulary.

Context `{Host}.

(** [u'] is [u] with the token, added when there is a token and [u]
    carries none. *)
Definition authenticated (token : string) (u u' : URL) : Prop :=
  (token <> "" /\ searchParams_has u "token" = false /\
   u' = searchParams_append u "token" token) \/
  ((token = "" \/ searchParams_has u "token" = true) /\ u' = u).

(** [seg] is a text segment whose text attribute is [text]. *)
Definition isTextSegment (seg : MessageSegment) (text : string) : Prop :=
  seg_type seg = "text" /\ prop (seg_data seg) "text" = JString text.

(** [event.message] is not an array of segments. *)
Definition unstructured (event : OB11Message) : Prop :=
  match message event with MessageArray _ => False | _ => True end.

(** The send calls of a trace. *)
Definition calls (effects : list Effect) : list OB11PostSendMsg :=
  flat_map (fun e => match e with Called p => [p] | _ => [] end) effects.

(** The timers a trace sets. *)
Definition timeoutsSet (effects : list Effect) : list (nat * Z) :=
  flat_map (fun e => match e with TimeoutSet t d => [(t, d)] | _ => [] end)
           effects.

(** The sockets a trace constructs. *)
Definition constructed (effects : list Effect) : list nat :=
  flat_map (fun e => match e with
                     | Constructed _ (Some id) => [id]
                     | _ => []
                     end)
           effects.

(** The URLs a trace hands to the socket constructor. *)
Definition requested (effects : list Effect) : list string :=
  flat_map (fun e => match e with Constructed url _ => [url] | _ => [] end)
           effects.

(** The reconnect policy in force: [maxReconnectAttempts ?? 10] and
    [reconnectInterval ?? 5000]. *)
Definition maxAttempts (w : World) : Z :=
  match maxReconnectAttempts (config w) with Some m => m | None => 10%Z end.

Definition intervalMs (w : World) : Z :=
  match reconnectInterval (config w) with Some i => i | None => 5000%Z end.

(** The text [connect] hands to the URL constructor, and the URL it
    hands to the socket constructor. *)
Definition baseUrl (w : World) : string :=
  if String.eqb (gscoreUrl (config w)) "" then "ws://localhost:8765"
  else gscoreUrl (config w).

Definition strippedUrl (w : World) : string :=
  if Js.endsWith (baseUrl w) "/" then Js.slice (baseUrl w) 0 (-1)
  else baseUrl w.

Definition routedUrl (w : World) : string :=
  if negb (Js.includes (strippedUrl w) "/ws/")
  then strippedUrl w ++ "/ws/napcat"
  else strippedUrl w.

Definition withToken (w : World) (wsUrl : URL) : URL :=
  if negb (String.eqb (gscoreToken (config w)) "")
     && negb (searchParams_has wsUrl "token")
  then searchParams_append wsUrl "token" (gscoreToken (config w))
  else wsUrl.

(** A socket is live while it is connecting or open. *)
Definition live (state : ReadyState) : bool :=
  match state with CONNECTING | OPEN => true | CLOSING | CLOSED => false end.

(** Every live socket is the one the service holds, and the flag is set
    while the socket it holds is connecting. *)
Definition singleSocket (w : World) : Prop :=
  (forall id state,
      nth_error (sockets w) id = Some state -> live state = true ->
      ws w = Some id) /\
  (forall id,
      ws w = Some id -> nth_error (sockets w) id = Some CONNECTING ->
      isConnecting w = true).

(** What [disconnect] does to the timer and to the socket it holds. *)
Definition cleared (w : World) : list Effect :=
  match reconnectTimer w with Some t => [TimeoutCleared t] | None => [] end.

Definition closed (w : World) : list Effect :=
  match ws w with Some id => [SocketClosed id] | None => [] end.

End Vocabulary.

(** ** Vocabulary of the further statements *)

Section Observations.

Context `{Host}.

(** [w'] has the connection of [w]: the fields of the service, the
    sockets, the timers and the configuration are the same. *)
Definition sameConnection (w w' : World) : Prop :=
  config w' = config w /\
  ws w' = ws w /\
  reconnectTimer w' = reconnectTimer w /\
  isConnecting w' = isConnecting w /\
  reconnectAttempts w' = reconnectAttempts w /\
  sockets w' = sockets w /\
  timers w' = timers w /\
  timerSeq w' = timerSeq w.

(** The frames a trace sends, with the socket of each. *)
Definition frames (effects : list Effect) : list (nat * MessageReceive) :=
  flat_map (fun e => match e with SocketSent id f => [(id, f)] | _ => [] end)
           effects.

(** Several turns of the reconnect loop, one per close event. *)
Definition turns (closes : list (Z * string)) (w : World) : World :=
  fold_left (fun w c => closeAndRetry (fst c) (snd c) w) closes w.

(** An item of one of the kinds the encoder produces, with a payload. *)
Definition encoded (m : GsCoreMessage) : Prop :=
  exists t,
    type m = Some t /\
    In t ["text"; "image"; "at"; "reply"; "record"; "file"] /\
    isNullish (data m) = false.

(** A forwarded-message node with the fixed sender and some content. *)
Definition forwardedNode (seg : OB11Segment) : Prop :=
  exists content,
    seg = SegNode "3889929917" "🦊小助手" content /\ content <> [].

(** A payload without one leading [link://]. *)
Definition unlinked (s : string) : string :=
  if Js.startsWith s "link://" then Js.replace s "link://" "" else s.

(** The kinds [convertGsCoreToOB11] has a case for. *)
Definition knownKinds : list string :=
  ["text"; "image"; "at"; "reply"; "record"; "file"; "markdown"; "node";
   "image_size"; "buttons"; "template_buttons"; "template_markdown"; "group"].

End Observations.

(** ** The plugin state *)

(** interface GroupConfig: [enabled?: boolean] *)
Record GroupConfig : Type := { enabled : option bool }.

(** What the message handler reads and writes of [pluginState]: the
    part of the configuration the service does not read, the start
    time, and the number of times the configuration was written to
    disk.  [groupConfigs] is an object used as a map, kept as the list
    of its entries. *)
Record PluginState : Type := {
  commandPrefix : string;
  masterQQ : option string;
  groupConfigs : list (string * GroupConfig);
  blacklist : list string;
  startTime : Z;
  saved : nat
}.

Definition with_groupConfigs (v : list (string * GroupConfig))
           (s : PluginState) : PluginState :=
  {| commandPrefix := commandPrefix s; masterQQ := masterQQ s;
     groupConfigs := v; blacklist := blacklist s;
     startTime := startTime s; saved := saved s |}.

Definition with_blacklist (v : list string) (s : PluginState) : PluginState :=
  {| commandPrefix := commandPrefix s; masterQQ := masterQQ s;
     groupConfigs := groupConfigs s; blacklist := v;
     startTime := startTime s; saved := saved s |}.

(** [saveConfig()], once the plugin is initialised. *)
Definition saveConfig (s : PluginState) : PluginState :=
  {| commandPrefix := commandPrefix s; masterQQ := masterQQ s;
     groupConfigs := groupConfigs s; blacklist := blacklist s;
     startTime := startTime s; saved := S (saved s) |}.

Definition isBlacklisted (userId : string) (s : PluginState) : bool :=
  existsb (String.eqb userId) (blacklist s).

Definition addToBlacklist (userId : string) (s : PluginState) : PluginState :=
  if negb (isBlacklisted userId s)
  then saveConfig (with_blacklist (blacklist s ++ [userId]) s)
  else s.

(** [l.splice(l.indexOf(x), 1)] when [x] occurs in [l]. *)
Fixpoint removeFirst (x : string) (l : list string) : list string :=
  match l with
  | [] => []
  | y :: l' => if String.eqb x y then l' else y :: removeFirst x l'
  end.

Definition removeFromBlacklist (userId : string) (s : PluginState)
  : PluginState :=
  if isBlacklisted userId s
  then saveConfig (with_blacklist (removeFirst userId (blacklist s)) s)
  else s.

(** [groupConfigs[groupId]] *)
Fixpoint lookupGroup (groupId : string) (l : list (string * GroupConfig))
  : option GroupConfig :=
  match l with
  | [] => None
  | (g, c) :: l' =>
      if String.eqb groupId g then Some c else lookupGroup groupId l'
  end.

(** [groupConfigs[groupId] = c] *)
Fixpoint storeGroup (groupId : string) (c : GroupConfig)
         (l : list (string * GroupConfig)) : list (string * GroupConfig) :=
  match l with
  | [] => [(groupId, c)]
  | (g, c') :: l' =>
      if String.eqb groupId g then (g, c) :: l'
      else (g, c') :: storeGroup groupId c l'
  end.

(** [updateGroupConfig(groupId, config)]: the stored entry becomes
    [{...old, ...config}]. *)
Definition updateGroupConfig (groupId : string) (partial : GroupConfig)
           (s : PluginState) : PluginState :=
  let merged :=
    {| enabled :=
         match enabled partial with
         | Some b => Some b
         | None =>
             match lookupGroup groupId (groupConfigs s) with
             | Some old => enabled old
             | None => None
             end
         end |} in
  saveConfig (with_groupConfigs (storeGroup groupId merged (groupConfigs s)) s).

(** [groupConfigs[groupId]?.enabled !== false] *)
Definition isGroupEnabled (groupId : string) (s : PluginState) : bool :=
  match lookupGroup groupId (groupConfigs s) with
  | Some {| enabled := Some false |} => false
  | _ => true
  end.

(** A whole number printed in decimal. *)
Definition decimal (z : Z) : string := NilZero.string_of_int (Z.to_int z).

(** [getUptime()] at the time [now]. *)
Definition getUptime (now : Z) (s : PluginState) : Z := (now - startTime s)%Z.

(** [getUptimeFormatted()], for an uptime of [ms] milliseconds. *)
Definition getUptimeFormatted (ms : Z) : string :=
  let s := (ms / 1000)%Z in
  let m := (s / 60)%Z in
  let h := (m / 60)%Z in
  let d := (h / 24)%Z in
  if (d >? 0)%Z then decimal d ++ "天" ++ decimal (Z.rem h 24) ++ "小时"
  else if (h >? 0)%Z then decimal h ++ "小时" ++ decimal (Z.rem m 60) ++ "分钟"
  else if (m >? 0)%Z then decimal m ++ "分钟" ++ decimal (Z.rem s 60) ++ "秒"
  else decimal s ++ "秒".

(** The largest two units of an uptime, as [getUptimeFormatted] shows
    them. *)
Inductive Uptime : Type :=
  | DaysHours (d h : Z)
  | HoursMinutes (h m : Z)
  | MinutesSeconds (m s : Z)
  | Seconds (s : Z).

Definition printUptime (u : Uptime) : string :=
  match u with
  | DaysHours d h => decimal d ++ "天" ++ decimal h ++ "小时"
  | HoursMinutes h m => decimal h ++ "小时" ++ decimal m ++ "分钟"
  | MinutesSeconds m s => decimal m ++ "分钟" ++ decimal s ++ "秒"
  | Seconds s => decimal s ++ "秒"
  end.

(** The milliseconds an uptime stands for, and the width of its
    smaller unit. *)
Definition uptimeMs (u : Uptime) : Z :=
  match u with
  | DaysHours d h => (d * 86400000 + h * 3600000)%Z
  | HoursMinutes h m => (h * 3600000 + m * 60000)%Z
  | MinutesSeconds m s => (m * 60000 + s * 1000)%Z
  | Seconds s => (s * 1000)%Z
  end.

Definition uptimeStep (u : Uptime) : Z :=
  match u with
  | DaysHours _ _ => 3600000%Z
  | HoursMinutes _ _ => 60000%Z
  | MinutesSeconds _ _ => 1000%Z
  | Seconds _ => 1000%Z
  end.

(** The two numbers of an uptime are in range: the first is positive
    and the second is below one unit of the first. *)
Definition uptimeInRange (u : Uptime) : Prop :=
  match u with
  | DaysHours d h => (0 < d /\ 0 <= h < 24)%Z
  | HoursMinutes h m => (0 < h < 24 /\ 0 <= m < 60)%Z
  | MinutesSeconds m s => (0 < m < 60 /\ 0 <= s < 60)%Z
  | Seconds s => (0 <= s < 60)%Z
  end.

(** ** The message handler (handlers/message-handler.ts) *)

(** The parameters of a [send_msg] call whose message is a text:
    [group_id] and [user_id] are present for a group and for a private
    message only. *)
Record TextReply : Type := {
  reply_message : string;
  reply_message_type : string;
  reply_group_id : option string;
  reply_user_id : option string
}.

(** The line feed the handler joins lines with. *)
Definition newline : string := String (ascii_of_nat 10) "".

Section Handler.

Context `{Host}.

(** [s.split(/\s+/)] *)
Variable splitSpaces : string -> list string.

(** What the handler does besides logging, in order: a text sent with
    [send_msg], or an event handed to [GScoreService.forwardMessage].
    The event is handed over in the callback of a dynamic import, and
    [forwardMessage] runs later, on the service as it is then. *)
Inductive Step : Type :=
  | Answered (params : TextReply)
  | Forwarded (event : OB11Message).

(** The plugin: the state, the service with the logger both share,
    the platform ([send_text params] tells whether a text send is
    accepted) and the steps taken so far. *)
Record Plugin : Type := {
  state : PluginState;
  service : World;
  send_text : TextReply -> bool;
  steps : list Step
}.

Definition with_state (v : PluginState) (p : Plugin) : Plugin :=
  {| state := v; service := service p; send_text := send_text p;
     steps := steps p |}.

Definition step (a : Step) (p : Plugin) : Plugin :=
  {| state := state p; service := service p; send_text := send_text p;
     steps := (steps p ++ [a])%list |}.

(** A line written with [pluginState.logger]. *)
Definition note (level : LogLevel) (text : string) (p : Plugin) : Plugin :=
  {| state := state p; service := log level (Text text) (service p);
     send_text := send_text p; steps := steps p |}.

Definition sendReply (event : OB11Message) (message : string) (p : Plugin)
  : Plugin :=
  let params :=
    {| reply_message := message;
       reply_message_type := message_type event;
       reply_group_id :=
         if String.eqb (message_type event) "group"
            && truthy (group_id event)
         then Some (ToString (group_id event))
         else None;
       reply_user_id :=
         if String.eqb (message_type event) "private"
            && truthy (user_id event)
         then Some (ToString (user_id event))
         else None |} in
  let p := step (Answered params) p in
  if send_text p params then p else note Error "发送消息失败:" p.

Definition checkPermission (event : OB11Message) (s : PluginState) : bool :=
  let byRole :=
    if negb (String.eqb (message_type event) "group") then true
    else
      match prop (sender event) "role" with
      | JString role => String.eqb role "admin" || String.eqb role "owner"
      | _ => false
      end in
  match masterQQ s with
  | Some masterQQ =>
      if negb (String.eqb masterQQ "")
         && (0 <? String.length (String_trim masterQQ))%nat
      then String.eqb (ToString (user_id event)) (String_trim masterQQ)
      else byRole
  | None => byRole
  end.

(** One iteration of the loop of [extractAtTargets]. *)
Definition atTarget (seg : MessageSegment) : list string :=
  if String.eqb (seg_type seg) "at" then
    let qq := ToString (orElse (prop (seg_data seg) "qq") (JString "")) in
    if negb (String.eqb qq "") && negb (String.eqb qq "all") then [qq]
    else []
  else [].

Definition extractAtTargets (event : OB11Message) : list string :=
  match message event with
  | MessageArray segments => flat_map atTarget segments
  | _ => []
  end.

(** [commandPrefix || '#早柚'] *)
Definition effectivePrefix (s : PluginState) : string :=
  if String.eqb (commandPrefix s) "" then "#早柚" else commandPrefix s.

(** The two checks every management command starts with. *)
Definition guarded (event : OB11Message) (run : Plugin -> Plugin)
           (p : Plugin) : Plugin :=
  if negb (truthy (group_id event)) then
    sendReply event "请在群组中使用此命令" p
  else if negb (checkPermission event (state p)) then
    sendReply event "❌ 没有权限，仅授权用户可操作" p
  else run p.

(** One iteration of the loop of the block command. *)
Definition blockTarget (acc : list string * PluginState) (targetId : string)
  : list string * PluginState :=
  if isBlacklisted targetId (snd acc) then
    ((fst acc ++ [("⚠️ 用户 " ++ targetId ++ " 已在黑名单中")%string])%list, snd acc)
  else
    ((fst acc ++ [("✅ 已拉黑用户 " ++ targetId)%string])%list,
     addToBlacklist targetId (snd acc)).

(** One iteration of the loop of the unblock command. *)
Definition unblockTarget (acc : list string * PluginState)
           (targetId : string) : list string * PluginState :=
  if negb (isBlacklisted targetId (snd acc)) then
    ((fst acc ++ [("⚠️ 用户 " ++ targetId ++ " 不在黑名单中")%string])%list, snd acc)
  else
    ((fst acc ++ [("✅ 已取消拉黑用户 " ++ targetId)%string])%list,
     removeFromBlacklist targetId (snd acc)).

Definition helpText (prefix : string) : string :=
  Js.join newline
    ["[= 插件帮助 =]";
     prefix ++ " help - 显示帮助信息";
     prefix ++ " status - 查看连接器状态";
     "";
     "[= 管理命令 (前缀: " ++ prefix ++ ") =]";
     prefix ++ "群开启/群启用 - 开启本群早柚核心";
     prefix ++ "群关闭/群禁用 - 关闭本群早柚核心";
     prefix ++ "拉黑 @用户 - 拉黑用户（不转发其消息）";
     prefix ++ "取消拉黑 @用户 - 取消拉黑用户"].

Definition statusMap (status : Status) : string :=
  match status with
  | connected => "✅ 已连接"
  | connecting => "🔄 连接中"
  | disconnected => "❌ 未连接"
  end.

Definition statusText (now : Z) (p : Plugin) : string :=
  Js.join newline
    ["[= 插件状态 =]";
     "运行时长: " ++ getUptimeFormatted (getUptime now (state p));
     "GScore: " ++ statusMap (getStatus (service p));
     "黑名单人数: " ++ decimal (Z.of_nat (List.length (blacklist (state p))))].

(** [handleMessage(ctx, event)] at the time [now].  [slice] drops the
    prefix the text starts with; the lower-cased first word is only
    compared with [help] and [status], which no character outside
    ASCII lower-cases into. *)
Definition handleMessage (now : Z) (event : OB11Message) (p : Plugin)
  : Plugin :=
  let rawMessage := raw_message event in
  let messageType := message_type event in
  let groupId := group_id event in
  let userId := user_id event in
  let p :=
    note Debug ("收到消息: " ++ rawMessage ++ " | 类型: " ++ messageType) p in
  let prefix := effectivePrefix (state p) in
  if String.eqb rawMessage (prefix ++ "群开启")
     || String.eqb rawMessage (prefix ++ "群启用") then
    guarded event
      (fun p =>
         let p :=
           with_state (updateGroupConfig (ToString groupId)
                                         {| enabled := Some true |}
                                         (state p)) p in
         sendReply event "✅ 本群早柚核心适配已开启" p)
      p
  else if String.eqb rawMessage (prefix ++ "群关闭")
          || String.eqb rawMessage (prefix ++ "群禁用") then
    guarded event
      (fun p =>
         let p :=
           with_state (updateGroupConfig (ToString groupId)
                                         {| enabled := Some false |}
                                         (state p)) p in
         sendReply event "🚫 本群早柚核心适配已关闭" p)
      p
  else if Js.startsWith rawMessage (prefix ++ "拉黑") then
    guarded event
      (fun p =>
         let atTargets := extractAtTargets event in
         if (List.length atTargets =? 0)%nat then
           sendReply event "❌ 请 @要拉黑的用户" p
         else
           let (results, s) := fold_left blockTarget atTargets ([], state p) in
           sendReply event (Js.join newline results) (with_state s p))
      p
  else if Js.startsWith rawMessage (prefix ++ "取消拉黑") then
    guarded event
      (fun p =>
         let atTargets := extractAtTargets event in
         if (List.length atTargets =? 0)%nat then
           sendReply event "❌ 请 @要取消拉黑的用户" p
         else
           let (results, s) :=
             fold_left unblockTarget atTargets ([], state p) in
           sendReply event (Js.join newline results) (with_state s p))
      p
  else if isBlacklisted (ToString userId) (state p) then
    note Debug ("用户 " ++ ToString userId ++ " 在黑名单中，跳过转发") p
  else
    let p :=
      if negb (gscoreEnable (config (service p))) then p
      else if String.eqb messageType "group" && truthy groupId then
        if isGroupEnabled (ToString groupId) (state p)
        then step (Forwarded event) p
        else p
      else if String.eqb messageType "private" then step (Forwarded event) p
      else p in
    if negb (Js.startsWith rawMessage prefix) then p
    else
      let args :=
        splitSpaces
          (String_trim
             (Js.slice rawMessage (Z.of_nat (String.length prefix))
                       (Z.of_nat (String.length rawMessage)))) in
      let subCommand :=
        match args with
        | first :: _ => Js.toLowerCase first
        | [] => ""
        end in
      if String.eqb subCommand "help" then sendReply event (helpText prefix) p
      else if String.eqb subCommand "status" then
        sendReply event (statusText now p) p
      else p.

End Handler.

(** ** Vocabulary of the handler's statements *)

Section HandlerVocabulary.

Context `{Host}.


Definition forwards (l : list Step) : list OB11Message :=
  flat_map (fun a => match a with Forwarded e => [e] | _ => [] end) l.

(** The text is one of the six management commands. *)
Definition isManagement (prefix rawMessage : string) : bool :=
  String.eqb rawMessage (prefix ++ "群开启")
  || String.eqb rawMessage (prefix ++ "群启用")
  || String.eqb rawMessage (prefix ++ "群关闭")
  || String.eqb rawMessage (prefix ++ "群禁用")
  || Js.startsWith rawMessage (prefix ++ "拉黑")
  || Js.startsWith rawMessage (prefix ++ "取消拉黑").

(** The steps [p'] took after [p]. *)
Definition stepsSince (p p' : Plugin) : list Step :=
  skipn (List.length (steps p)) (steps p').

(** A reply goes where the event came from. *)
Definition addressed (event : OB11Message) (r : TextReply) : Prop :=
  reply_message_type r = message_type event /\
  (reply_group_id r <> None ->
   message_type event = "group" /\
   reply_group_id r = Some (ToString (group_id event))) /\
  (reply_user_id r <> None ->
   message_type event = "private" /\
   reply_user_id r = Some (ToString (user_id event))).

End HandlerVocabulary.

(** ** The configuration hooks (index.ts) *)

Section Hooks.

Context `{Host}.

(** What [plugin_set_config] and [plugin_on_config_change] do to the
    service once the configuration is updated and one of the
    connection settings has changed: [disconnect()], then [connect()]
    when the feature is enabled. *)
Definition reconnect (w : World) : World :=
  let w := disconnect w in
  if gscoreEnable (config w) then connect w else w.

(** [pluginState.config = v], as [updateConfig] and [replaceConfig]
    leave it. *)
Definition set_config (v : PluginConfig) (w : World) : World :=
  {| config := v; selfId := selfId w; ctx := ctx w;
     ws := ws w; reconnectTimer := reconnectTimer w;
     isConnecting := isConnecting w;
     reconnectAttempts := reconnectAttempts w;
     sockets := sockets w; timers := timers w; timerSeq := timerSeq w;
     trace := trace w |}.

End Hooks.

(** ** A small host

    Integers for numbers, and a URL kept as the text before the first
    [?] with the list of its query parameters.  It is used to run the
    service on concrete inputs. *)

Module Sample.

Fixpoint splitOn (sep : ascii) (s : string) : list string :=
  match s with
  | EmptyString => [EmptyString]
  | String c s' =>
      if Ascii.eqb c sep then EmptyString :: splitOn sep s'
      else match splitOn sep s' with
           | [] => [String c EmptyString]
           | x :: xs => String c x :: xs
           end
  end.

Record Url : Type := { address : string; params : list (string * string) }.

Definition parseParam (p : string) : string * string :=
  match Js.search "=" p with
  | Some i =>
      (String.substring 0 i p,
       String.substring (S i) (String.length p - S i) p)
  | None => (p, "")
  end.

Definition parse (s : string) : option Url :=
  if Js.includes s "://" then
    match Js.search "?" s with
    | Some i =>
        Some {| address := String.substring 0 i s;
                params :=
                  map parseParam
                      (splitOn "&"%char
                         (String.substring (S i) (String.length s - S i) s))
             |}
    | None => Some {| address := s; params := [] |}
    end
  else None.

Definition has (u : Url) (k : string) : bool :=
  existsb (fun p => String.eqb (fst p) k) (params u).

Definition append (u : Url) (k v : string) : Url :=
  {| address := address u; params := (params u ++ [(k, v)])%list |}.

Definition print (u : Url) : string :=
  match params u with
  | [] => address u
  | ps => address u ++ "?" ++
          Js.join "&" (map (fun p => fst p ++ "=" ++ snd p) ps)
  end.

Fixpoint trimStart (s : string) : string :=
  match s with
  | String " " s' => trimStart s'
  | _ => s
  end.

Definition reverse (s : string) : string :=
  string_of_list_ascii (rev (list_ascii_of_string s)).

Definition trim (s : string) : string :=
  reverse (trimStart (reverse (trimStart s))).

#[export] Instance host : Host := {|
  Num := Z;
  num_truthy := fun z => negb (z =? 0)%Z;
  num_toString := fun z => NilZero.string_of_int (Z.to_int z);
  URL := Url;
  URL_new := parse;
  searchParams_has := has;
  searchParams_append := append;
  URL_toString := print;
  WebSocket_new := fun url => Js.startsWith url "ws://"
                              || Js.startsWith url "wss://";
  String_trim := trim
|}.

Definition actions : Actions :=
  {| get_msg := fun _ => Some None; send_msg := fun _ => true |}.

Definition defaults : PluginConfig :=
  {| gscoreUrl := "ws://localhost:8765";
     gscoreToken := "";
     gscoreEnable := true;
     reconnectInterval := Some 5000%Z;
     maxReconnectAttempts := Some 10%Z |}.

Definition limited : PluginConfig :=
  {| gscoreUrl := "ws://localhost:8765/";
     gscoreToken := "secret";
     gscoreEnable := true;
     reconnectInterval := None;
     maxReconnectAttempts := Some 3%Z |}.

Definition unlimited : PluginConfig :=
  {| gscoreUrl := "ws://localhost:8765";
     gscoreToken := "";
     gscoreEnable := true;
     reconnectInterval := Some 1000%Z;
     maxReconnectAttempts := Some 0%Z |}.

Definition disabled : PluginConfig :=
  {| gscoreUrl := "ws://localhost:8765";
     gscoreToken := "";
     gscoreEnable := false;
     reconnectInterval := Some 5000%Z;
     maxReconnectAttempts := Some 10%Z |}.

(** The service as constructed, before any call. *)
Definition fresh (cfg : PluginConfig) : World :=
  {| config := cfg; selfId := "10001"; ctx := actions;
     ws := None; reconnectTimer := None; isConnecting := false;
     reconnectAttempts := 0;
     sockets := []; timers := []; timerSeq := 0; trace := [] |}.

(** A service that holds a connecting socket and a pending timer,
    after the feature has been switched off. *)
Definition busy : World :=
  {| config := disabled; selfId := "10001"; ctx := actions;
     ws := Some 0%nat; reconnectTimer := Some 4%nat; isConnecting := true;
     reconnectAttempts := 2;
     sockets := [CONNECTING]; timers := [(4%nat, 5000%Z)]; timerSeq := 5;
     trace := [] |}.

(** A connected service. *)
Definition online : World :=
  {| config := defaults; selfId := "10001"; ctx := actions;
     ws := Some 0%nat; reconnectTimer := None; isConnecting := false;
     reconnectAttempts := 0;
     sockets := [OPEN]; timers := []; timerSeq := 0; trace := [] |}.

Definition envelope (target_type target_id : option string)
           (content : option (list GsCoreMessage)) : GsCoreMessageSend :=
  {| bot_id := "onebot"; bot_self_id := "10001"; msg_id := "";
     target_type := target_type; target_id := target_id;
     content := content |}.

(** A connected service whose platform rejects every send. *)
Definition refusing : World :=
  {| config := defaults; selfId := "10001";
     ctx := {| get_msg := fun _ => None; send_msg := fun _ => false |};
     ws := Some 0%nat; reconnectTimer := None; isConnecting := false;
     reconnectAttempts := 0;
     sockets := [OPEN]; timers := []; timerSeq := 0; trace := [] |}.

(** A service that is connecting after two failed attempts, with the
    retry timer still held. *)
Definition retrying : World :=
  {| config := limited; selfId := "10001"; ctx := actions;
     ws := Some 2%nat; reconnectTimer := Some 1%nat; isConnecting := true;
     reconnectAttempts := 2;
     sockets := [CLOSED; CLOSED; CONNECTING]; timers := [(1%nat, 5000%Z)];
     timerSeq := 2; trace := [] |}.

Definition segment (kind : string) (attributes : Attributes)
  : MessageSegment :=
  {| seg_type := kind; seg_data := Some attributes |}.

Definition textSegment (text : string) : MessageSegment :=
  {| seg_type := "text"; seg_data := Some [("text", JString text)] |}.

Definition event (message_type : string) (message : MessageField)
           (raw_message : string) : OB11Message :=
  {| message_type := message_type; message := message;
     raw_message := raw_message;
     self_id := JNumber 10001%Z; message_id := JNumber 7%Z;
     group_id := JNumber 42%Z; user_id := JNumber 99%Z;
     sender := None |}.

(** The words of a text that has no space at either end. *)
Definition words (s : string) : list string :=
  match filter (fun x => negb (String.eqb x "")) (splitOn " "%char s) with
  | [] => [""]
  | l => l
  end.

(** The plugin state as configured by default, with user 99 as the
    master, started at time 0. *)
Definition settings : PluginState :=
  {| commandPrefix := "#早柚"; masterQQ := Some "99"; groupConfigs := [];
     blacklist := []; startTime := 0; saved := 0 |}.

(** The plugin on a service, with a platform that accepts every
    send. *)
Definition plugin (w : World) : Plugin :=
  {| state := settings; service := w; send_text := fun _ => true;
     steps := [] |}.

(** A message of user 99 in group 42 that mentions the users 7 and 8
    and everybody. *)
Definition mentioning (raw_message : string) : OB11Message :=
  event "group"
        (MessageArray [textSegment raw_message;
                       segment "at" [("qq", JNumber 7%Z)];
                       segment "at" [("qq", JString "all")];
                       segment "at" [("qq", JString "8")]])
        raw_message.

(** A message of user 7 in group 42. *)
Definition from7 (message_type raw_message : string) : OB11Message :=
  {| message_type := message_type; message := NoMessage;
     raw_message := raw_message;
     self_id := JNumber 10001%Z; message_id := JNumber 8%Z;
     group_id := JNumber 42%Z; user_id := JNumber 7%Z;
     sender := None |}.

(** A service that finds the quoted message of every reply: a message
    with one image. *)
Definition quoting : World :=
  {| config := defaults; selfId := "10001";
     ctx := {| get_msg := fun _ =>
                 Some (Some (event "group"
                                   (MessageArray
                                      [segment "image"
                                               [("url", JString " http://x/a.png ")]])
                                   ""));
               send_msg := fun _ => true |};
     ws := Some 0%nat; reconnectTimer := None; isConnecting := false;
     reconnectAttempts := 0;
     sockets := [OPEN]; timers := []; timerSeq := 0; trace := [] |}.

(** The service as constructed, with [url] as the configured URL. *)
Definition configured (url : string) : World :=
  fresh {| gscoreUrl := url;
           gscoreToken := "";
           gscoreEnable := true;
           reconnectInterval := Some 5000%Z;
           maxReconnectAttempts := Some 10%Z |}.

(** A service whose configured URL is no URL: it has no scheme. *)
Definition misconfigured : World :=
  fresh {| gscoreUrl := "localhost";
           gscoreToken := "";
           gscoreEnable := true;
           reconnectInterval := Some 5000%Z;
           maxReconnectAttempts := Some 10%Z |}.

End Sample.

(** ** The path of a URL text

    What a reader of "the URL contains a [/ws/] path segment" looks
    at: the segments of the path, which follows the scheme and the
    authority and ends at the query or the fragment. *)

(** The text before the first [sep], all of it when there is none. *)
Definition before (sep s : string) : string :=
  match Js.search sep s with
  | Some i => String.substring 0 i s
  | None => s
  end.

Definition urlPath (s : string) : string :=
  let rest :=
    match Js.search "://" s with
    | Some i => String.substring (i + 3) (String.length s - (i + 3)) s
    | None => s
    end in
  let rest := before "#" (before "?" rest) in
  match Js.search "/" rest with
  | Some j => String.substring j (String.length rest - j) rest
  | None => ""
  end.

Definition pathSegments (s : string) : list string :=
  Sample.splitOn "/"%char (urlPath s).

(** The URL text has a path segment [ws]. *)
Definition hasWsSegment (s : string) : bool :=
  existsb (String.eqb "ws") (pathSegments s).

(** ** Facts about the string primitives *)

Section StringFacts.

Lemma append_nil_r (s : string) : s ++ "" = s.
Proof. induction s as [|c s IH]; simpl; [reflexivity | now rewrite IH]. Qed.

Lemma append_assoc (a b c : string) : (a ++ b) ++ c = a ++ (b ++ c).
Proof. induction a as [|x a IH]; simpl; [reflexivity | now rewrite IH]. Qed.

Lemma length_append (a b : string) :
  String.length (a ++ b) = (String.length a + String.length b)%nat.
Proof. induction a as [|x a IH]; simpl; [reflexivity | now rewrite IH]. Qed.

Lemma substring_0_all (s : string) :
  String.substring 0 (String.length s) s = s.
Proof. induction s as [|c s IH]; simpl; [reflexivity | now rewrite IH]. Qed.

Lemma substring_0_append (a b : string) :
  String.substring 0 (String.length a) (a ++ b) = a.
Proof.
  induction a as [|x a IH]; simpl.
  - destruct b; reflexivity.
  - now rewrite IH.
Qed.

Lemma substring_skip_append (a b : string) (m : nat) :
  String.substring (String.length a) m (a ++ b) = String.substring 0 m b.
Proof. induction a as [|x a IH]; simpl; [reflexivity | exact IH]. Qed.

Lemma substring_split (n : nat) (s : string) :
  (n <= String.length s)%nat ->
  s = String.substring 0 n s ++
      String.substring n (String.length s - n) s.
Proof.
  revert n; induction s as [|c s IH]; intros [|n] Hn; simpl in *.
  - reflexivity.
  - lia.
  - now rewrite substring_0_all.
  - f_equal. apply IH. lia.
Qed.

Lemma length_substring_0 (n : nat) (s : string) :
  (n <= String.length s)%nat ->
  String.length (String.substring 0 n s) = n.
Proof.
  revert n; induction s as [|c s IH]; intros [|n] Hn; simpl in *;
    try reflexivity; try lia.
  f_equal. apply IH. lia.
Qed.

Lemma prefix_append (p s : string) : String.prefix p (p ++ s) = true.
Proof.
  induction p as [|c p IH]; simpl.
  - destruct s; reflexivity.
  - destruct (ascii_dec c c) as [_|N]; [exact IH | now elim N].
Qed.

Lemma prefix_split (p s : string) :
  String.prefix p s = true -> exists r, s = p ++ r.
Proof.
  revert s; induction p as [|c p IH]; intros s H.
  - now exists s.
  - destruct s as [|d s]; simpl in H; [discriminate|].
    destruct (ascii_dec c d) as [->|]; [|discriminate].
    destruct (IH _ H) as [r ->]. now exists r.
Qed.

Lemma prefix_iff (p s : string) :
  String.prefix p s = true <-> exists r, s = p ++ r.
Proof.
  split; [apply prefix_split | intros [r ->]; apply prefix_append].
Qed.

(** [endsWith] and [slice(0, -1)] *)

Lemma substring_tail (r p : string) :
  String.substring (String.length (r ++ p) - String.length p)
                   (String.length p) (r ++ p) = p.
Proof.
  rewrite length_append.
  replace (String.length r + String.length p - String.length p)%nat
    with (String.length r) by lia.
  rewrite substring_skip_append. apply substring_0_all.
Qed.

Lemma endsWith_iff (s p : string) :
  Js.endsWith s p = true <-> exists r, s = r ++ p.
Proof.
  unfold Js.endsWith; split.
  - intros Hs. apply andb_prop in Hs as [Hle Heq].
    apply Nat.leb_le in Hle. apply String.eqb_eq in Heq.
    exists (String.substring 0 (String.length s - String.length p) s).
    pose proof (substring_split (String.length s - String.length p) s
                                ltac:(lia)) as Hsplit.
    replace (String.length s - (String.length s - String.length p))%nat
      with (String.length p) in Hsplit by lia.
    now rewrite Heq in Hsplit.
  - intros [r ->]. rewrite substring_tail, String.eqb_refl, andb_true_r.
    apply Nat.leb_le. rewrite length_append. lia.
Qed.

Lemma slice_drop_last (r : string) (c : ascii) :
  Js.slice (r ++ String c "") 0 (-1) = r.
Proof.
  unfold Js.slice, Js.relative; simpl.
  rewrite length_append; simpl.
  replace (Z.to_nat (Z.max (Z.of_nat (String.length r + 1) + -1) 0) - 0)%nat
    with (String.length r) by lia.
  apply substring_0_append.
Qed.

(** [search], [includes], [indexOf] *)

Lemma search_unfold (p s : string) :
  Js.search p s =
  if String.prefix p s then Some 0%nat
  else match s with
       | EmptyString => None
       | String _ s' => option_map S (Js.search p s')
       end.
Proof. destruct s; reflexivity. Qed.

Lemma search_sound (p s : string) (i : nat) :
  Js.search p s = Some i ->
  exists a b, s = a ++ p ++ b /\ String.length a = i.
Proof.
  revert i; induction s as [|c s IH]; intros i; rewrite search_unfold;
    destruct (String.prefix p _) eqn:Hp.
  - intros [= <-]. apply prefix_split in Hp as [r Hr].
    exists "", r. now split.
  - discriminate.
  - intros [= <-]. apply prefix_split in Hp as [r Hr].
    exists "", r. now split.
  - destruct (Js.search p s) as [j|]; [|discriminate].
    intros [= <-]. destruct (IH j eq_refl) as (a & b & -> & <-).
    exists (String c a), b. now split.
Qed.

Lemma search_complete (p a b : string) :
  exists i, Js.search p (a ++ p ++ b) = Some i /\ (i <= String.length a)%nat.
Proof.
  induction a as [|c a (i & Hi & Hle)].
  - exists 0%nat. split; [|simpl; lia].
    change ("" ++ p ++ b) with (p ++ b).
    now rewrite search_unfold, prefix_append.
  - change (String c a ++ p ++ b) with (String c (a ++ p ++ b)).
    rewrite search_unfold.
    destruct (String.prefix p (String c (a ++ p ++ b))).
    + exists 0%nat. split; [reflexivity | lia].
    + exists (S i). rewrite Hi. split; [reflexivity | simpl; lia].
Qed.

Lemma includes_iff (s p : string) :
  Js.includes s p = true <-> exists a b, s = a ++ p ++ b.
Proof.
  unfold Js.includes; split.
  - destruct (Js.search p s) as [i|] eqn:E; [|discriminate].
    intros _. destruct (search_sound _ _ _ E) as (a & b & Hs & _).
    now exists a, b.
  - intros (a & b & ->).
    destruct (search_complete p a b) as (i & -> & _). reflexivity.
Qed.

Lemma search_prefix (p s : string) :
  String.prefix p s = true -> Js.search p s = Some 0%nat.
Proof. intros Hp. now rewrite search_unfold, Hp. Qed.

Lemma prefix_char (c x : ascii) (s : string) :
  String.prefix (String c "") (String x s) = true <-> c = x.
Proof.
  simpl. destruct (ascii_dec c x) as [->|N].
  - split; [reflexivity | now destruct s].
  - split; [discriminate | intros E; now elim N].
Qed.

(** The first occurrence: nothing before it holds the pattern. *)
Lemma search_first (c : ascii) (a b : string) :
  Js.includes a (String c "") = false ->
  Js.search (String c "") (a ++ String c b) = Some (String.length a).
Proof.
  unfold Js.includes.
  induction a as [|x a IH]; intros Ha.
  - apply search_prefix. now apply prefix_char.
  - change (String x a ++ String c b) with (String x (a ++ String c b)).
    rewrite search_unfold in Ha |- *.
    destruct (String.prefix (String c "") (String x a)) eqn:Hp;
      [discriminate|].
    assert (N : c <> x).
    { intros ->. rewrite (proj2 (prefix_char x x a) eq_refl) in Hp.
      discriminate. }
    destruct (String.prefix (String c "") (String x (a ++ String c b)))
      eqn:Hq.
    + apply prefix_char in Hq. contradiction.
    + destruct (Js.search (String c "") a) eqn:E; [discriminate|].
      now rewrite IH.
Qed.

Lemma search_none (p s : string) :
  Js.includes s p = false -> Js.search p s = None.
Proof. unfold Js.includes. now destruct (Js.search p s). Qed.

(** [replace] on a string that starts with the pattern *)
Lemma substring_0_0 (s : string) : String.substring 0 0 s = "".
Proof. now destruct s. Qed.

Lemma replace_prefix (p s : string) : Js.replace (p ++ s) p "" = s.
Proof.
  unfold Js.replace. rewrite (search_prefix _ _ (prefix_append p s)).
  rewrite substring_0_0, length_append.
  replace (String.length p + String.length s - (0 + String.length p))%nat
    with (String.length s) by lia.
  change (0 + String.length p)%nat with (String.length p).
  rewrite substring_skip_append. apply substring_0_all.
Qed.

End StringFacts.

(** ** The content codecs *)

Section CodecFacts.

Context `{Host}.

Lemma js_substring_prefix (a b : string) :
  Js.substring (a ++ b) 0 (Z.of_nat (String.length a)) = a.
Proof.
  unfold Js.substring, Js.clamp. rewrite length_append.
  replace (Z.to_nat (Z.min (Z.max 0 0)
                           (Z.of_nat (String.length a + String.length b))))
    with 0%nat by lia.
  replace (Z.to_nat (Z.min (Z.max (Z.of_nat (String.length a)) 0)
                           (Z.of_nat (String.length a + String.length b))))
    with (String.length a) by lia.
  rewrite Nat.min_0_l, Nat.max_0_l, Nat.sub_0_r.
  apply substring_0_append.
Qed.

Lemma js_substringFrom_suffix (a b : string) :
  Js.substringFrom (a ++ b) (Z.of_nat (String.length a)) = b.
Proof.
  unfold Js.substringFrom, Js.substring, Js.clamp. rewrite length_append.
  set (la := String.length a). set (lb := String.length b).
  replace (Z.to_nat (Z.min (Z.max (Z.of_nat la) 0) (Z.of_nat (la + lb))))
    with la by lia.
  replace (Z.to_nat (Z.min (Z.max (Z.of_nat (la + lb)) 0)
                           (Z.of_nat (la + lb))))
    with (la + lb)%nat by lia.
  replace (Nat.min la (la + lb)) with la by lia.
  replace (Nat.max la (la + lb) - la)%nat with lb by lia.
  subst la lb. rewrite substring_skip_append. apply substring_0_all.
Qed.

(** The [file] case of the switch. *)
Lemma convertItem_file (d : JsValue) :
  isNullish d = false ->
  convertItem (item "file" d) =
  if (Js.indexOf (ToString d) "|" >? 0)%Z then
    if Js.startsWith
         (Js.substringFrom (ToString d) (Js.indexOf (ToString d) "|" + 1))
         "link://"
    then [SegText ("[文件: " ++
                   Js.substring (ToString d) 0 (Js.indexOf (ToString d) "|")
                   ++ "] " ++
                   Js.replace
                     (Js.substringFrom (ToString d)
                                       (Js.indexOf (ToString d) "|" + 1))
                     "link://" "")]
    else [SegText ("[文件: " ++
                   Js.substring (ToString d) 0 (Js.indexOf (ToString d) "|")
                   ++ "]")]
  else [].
Proof. intros Hd. unfold item. cbn [convertItem]. now rewrite Hd. Qed.

Lemma convertGsCoreToOB11_one (m : GsCoreMessage) :
  convertGsCoreToOB11 [m] = convertItem m.
Proof. unfold convertGsCoreToOB11; simpl. apply app_nil_r. Qed.

(** Where [file] payloads split. *)
Lemma file_split (name rest : string) :
  Js.includes name "|" = false ->
  Js.indexOf (name ++ "|" ++ rest) "|" = Z.of_nat (String.length name) /\
  Js.substring (name ++ "|" ++ rest) 0 (Z.of_nat (String.length name))
  = name /\
  Js.substringFrom (name ++ "|" ++ rest) (Z.of_nat (String.length name) + 1)
  = rest.
Proof.
  intros Hname. repeat split.
  - unfold Js.indexOf.
    change ("|" ++ rest) with (String "|" rest).
    now rewrite (search_first "|" name rest Hname).
  - apply js_substring_prefix.
  - rewrite <- append_assoc.
    replace (Z.of_nat (String.length name) + 1)%Z
      with (Z.of_nat (String.length (name ++ "|"))).
    + apply js_substringFrom_suffix.
    + rewrite length_append. simpl. lia.
Qed.

Lemma length_positive (s : string) :
  s <> "" -> (Z.of_nat (String.length s) >? 0)%Z = true.
Proof.
  intros Hs. apply Z.gtb_lt. destruct s; [contradiction | simpl; lia].
Qed.

(** C6, as amended.  Decoding a [file] item whose payload prints as
    [name|rest], where [name] is not empty and holds no [|], yields
    the one text segment [[文件: name] url] when [rest] is [link://url]
    and [[文件: name]] when [rest] does not start with [link://].  A
    payload with no [|], or one that starts with [|], yields nothing.
    In particular [report.pdf|link://http://x/r.pdf] yields
    [[文件: report.pdf] http://x/r.pdf]. *)
Theorem file_item_decoding (d : JsValue) :
  isNullish d = false ->
  (forall name rest,
      ToString d = name ++ "|" ++ rest ->
      Js.includes name "|" = false ->
      name <> "" ->
      (forall url,
          rest = "link://" ++ url ->
          convertGsCoreToOB11 [item "file" d]
          = [SegText ("[文件: " ++ name ++ "] " ++ url)]) /\
      (Js.startsWith rest "link://" = false ->
       convertGsCoreToOB11 [item "file" d]
       = [SegText ("[文件: " ++ name ++ "]")])) /\
  (Js.includes (ToString d) "|" = false ->
   convertGsCoreToOB11 [item "file" d] = []) /\
  (Js.startsWith (ToString d) "|" = true ->
   convertGsCoreToOB11 [item "file" d] = []) /\
  convertGsCoreToOB11
    [item "file" (JString "report.pdf|link://http://x/r.pdf")]
  = [SegText "[文件: report.pdf] http://x/r.pdf"].
Proof.
  intros Hd. rewrite convertGsCoreToOB11_one, (convertItem_file d Hd).
  split; [|split; [|split]].
  - intros name rest Hpayload Hname Hne. rewrite Hpayload.
    destruct (file_split name rest Hname) as (-> & -> & ->).
    rewrite (length_positive name Hne). split.
    + intros url ->. unfold Js.startsWith.
      now rewrite prefix_append, replace_prefix.
    + intros Hrest. now rewrite Hrest.
  - intros Hnone. unfold Js.indexOf. now rewrite (search_none _ _ Hnone).
  - intros Hfirst. unfold Js.indexOf, Js.startsWith in *.
    now rewrite (search_prefix _ _ Hfirst).
  - reflexivity.
Qed.

Lemma convertSegment_text (seg : MessageSegment) (text : string) :
  isTextSegment seg text ->
  convertSegment seg = [item "text" (JString text)].
Proof.
  intros [Htype Htext]. unfold convertSegment. rewrite Htype, Htext.
  cbn [String.eqb Ascii.eqb Bool.eqb]. unfold orElse, truthy.
  destruct (String.eqb_spec text "") as [->|]; reflexivity.
Qed.

Lemma convertItem_text (text : string) :
  convertItem (item "text" (JString text)) = [SegText text].
Proof. reflexivity. Qed.

(** C7.  For a platform message made of text segments only, decoding
    the encoded content gives back one text segment per original
    segment, in order, each with the original text. *)
Theorem text_round_trip (event : OB11Message)
        (segments : list MessageSegment) (texts : list string) :
  message event = MessageArray segments ->
  Forall2 isTextSegment segments texts ->
  convertGsCoreToOB11 (convertOB11ToGsCoreContent event)
  = map SegText texts.
Proof.
  intros Hmsg Hall. unfold convertOB11ToGsCoreContent. rewrite Hmsg.
  unfold convertGsCoreToOB11. clear Hmsg.
  induction Hall as [|seg text segments texts Hseg _ IH]; [reflexivity|].
  cbn [flat_map map]. rewrite (convertSegment_text seg text Hseg).
  cbn [app flat_map]. rewrite convertItem_text, IH. reflexivity.
Qed.

End CodecFacts.

(** ** The connection manager *)

Section ServiceFacts.

Context `{Host}.

Local Open Scope list_scope.

Lemma skipn_length_app {A : Type} (l r : list A) :
  skipn (List.length l) (l ++ r) = r.
Proof. induction l as [|x l IH]; simpl; [reflexivity | exact IH]. Qed.

Lemma since_extension (w w' : World) (effects : list Effect) :
  trace w' = trace w ++ effects -> since w w' = effects.
Proof. unfold since. intros ->. apply skipn_length_app. Qed.

Lemma since_refl (w : World) : since w w = [].
Proof. apply since_extension. now rewrite app_nil_r. Qed.

Lemma pending_cleared (t : nat) (l : list (nat * Z)) :
  existsb (isTimer t) (filter (fun e => negb (isTimer t e)) l) = false.
Proof.
  induction l as [|e l IH]; simpl; [reflexivity|].
  destruct (isTimer t e) eqn:E; simpl; [exact IH | now rewrite E].
Qed.

Lemma nth_error_update {A : Type} (i : nat) (x : A) (l : list A) :
  (i < List.length l)%nat -> nth_error (update i x l) i = Some x.
Proof.
  revert i; induction l as [|y l IH]; intros [|i] Hi; simpl in *;
    try lia; [reflexivity | apply IH; lia].
Qed.

Lemma nth_error_in_range {A : Type} (i : nat) (l : list A) (x : A) :
  nth_error l i = Some x -> (i < List.length l)%nat.
Proof. intros E. apply nth_error_Some. now rewrite E. Qed.

(** *** disconnect *)

Lemma trace_disconnect (w : World) :
  trace (disconnect w) = trace w ++ cleared w ++ closed w.
Proof.
  unfold disconnect, cleared, closed, closeSocket.
  destruct (reconnectTimer w) as [t|], (ws w) as [id|] eqn:Ews;
    cbn; rewrite ?Ews; cbn;
    try destruct (nth_error (sockets w) id) as [[]|]; cbn;
    rewrite <- ?app_assoc, ?app_nil_r; reflexivity.
Qed.

Lemma disconnect_fields (w : World) :
  reconnectTimer (disconnect w) = None /\
  ws (disconnect w) = None /\
  reconnectAttempts (disconnect w) = 0%Z /\
  isConnecting (disconnect w) = false /\
  config (disconnect w) = config w.
Proof.
  unfold disconnect, closeSocket.
  destruct (reconnectTimer w) as [t|] eqn:Et, (ws w) as [id|] eqn:Ews;
    cbn; rewrite ?Ews, ?Et; cbn;
    try destruct (nth_error (sockets w) id) as [[]|]; cbn;
    rewrite ?Et; auto.
Qed.

Lemma disconnect_timer (w : World) (t : nat) :
  reconnectTimer w = Some t -> pending t (disconnect w) = false.
Proof.
  intros Et. unfold disconnect, closeSocket, pending. rewrite Et.
  destruct (ws w) as [id|] eqn:Ews; cbn; rewrite ?Ews; cbn;
    try destruct (nth_error (sockets w) id) as [[]|]; cbn;
    apply pending_cleared.
Qed.

Lemma disconnect_socket (w : World) (id : nat) (state : ReadyState) :
  ws w = Some id ->
  nth_error (sockets w) id = Some state ->
  nth_error (sockets (disconnect w)) id
  = Some (match state with CLOSED => CLOSED | _ => CLOSING end).
Proof.
  intros Ews Est. unfold disconnect, closeSocket.
  pose proof (nth_error_in_range _ _ _ Est) as Hid.
  destruct (reconnectTimer w) as [t|]; cbn; rewrite Ews; cbn;
    rewrite Est; destruct state; cbn;
    solve [now apply nth_error_update | assumption].
Qed.

(** C9.  With the upstream feature disabled, [connect] never calls the
    socket constructor and disconnects instead: the timer it holds is
    cancelled and the handle cleared, the socket it holds is closed
    and the handle cleared, the attempt counter is 0 and the status is
    disconnected. *)
Theorem connect_disabled (w : World) :
  gscoreEnable (config w) = false ->
  requested (since w (connect w)) = [] /\
  reconnectTimer (connect w) = None /\
  (forall t, reconnectTimer w = Some t ->
             In (TimeoutCleared t) (since w (connect w)) /\
             pending t (connect w) = false) /\
  ws (connect w) = None /\
  (forall id state,
      ws w = Some id -> nth_error (sockets w) id = Some state ->
      In (SocketClosed id) (since w (connect w)) /\
      nth_error (sockets (connect w)) id
      = Some (match state with CLOSED => CLOSED | _ => CLOSING end)) /\
  reconnectAttempts (connect w) = 0%Z /\
  isConnecting (connect w) = false /\
  getStatus (connect w) = disconnected.
Proof.
  intros Hoff. unfold connect. rewrite Hoff. cbn [negb].
  rewrite (since_extension _ _ _ (trace_disconnect w)).
  destruct (disconnect_fields w) as (Htimer & Hws & Hattempts & Hflag & _).
  split; [|split; [exact Htimer|split; [|split; [exact Hws|split]]]].
  - unfold cleared, closed.
    now destruct (reconnectTimer w), (ws w).
  - intros t Ht. split; [|now apply disconnect_timer].
    unfold cleared. rewrite Ht. now left.
  - intros id state Hid Hstate. split; [|now apply disconnect_socket].
    unfold closed. rewrite Hid. apply in_or_app. right. now left.
  - repeat split; try assumption.
    unfold getStatus, isOpen, readyState. now rewrite Hws, Hflag.
Qed.

(** *** scheduleReconnect *)

Ltac branch :=
  match goal with
  | |- context [match ?x with _ => _ end] =>
      match x with
      | context [match _ with _ => _ end] => fail 1
      | _ => destruct x eqn:?
      end
  end.

Lemma scheduleReconnect_exhausted (w : World) :
  gscoreEnable (config w) = true ->
  (0 < maxAttempts w)%Z ->
  (maxAttempts w <= reconnectAttempts w)%Z ->
  scheduleReconnect w = log Error (LimitText (maxAttempts w)) w.
Proof.
  intros Hon Hmax Hspent. unfold scheduleReconnect. rewrite Hon.
  fold (maxAttempts w).
  replace (maxAttempts w >? 0)%Z with true by (symmetry; lia).
  replace (reconnectAttempts w >=? maxAttempts w)%Z with true
    by (symmetry; lia).
  reflexivity.
Qed.

Lemma scheduleReconnect_retry (w : World) :
  gscoreEnable (config w) = true ->
  ~ (0 < maxAttempts w /\ maxAttempts w <= reconnectAttempts w)%Z ->
  scheduleReconnect w =
  set_reconnectTimer
    (Some (timerSeq w))
    (snd (setTimeout
            (intervalMs w)
            (log Info
                 (RetryText (intervalMs w) (reconnectAttempts w + 1)
                            (if (maxAttempts w >? 0)%Z
                             then Some (maxAttempts w) else None))
                 w))).
Proof.
  intros Hon Hleft. unfold scheduleReconnect. rewrite Hon.
  fold (maxAttempts w). fold (intervalMs w).
  replace ((maxAttempts w >? 0)%Z
           && (reconnectAttempts w >=? maxAttempts w)%Z) with false;
    [reflexivity|].
  symmetry. apply andb_false_iff.
  destruct (Z.gtb_spec (maxAttempts w) 0); [right | now left].
  rewrite Z.geb_leb. apply Z.leb_gt. lia.
Qed.

Lemma scheduleReconnect_keeps (w : World) :
  config (scheduleReconnect w) = config w /\
  reconnectAttempts (scheduleReconnect w) = reconnectAttempts w /\
  ws (scheduleReconnect w) = ws w /\
  isConnecting (scheduleReconnect w) = isConnecting w /\
  sockets (scheduleReconnect w) = sockets w.
Proof.
  unfold scheduleReconnect, setTimeout. cbn.
  repeat (branch; cbn); auto.
Qed.

Lemma connect_keeps (w : World) :
  gscoreEnable (config w) = true ->
  config (connect w) = config w /\
  reconnectAttempts (connect w) = reconnectAttempts w.
Proof.
  intros Hon. unfold connect. rewrite Hon. cbn [negb].
  repeat branch; cbn; auto;
    match goal with
    | |- context [scheduleReconnect ?x] =>
        destruct (scheduleReconnect_keeps x) as (-> & -> & _); cbn; auto
    end.
Qed.

Lemma existsb_last (t : nat) (d : Z) (l : list (nat * Z)) :
  existsb (isTimer t) (l ++ [(t, d)]) = true.
Proof.
  rewrite existsb_app. cbn [existsb]. unfold isTimer at 2. cbn [fst].
  now rewrite Nat.eqb_refl, !orb_true_r.
Qed.

(** What a retry leaves behind. *)
Lemma scheduleReconnect_retry_fields (w : World) :
  gscoreEnable (config w) = true ->
  ~ (0 < maxAttempts w /\ maxAttempts w <= reconnectAttempts w)%Z ->
  trace (scheduleReconnect w)
  = trace w ++
    [Logged Info
            (RetryText (intervalMs w) (reconnectAttempts w + 1)
                       (if (maxAttempts w >? 0)%Z
                        then Some (maxAttempts w) else None));
     TimeoutSet (timerSeq w) (intervalMs w)] /\
  timers (scheduleReconnect w) = timers w ++ [(timerSeq w, intervalMs w)] /\
  reconnectTimer (scheduleReconnect w) = Some (timerSeq w) /\
  pending (timerSeq w) (scheduleReconnect w) = true.
Proof.
  intros Hon Hleft. rewrite (scheduleReconnect_retry w Hon Hleft).
  unfold pending. cbn. rewrite <- app_assoc. repeat split.
  apply existsb_last.
Qed.

(** *** The timer callback and the reconnect loop *)

Lemma deliver_timeout (t : nat) (w : World) :
  pending t w = true ->
  deliver (Timeout t) w
  = connect
      (set_reconnectAttempts
         (reconnectAttempts w + 1)
         (set_timers (filter (fun e => negb (isTimer t e)) (timers w))
                     (timerSeq w) w)).
Proof. intros Hp. unfold deliver, onTimeout. now rewrite Hp. Qed.

Lemma deliver_timeout_keeps (t : nat) (w : World) :
  gscoreEnable (config w) = true ->
  config (deliver (Timeout t) w) = config w /\
  (reconnectAttempts w <= reconnectAttempts (deliver (Timeout t) w))%Z /\
  (pending t w = true ->
   reconnectAttempts (deliver (Timeout t) w) = (reconnectAttempts w + 1)%Z).
Proof.
  intros Hon. destruct (pending t w) eqn:Hp.
  - rewrite (deliver_timeout t w Hp).
    match goal with
    | |- context [connect ?x] =>
        destruct (connect_keeps x Hon) as (-> & ->)
    end.
    cbn. repeat split; lia.
  - unfold deliver. rewrite Hp. repeat split; [lia | discriminate].
Qed.

Lemma onClose_keeps (code : Z) (reason : string) (w : World) :
  config (onClose code reason w) = config w /\
  reconnectAttempts (onClose code reason w) = reconnectAttempts w.
Proof.
  unfold onClose.
  match goal with
  | |- context [scheduleReconnect ?x] =>
      destruct (scheduleReconnect_keeps x) as (-> & -> & _)
  end.
  now cbn.
Qed.

Lemma closeAndRetry_keeps (code : Z) (reason : string) (w : World) :
  gscoreEnable (config w) = true ->
  config (closeAndRetry code reason w) = config w.
Proof.
  intros Hon. unfold closeAndRetry.
  destruct (onClose_keeps code reason w) as (Hcfg & _).
  destruct (reconnectTimer (onClose code reason w)) as [t|]; [|exact Hcfg].
  rewrite <- Hcfg in Hon.
  destruct (deliver_timeout_keeps t _ Hon) as (-> & _). exact Hcfg.
Qed.

Lemma closeAndRetry_retry (code : Z) (reason : string) (w : World) :
  gscoreEnable (config w) = true ->
  ~ (0 < maxAttempts w /\ maxAttempts w <= reconnectAttempts w)%Z ->
  reconnectAttempts (closeAndRetry code reason w)
  = (reconnectAttempts w + 1)%Z.
Proof.
  intros Hon Hleft. unfold closeAndRetry.
  destruct (onClose_keeps code reason w) as (Hcfg & Hatt).
  assert (Hon' : gscoreEnable (config (onClose code reason w)) = true)
    by now rewrite Hcfg.
  set (w0 := log Warn (ClosedText code reason)
                 (set_ws None (set_isConnecting false w))).
  destruct (scheduleReconnect_retry_fields w0 Hon Hleft)
    as (_ & _ & Ht & Hp).
  change (scheduleReconnect w0) with (onClose code reason w) in Ht, Hp.
  rewrite Ht.
  destruct (deliver_timeout_keeps (timerSeq w0) _ Hon') as (_ & _ & Hinc).
  rewrite (Hinc Hp). lia.
Qed.

(** A turn of the loop spends one attempt while attempts are left. *)
Lemma closeAndRetry_progress (code : Z) (reason : string) (w : World) :
  gscoreEnable (config w) = true ->
  (Z.min (reconnectAttempts w + 1) (maxAttempts w)
   <= reconnectAttempts (closeAndRetry code reason w))%Z.
Proof.
  intros Hon.
  destruct (Z_lt_le_dec 0 (maxAttempts w)) as [Hmax|Hmax];
    [destruct (Z_le_gt_dec (maxAttempts w) (reconnectAttempts w))
      as [Hspent|Hleft]|].
  - unfold closeAndRetry.
    destruct (onClose_keeps code reason w) as (Hcfg & Hatt).
    assert (Hon' : gscoreEnable (config (onClose code reason w)) = true)
      by now rewrite Hcfg.
    destruct (reconnectTimer (onClose code reason w)) as [t|]; [|lia].
    destruct (deliver_timeout_keeps t _ Hon') as (_ & Hle & _). lia.
  - rewrite (closeAndRetry_retry code reason w Hon); lia.
  - rewrite (closeAndRetry_retry code reason w Hon); lia.
Qed.

Lemma onClose_exhausted (code : Z) (reason : string) (w : World) :
  gscoreEnable (config w) = true ->
  (0 < maxAttempts w)%Z ->
  (maxAttempts w <= reconnectAttempts w)%Z ->
  since w (onClose code reason w)
  = [Logged Warn (ClosedText code reason);
     Logged Error (LimitText (maxAttempts w))] /\
  timers (onClose code reason w) = timers w.
Proof.
  intros Hon Hmax Hspent. unfold onClose.
  set (w0 := log Warn (ClosedText code reason)
                 (set_ws None (set_isConnecting false w))).
  rewrite (scheduleReconnect_exhausted w0 Hon Hmax Hspent).
  split; [|reflexivity].
  apply since_extension. cbn. now rewrite <- app_assoc.
Qed.


(** *** connect *)

Lemma connect_guard (w : World) :
  gscoreEnable (config w) = true ->
  isOpen w || isConnecting w = true ->
  connect w = w.
Proof. intros Hon Hbusy. unfold connect. now rewrite Hon, Hbusy. Qed.

Lemma scheduleReconnect_effects (w : World) :
  exists effects,
    trace (scheduleReconnect w) = trace w ++ effects /\
    constructed effects = [] /\
    requested effects = [].
Proof.
  unfold scheduleReconnect, setTimeout. cbn.
  repeat (branch; cbn); rewrite <- ?app_assoc;
    solve [ exists []; now rewrite app_nil_r
          | eexists; split; [reflexivity | split; reflexivity] ].
Qed.

Lemma nth_error_last {A : Type} (l : list A) (x : A) :
  nth_error (l ++ [x]) (List.length l) = Some x.
Proof. induction l as [|y l IH]; simpl; [reflexivity | exact IH]. Qed.

(** [connect] past its two guards. *)
Lemma connect_attempt (w : World) :
  gscoreEnable (config w) = true ->
  isOpen w || isConnecting w = false ->
  connect w =
  match URL_new (routedUrl w) with
  | None => emit (InvalidURL (routedUrl w)) (set_isConnecting true w)
  | Some wsUrl =>
      let w1 := log Info (Text "[GScore] 正在连接...")
                    (set_isConnecting true w) in
      let url := URL_toString (withToken w wsUrl) in
      if WebSocket_new url then
        set_ws (Some (List.length (sockets w)))
               (set_sockets (sockets w ++ [CONNECTING])
                            (emit (Constructed
                                     url (Some (List.length (sockets w))))
                                  w1))
      else
        scheduleReconnect
          (set_isConnecting
             false
             (log Error (Text "[GScore] 创建连接失败:")
                  (emit (Constructed url None) w1)))
  end.
Proof. intros Hon Hidle. unfold connect. now rewrite Hon, Hidle. Qed.

(** A call of [connect] constructs at most one socket, and when it
    does the service is left connecting. *)
Lemma connect_effects (w : World) :
  exists effects,
    trace (connect w) = trace w ++ effects /\
    (constructed effects = [] \/
     (constructed effects = [List.length (sockets w)] /\
      gscoreEnable (config (connect w)) = true /\
      isConnecting (connect w) = true /\
      getStatus (connect w) = connecting)).
Proof.
  destruct (gscoreEnable (config w)) eqn:Hon.
  - destruct (isOpen w || isConnecting w) eqn:Hbusy.
    + rewrite (connect_guard w Hon Hbusy).
      exists []. rewrite app_nil_r. auto.
    + rewrite (connect_attempt w Hon Hbusy).
      destruct (URL_new (routedUrl w)) as [wsUrl|].
      * cbv zeta.
        destruct (WebSocket_new (URL_toString (withToken w wsUrl))).
        -- eexists. split; [cbn; rewrite <- app_assoc; reflexivity|].
           right. cbn. repeat split; [assumption|].
           unfold getStatus, isOpen, readyState. cbn.
           now rewrite nth_error_last.
        -- match goal with
           | |- context [scheduleReconnect ?x] =>
               destruct (scheduleReconnect_effects x) as (l & -> & Hl & _)
           end.
           eexists. split; [cbn; rewrite <- !app_assoc; reflexivity|].
           left. cbn. exact Hl.
      * eexists. split; [cbn; reflexivity | now left].
  - unfold connect. rewrite Hon. cbn [negb].
    exists (cleared w ++ closed w). split; [apply trace_disconnect|].
    left. unfold cleared, closed.
    now destruct (reconnectTimer w), (ws w).
Qed.

Lemma constructed_app (l r : list Effect) :
  constructed (l ++ r) = constructed l ++ constructed r.
Proof. apply flat_map_app. Qed.

Lemma getStatus_connected (w : World) :
  getStatus w = connected <-> isOpen w = true.
Proof.
  unfold getStatus. destruct (isOpen w); [tauto|].
  split; [|discriminate].
  now destruct (isConnecting w || _).
Qed.

Lemma nth_error_update_other {A : Type} (i j : nat) (x : A) (l : list A) :
  i <> j -> nth_error (update i x l) j = nth_error l j.
Proof.
  revert i j; induction l as [|y l IH]; intros [|i] [|j] Hij; simpl;
    try reflexivity; [contradiction | apply IH; congruence].
Qed.

Lemma nth_error_snoc {A : Type} (l : list A) (x y : A) (i : nat) :
  nth_error (l ++ [x]) i = Some y ->
  nth_error l i = Some y \/ (i = List.length l /\ y = x).
Proof.
  intros Hi. destruct (Nat.lt_ge_cases i (List.length l)) as [Hlt|Hge].
  - left. now rewrite nth_error_app1 in Hi.
  - right. rewrite nth_error_app2 in Hi by exact Hge.
    destruct (i - List.length l)%nat as [|k] eqn:Ek; simpl in Hi.
    + split; [lia | congruence].
    + now destruct k.
Qed.

(** A state in which [connect] passes its guards holds no live socket. *)
Lemma idle_not_live (w : World) (id : nat) (state : ReadyState) :
  singleSocket w ->
  isOpen w || isConnecting w = false ->
  nth_error (sockets w) id = Some state ->
  live state = false.
Proof.
  intros (Hheld & Hflag) Hidle Hid.
  apply orb_false_iff in Hidle as (Hopen & Hconn).
  destruct (live state) eqn:Hlive; [|reflexivity].
  pose proof (Hheld id state Hid Hlive) as Hws.
  unfold isOpen, readyState in Hopen. rewrite Hws, Hid in Hopen.
  destruct state; try discriminate.
  rewrite (Hflag id Hws Hid) in Hconn. discriminate.
Qed.

Lemma sockets_disconnect (w : World) :
  sockets (disconnect w)
  = match ws w with
    | Some held =>
        match nth_error (sockets w) held with
        | Some CLOSED | None => sockets w
        | Some _ => update held CLOSING (sockets w)
        end
    | None => sockets w
    end.
Proof.
  unfold disconnect, closeSocket.
  destruct (reconnectTimer w), (ws w) as [held|] eqn:Ews; cbn;
    rewrite ?Ews; cbn; try reflexivity;
    now destruct (nth_error (sockets w) held) as [[]|].
Qed.

Lemma disconnect_sockets (w : World) (id : nat) (state : ReadyState) :
  nth_error (sockets (disconnect w)) id = Some state ->
  live state = true ->
  nth_error (sockets w) id = Some state /\ ws w <> Some id.
Proof.
  rewrite sockets_disconnect.
  destruct (ws w) as [held|]; [|intros Hid _; now split].
  intros Hid Hlive. destruct (Nat.eq_dec held id) as [->|Hother].
  - destruct (nth_error (sockets w) id) as [old|] eqn:Hold;
      [|rewrite Hold in Hid; discriminate].
    assert (Hin : (id < List.length (sockets w))%nat)
      by (apply nth_error_Some; now rewrite Hold).
    destruct old;
      try (rewrite (nth_error_update _ _ _ Hin) in Hid;
           injection Hid as <-; discriminate).
    rewrite Hold in Hid. injection Hid as <-. discriminate.
  - split; [|congruence].
    destruct (nth_error (sockets w) held) as [[]|];
      rewrite ?(nth_error_update_other _ _ _ _ Hother) in Hid; exact Hid.
Qed.

(** [connect] keeps the service to a single live socket. *)
Lemma connect_singleSocket (w : World) :
  singleSocket w -> singleSocket (connect w).
Proof.
  intros Hw. destruct (gscoreEnable (config w)) eqn:Hon.
  - destruct (isOpen w || isConnecting w) eqn:Hbusy.
    + now rewrite (connect_guard w Hon Hbusy).
    + rewrite (connect_attempt w Hon Hbusy).
      destruct (URL_new (routedUrl w)) as [wsUrl|].
      * cbv zeta.
        destruct (WebSocket_new (URL_toString (withToken w wsUrl))).
        -- split; cbn; [|reflexivity].
           intros id state Hid Hlive.
           apply nth_error_snoc in Hid as [Hold|(-> & _)]; [|reflexivity].
           rewrite (idle_not_live w id state Hw Hbusy Hold) in Hlive.
           discriminate.
        -- match goal with
           | |- singleSocket (scheduleReconnect ?x) =>
               destruct (scheduleReconnect_keeps x)
                 as (_ & _ & Hws & Hflag & Hsockets)
           end.
           unfold singleSocket. rewrite Hws, Hflag, Hsockets. cbn.
           split.
           ++ apply Hw.
           ++ intros id Hid Hstate.
              pose proof (idle_not_live w id CONNECTING Hw Hbusy Hstate).
              discriminate.
      * split; cbn; [apply Hw | reflexivity].
  - unfold connect. rewrite Hon. cbn [negb].
    destruct (disconnect_fields w) as (_ & Hws & _ & _ & _).
    split.
    + intros id state Hid Hlive.
      destruct (disconnect_sockets w id state Hid Hlive) as (Hold & Hother).
      destruct Hw as (Hheld & _).
      elim Hother. exact (Hheld id state Hold Hlive).
    + intros id Hid. rewrite Hws in Hid. discriminate.
Qed.

(** The guard of [connect].  While the service is connected (its
    socket is open) or the flag [isConnecting] is set, [connect]
    changes nothing and opens nothing.  Two calls in a row, from any
    state, construct at most one socket: once a call has constructed
    one the service is connecting and the next call is the same no-op.
    And a call of [connect] by itself adds no second live socket: when
    every live socket is the one the service holds, the same is true
    after the call. *)
Theorem connect_idempotent (w : World) :
  (gscoreEnable (config w) = true ->
   getStatus w = connected \/ isConnecting w = true ->
   connect w = w /\ requested (since w (connect w)) = []) /\
  (List.length (constructed (since w (connect (connect w)))) <= 1)%nat /\
  (constructed (since w (connect w)) <> [] ->
   getStatus (connect w) = connecting /\
   connect (connect w) = connect w) /\
  (singleSocket w -> singleSocket (connect w)).
Proof.
  destruct (connect_effects w) as (l1 & Ht1 & Hl1).
  destruct (connect_effects (connect w)) as (l2 & Ht2 & Hl2).
  assert (Hagain :
            constructed l1 = [List.length (sockets w)] /\
            gscoreEnable (config (connect w)) = true /\
            isConnecting (connect w) = true /\
            getStatus (connect w) = connecting ->
            connect (connect w) = connect w).
  { intros (_ & Hon & Hflag & _). apply connect_guard; [exact Hon|].
    rewrite Hflag. apply orb_true_r. }
  split; [|split; [|split; [|apply connect_singleSocket]]].
  - intros Hon Hbusy.
    assert (Hsame : connect w = w).
    { apply connect_guard; [exact Hon|].
      destruct Hbusy as [Hc|Hf].
      - apply getStatus_connected in Hc. now rewrite Hc.
      - rewrite Hf. apply orb_true_r. }
    rewrite Hsame. now rewrite since_refl.
  - destruct Hl1 as [Hnone|Hone].
    + rewrite Ht1, <- app_assoc in Ht2.
      rewrite (since_extension _ _ _ Ht2), constructed_app, Hnone.
      destruct Hl2 as [->|(-> & _)]; simpl; lia.
    + rewrite (Hagain Hone), (since_extension _ _ _ Ht1).
      destruct Hone as (-> & _). simpl; lia.
  - rewrite (since_extension _ _ _ Ht1). intros Hsome.
    destruct Hl1 as [Hnone|Hone]; [contradiction|].
    split; [apply Hone | apply (Hagain Hone)].
Qed.

(** *** The socket URL *)

Lemma strippedUrl_spec (w : World) : stripped (baseUrl w) (strippedUrl w).
Proof.
  unfold stripped, strippedUrl.
  destruct (Js.endsWith (baseUrl w) "/") eqn:Hend.
  - left. apply endsWith_iff in Hend as [r Hr].
    rewrite Hr at 2. now rewrite (slice_drop_last r "/").
  - right. split; [reflexivity|]. intros r Hr.
    assert (Js.endsWith (baseUrl w) "/" = true)
      by (apply endsWith_iff; now exists r).
    congruence.
Qed.

Lemma routedUrl_spec (w : World) : routed (strippedUrl w) (routedUrl w).
Proof.
  unfold routed, routedUrl, contains.
  destruct (Js.includes (strippedUrl w) "/ws/") eqn:Hin; cbn [negb].
  - left. split; [now apply includes_iff | reflexivity].
  - right. split; [|reflexivity]. intros Hsome.
    apply includes_iff in Hsome. congruence.
Qed.

Lemma withToken_spec (w : World) (u : URL) :
  authenticated (gscoreToken (config w)) u (withToken w u).
Proof.
  unfold authenticated, withToken.
  destruct (String.eqb_spec (gscoreToken (config w)) "") as [->|Htoken];
    cbn [negb andb].
  - right. split; [now left | reflexivity].
  - destruct (searchParams_has u "token") eqn:Hhas; cbn [negb].
    + right. split; [now right | reflexivity].
    + left. repeat split. exact Htoken.
Qed.

(** C3.  Past its guards, [connect] derives the socket URL from the
    configured base URL in three steps: one trailing [/] is dropped;
    [/ws/napcat] is appended exactly when the text has no [/ws/]; and
    the token is appended as the query parameter [token] exactly when
    it is not empty and the URL has no [token] parameter.  The result
    is the URL handed to the socket constructor. *)
Theorem connect_socket_url (w : World) :
  gscoreEnable (config w) = true ->
  isOpen w || isConnecting w = false ->
  exists s r,
    stripped (baseUrl w) s /\
    routed s r /\
    match URL_new r with
    | Some u =>
        exists u',
          authenticated (gscoreToken (config w)) u u' /\
          requested (since w (connect w)) = [URL_toString u']
    | None => since w (connect w) = [InvalidURL r]
    end.
Proof.
  intros Hon Hidle. exists (strippedUrl w), (routedUrl w).
  split; [apply strippedUrl_spec | split; [apply routedUrl_spec|]].
  rewrite (connect_attempt w Hon Hidle).
  destruct (URL_new (routedUrl w)) as [u|].
  - exists (withToken w u). split; [apply withToken_spec|]. cbv zeta.
    destruct (WebSocket_new (URL_toString (withToken w u))).
    + erewrite since_extension; [|cbn; rewrite <- app_assoc; reflexivity].
      reflexivity.
    + match goal with
      | |- context [scheduleReconnect ?x] =>
          destruct (scheduleReconnect_effects x) as (l & Hl & _ & Hreq)
      end.
      erewrite since_extension;
        [|rewrite Hl; cbn; rewrite <- !app_assoc; reflexivity].
      unfold requested in *. cbn. now rewrite Hreq.
  - now apply since_extension.
Qed.

End ServiceFacts.

(** ** The bridges *)

Section BridgeFacts.

Context `{Host}.

Local Open Scope list_scope.

Lemma since_emit (e : Effect) (w : World) : since w (emit e w) = [e].
Proof. now apply since_extension. Qed.

(** *** Log passthrough *)

Lemma isLogType_prefix (suffix : string) :
  isLogType (Some ("log_" ++ suffix)%string) = true.
Proof.
  unfold isLogType, Js.startsWith. now rewrite prefix_append.
Qed.

Lemma logLine_spec (suffix : string) (d : JsValue) :
  logLine ("log_" ++ suffix)%string d
  = (severity (Js.toLowerCase suffix),
     Text (logText (Js.toLowerCase suffix)
                   (ToString (orElse d (JString ""))))).
Proof.
  unfold logLine. rewrite replace_prefix.
  generalize (Js.toLowerCase suffix) as level. intros level.
  unfold severity, logText.
  destruct (String.eqb_spec level "info") as [->|_]; [reflexivity|].
  destruct (String.eqb_spec level "warning") as [->|_]; [reflexivity|].
  destruct (String.eqb_spec level "error") as [->|_]; [reflexivity|].
  destruct (String.eqb_spec level "success") as [->|_]; reflexivity.
Qed.

(** C4, as amended.  When the first content item has a type
    [log_<suffix>], the envelope is only logged: no send call is
    issued, and one line carrying the first item's payload is logged
    at the severity the lower-cased suffix selects ([info] to info,
    [warning] to warn, [error] to error, [success] to info with the
    success marker, anything else to debug). *)
Theorem log_passthrough (msgSend : GsCoreMessageSend)
        (first : GsCoreMessage) (rest : list GsCoreMessage)
        (suffix : string) (w : World) :
  content msgSend = Some (first :: rest) ->
  type first = Some ("log_" ++ suffix)%string ->
  since w (handleGsCoreMessage msgSend w)
  = [Logged (severity (Js.toLowerCase suffix))
            (Text (logText (Js.toLowerCase suffix)
                           (ToString (orElse (data first) (JString "")))))] /\
  calls (since w (handleGsCoreMessage msgSend w)) = [].
Proof.
  intros Hcontent Htype.
  assert (Hrun :
            handleGsCoreMessage msgSend w
            = log (severity (Js.toLowerCase suffix))
                  (Text (logText (Js.toLowerCase suffix)
                                 (ToString (orElse (data first) (JString "")))))
                  w).
  { unfold handleGsCoreMessage.
    now rewrite Hcontent, Htype, isLogType_prefix, logLine_spec. }
  unfold log in Hrun. rewrite Hrun, since_emit. now split.
Qed.

(** *** Dispatch *)

Lemma handle_empty (msgSend : GsCoreMessageSend) (w : World) :
  content msgSend = None \/ content msgSend = Some [] ->
  since w (handleGsCoreMessage msgSend w)
  = [Logged Debug (Text "[GScore] 收到空消息，忽略")].
Proof.
  intros [Hc|Hc]; unfold handleGsCoreMessage; rewrite Hc;
    now apply since_extension.
Qed.

Lemma handle_no_target (msgSend : GsCoreMessageSend)
      (first : GsCoreMessage) (rest : list GsCoreMessage) (w : World) :
  content msgSend = Some (first :: rest) ->
  isLogType (type first) = false ->
  target_id msgSend = None \/ target_id msgSend = Some ""%string ->
  since w (handleGsCoreMessage msgSend w)
  = [Logged Warn (Text "[GScore] 收到消息但没有 target_id，无法发送")].
Proof.
  intros Hc Hlog [Ht|Ht]; unfold handleGsCoreMessage;
    rewrite Hc, Hlog, Ht; now apply since_extension.
Qed.

Lemma handle_nothing_decoded (msgSend : GsCoreMessageSend)
      (first : GsCoreMessage) (rest : list GsCoreMessage) (w : World) :
  content msgSend = Some (first :: rest) ->
  isLogType (type first) = false ->
  convertGsCoreToOB11 (first :: rest) = [] ->
  calls (since w (handleGsCoreMessage msgSend w)) = [].
Proof.
  intros Hc Hlog Hnone. unfold handleGsCoreMessage.
  rewrite Hc, Hlog, Hnone.
  destruct (target_id msgSend) as [[|c id]|]; cbn [List.length Nat.eqb];
    unfold log; now rewrite since_emit.
Qed.

(** The send branch of [handleGsCoreMessage]. *)
Lemma handle_send (msgSend : GsCoreMessageSend)
      (first : GsCoreMessage) (rest : list GsCoreMessage)
      (id : string) (w : World) :
  content msgSend = Some (first :: rest) ->
  isLogType (type first) = false ->
  target_id msgSend = Some id ->
  id <> ""%string ->
  convertGsCoreToOB11 (first :: rest) <> [] ->
  calls (since w (handleGsCoreMessage msgSend w))
  = [if isDirect (target_type msgSend)
     then SendPrivate id (convertGsCoreToOB11 (first :: rest))
     else SendGroup id (convertGsCoreToOB11 (first :: rest))].
Proof.
  intros Hc Hlog Hid Hne Hsome. unfold handleGsCoreMessage.
  rewrite Hc, Hlog, Hid.
  destruct id as [|c id]; [contradiction|].
  destruct (convertGsCoreToOB11 (first :: rest)) as [|seg segs] eqn:Hsegs;
    [contradiction|].
  cbn [List.length Nat.eqb].
  destruct (isDirect (target_type msgSend)); cbv zeta;
    match goal with
    | |- context [send_msg ?c ?p] => destruct (send_msg c p)
    end;
    (erewrite since_extension;
     [|cbn; rewrite <- app_assoc; reflexivity]);
    reflexivity.
Qed.

Lemma isDirect_iff (t : option string) :
  isDirect t = true <-> t = Some "direct"%string.
Proof.
  destruct t as [s|]; cbn; [|split; discriminate].
  rewrite String.eqb_eq. split; congruence.
Qed.

(** C5, as amended.  For an envelope whose content is not log-typed,
    whose target id is present and not empty, and whose content
    decodes to at least one segment: a private send to the target id
    is issued when the target type is [direct], and a group send to
    the target id for every other target type.  An envelope with no
    content or empty content, or with content and no target id, is
    logged and no send call is issued. *)
Theorem dispatch_by_target_type (msgSend : GsCoreMessageSend) (w : World) :
  (content msgSend = None \/ content msgSend = Some [] ->
   since w (handleGsCoreMessage msgSend w)
   = [Logged Debug (Text "[GScore] 收到空消息，忽略")]) /\
  (forall first rest,
      content msgSend = Some (first :: rest) ->
      isLogType (type first) = false ->
      (target_id msgSend = None \/ target_id msgSend = Some ""%string ->
       since w (handleGsCoreMessage msgSend w)
       = [Logged Warn
                 (Text "[GScore] 收到消息但没有 target_id，无法发送")]) /\
      (forall id,
          target_id msgSend = Some id ->
          id <> ""%string ->
          convertGsCoreToOB11 (first :: rest) <> [] ->
          (target_type msgSend = Some "direct"%string ->
           calls (since w (handleGsCoreMessage msgSend w))
           = [SendPrivate id (convertGsCoreToOB11 (first :: rest))]) /\
          (forall t,
              target_type msgSend = Some t ->
              t <> "direct"%string ->
              calls (since w (handleGsCoreMessage msgSend w))
              = [SendGroup id (convertGsCoreToOB11 (first :: rest))]))).
Proof.
  split; [apply handle_empty|].
  intros first rest Hc Hlog.
  split; [now apply (handle_no_target msgSend first rest)|].
  intros id Hid Hne Hsome.
  rewrite (handle_send msgSend first rest id w Hc Hlog Hid Hne Hsome).
  split.
  - intros Ht. now rewrite (proj2 (isDirect_iff _) Ht).
  - intros t Ht Hother.
    destruct (isDirect (target_type msgSend)) eqn:Hd; [|reflexivity].
    apply isDirect_iff in Hd. congruence.
Qed.

(** C10, as amended.  For an envelope whose content is not empty,
    whose first item is not log-typed, whose content decodes to at
    least one segment and whose target id is present and not empty,
    exactly one send call is issued: a private send to the target id
    when the target type is [direct], a group send to the target id
    otherwise, also when the target type is missing or unknown. *)
Theorem dispatch_always_sends (msgSend : GsCoreMessageSend)
        (first : GsCoreMessage) (rest : list GsCoreMessage)
        (id : string) (w : World) :
  content msgSend = Some (first :: rest) ->
  isLogType (type first) = false ->
  convertGsCoreToOB11 (first :: rest) <> [] ->
  target_id msgSend = Some id ->
  id <> ""%string ->
  (target_type msgSend = Some "direct"%string ->
   calls (since w (handleGsCoreMessage msgSend w))
   = [SendPrivate id (convertGsCoreToOB11 (first :: rest))]) /\
  (target_type msgSend <> Some "direct"%string ->
   calls (since w (handleGsCoreMessage msgSend w))
   = [SendGroup id (convertGsCoreToOB11 (first :: rest))]).
Proof.
  intros Hc Hlog Hsome Hid Hne.
  rewrite (handle_send msgSend first rest id w Hc Hlog Hid Hne Hsome).
  destruct (isDirect (target_type msgSend)) eqn:Hd.
  - apply isDirect_iff in Hd. split; [reflexivity | contradiction].
  - split; [|reflexivity]. intros Ht.
    apply isDirect_iff in Ht. congruence.
Qed.

(** *** Raw-text fallback *)

Lemma enrichReply_unstructured (event : OB11Message)
      (items : list GsCoreMessage) (w : World) :
  unstructured event -> enrichReply event items w = (items, w).
Proof.
  unfold unstructured, enrichReply.
  destruct (message event); [reflexivity | reflexivity | contradiction].
Qed.

Lemma connected_socket (w : World) :
  getStatus w = connected -> exists id, ws w = Some id.
Proof.
  unfold getStatus, isOpen, readyState.
  destruct (ws w) as [id|]; [now exists id|].
  now destruct (isConnecting w || false).
Qed.

(** C8, as amended.  For an inbound event whose message attribute is
    not an array of segments and whose raw text is not empty, the
    encoder produces exactly one text item carrying the raw text; and
    when such an event is a group message and the service is
    connected, the frame sent upstream has that content and user type
    [group]. *)
Theorem raw_text_fallback (event : OB11Message) (w : World) :
  unstructured event ->
  raw_message event <> ""%string ->
  convertOB11ToGsCoreContent event
  = [item "text" (JString (raw_message event))] /\
  (getStatus w = connected ->
   message_type event = "group"%string ->
   exists id frame,
     ws w = Some id /\
     since w (forwardMessage event w)
     = [SocketSent id frame;
        Logged Debug
               (Text ("[GScore] 已转发群 " ++
                      ToString (orElse (group_id event) (user_id event)) ++
                      " 消息"))] /\
     recv_content frame = [item "text" (JString (raw_message event))] /\
     recv_user_type frame = "group"%string).
Proof.
  intros Hraw Htext.
  assert (Hcontent :
            convertOB11ToGsCoreContent event
            = [item "text" (JString (raw_message event))]).
  { unfold convertOB11ToGsCoreContent, unstructured in *.
    destruct (String.eqb_spec (raw_message event) "") as [|_];
      [contradiction|].
    destruct (message event); [reflexivity | reflexivity | contradiction]. }
  split; [exact Hcontent|].
  intros Hup Hgroup. destruct (connected_socket w Hup) as [id Hid].
  exists id. eexists. split; [exact Hid|].
  unfold forwardMessage.
  rewrite Hup, Hgroup, Hcontent, (enrichReply_unstructured _ _ _ Hraw), Hid.
  cbn [String.eqb Ascii.eqb Bool.eqb negb andb].
  split.
  - apply since_extension. cbn. now rewrite <- app_assoc.
  - split; reflexivity.
Qed.

End BridgeFacts.

(** ** The connection life cycle *)

Section LifecycleFacts.

Context `{Host}.

Local Open Scope list_scope.

(** A service that holds nothing is left as it is by [disconnect]. *)
Lemma disconnect_idle (w : World) :
  reconnectTimer w = None -> ws w = None ->
  isConnecting w = false -> reconnectAttempts w = 0%Z ->
  disconnect w = w.
Proof.
  destruct w; cbn. intros -> -> -> ->. reflexivity.
Qed.

(** X1.  [disconnect] is idempotent: a second call in a row changes
    nothing and has no effect, and the status after a call is
    disconnected. *)
Theorem disconnect_twice (w : World) :
  disconnect (disconnect w) = disconnect w /\
  since (disconnect w) (disconnect (disconnect w)) = [] /\
  getStatus (disconnect w) = disconnected.
Proof.
  destruct (disconnect_fields w) as (Htimer & Hws & Hattempts & Hflag & _).
  rewrite (disconnect_idle (disconnect w) Htimer Hws Hflag Hattempts).
  split; [reflexivity|]. split; [apply since_refl|].
  unfold getStatus, isOpen, readyState. now rewrite Hws, Hflag.
Qed.

Lemma isOpen_held (w : World) (id : nat) :
  ws w = Some id -> nth_error (sockets w) id = Some OPEN -> isOpen w = true.
Proof. intros Hws Hid. unfold isOpen, readyState. now rewrite Hws, Hid. Qed.

(** X2.  When the socket the service holds opens, the service is
    connected, the attempt counter is back to 0 and the reconnect timer
    it held is cancelled and forgotten. *)
Theorem open_event (w : World) (id : nat) :
  ws w = Some id ->
  nth_error (sockets w) id = Some CONNECTING ->
  getStatus (deliver (SocketOpen id) w) = connected /\
  isConnecting (deliver (SocketOpen id) w) = false /\
  reconnectAttempts (deliver (SocketOpen id) w) = 0%Z /\
  reconnectTimer (deliver (SocketOpen id) w) = None /\
  (forall t, reconnectTimer w = Some t ->
             pending t (deliver (SocketOpen id) w) = false).
Proof.
  intros Hws Hid.
  assert (Hin : (id < List.length (sockets w))%nat)
    by (apply nth_error_Some; now rewrite Hid).
  unfold deliver. rewrite Hid. unfold onOpen.
  destruct (reconnectTimer w) as [t|] eqn:Ht; cbn; rewrite ?Ht; cbn;
    (split;
     [apply getStatus_connected, isOpen_held with (id := id); cbn;
      [exact Hws | now apply nth_error_update]|]);
    repeat split; try discriminate; try assumption.
  intros t' [= <-]. unfold pending. cbn. apply pending_cleared.
Qed.

(** What the close handler does, whichever socket closed. *)
Lemma onClose_fields (code : Z) (reason : string) (w : World) :
  ws (onClose code reason w) = None /\
  isConnecting (onClose code reason w) = false /\
  sockets (onClose code reason w) = sockets w.
Proof.
  unfold onClose.
  match goal with
  | |- context [scheduleReconnect ?x] =>
      destruct (scheduleReconnect_keeps x) as (_ & _ & -> & -> & ->)
  end.
  now cbn.
Qed.

(** X3.  A close event of a socket that is not closed yet leaves the
    service disconnected with no socket handle, whether or not the
    socket is the one the service holds; the socket is closed; and with
    the feature enabled and attempts left, one reconnect timer of the
    configured interval is set. *)
Theorem close_event (w : World) (id : nat) (state : ReadyState)
        (code : Z) (reason : string) :
  nth_error (sockets w) id = Some state ->
  state <> CLOSED ->
  ws (deliver (SocketClose id code reason) w) = None /\
  getStatus (deliver (SocketClose id code reason) w) = disconnected /\
  nth_error (sockets (deliver (SocketClose id code reason) w)) id
  = Some CLOSED /\
  (gscoreEnable (config w) = true ->
   ~ (0 < maxAttempts w /\ maxAttempts w <= reconnectAttempts w)%Z ->
   timeoutsSet (since w (deliver (SocketClose id code reason) w))
   = [(timerSeq w, intervalMs w)]).
Proof.
  intros Hid Hstate.
  assert (Hin : (id < List.length (sockets w))%nat)
    by (apply nth_error_Some; now rewrite Hid).
  assert (Hrun :
            deliver (SocketClose id code reason) w
            = onClose code reason
                      (set_sockets (update id CLOSED (sockets w)) w)).
  { unfold deliver. rewrite Hid. now destruct state. }
  rewrite Hrun.
  destruct (onClose_fields code reason
                           (set_sockets (update id CLOSED (sockets w)) w))
    as (Hws & Hflag & Hsockets).
  split; [exact Hws|]. split; [|split].
  - unfold getStatus, isOpen, readyState. now rewrite Hws, Hflag.
  - rewrite Hsockets. cbn. now apply nth_error_update.
  - intros Hon Hleft. unfold onClose.
    set (w0 := log Warn (ClosedText code reason)
                   (set_ws None
                           (set_isConnecting
                              false
                              (set_sockets (update id CLOSED (sockets w))
                                           w)))).
    destruct (scheduleReconnect_retry_fields w0 Hon Hleft) as (Htrace & _).
    erewrite since_extension;
      [|rewrite Htrace; cbn; rewrite <- app_assoc; reflexivity].
    reflexivity.
Qed.

Lemma open_effects (w : World) (id : nat) :
  nth_error (sockets w) id = Some CONNECTING ->
  config (deliver (SocketOpen id) w) = config w /\
  reconnectAttempts (deliver (SocketOpen id) w) = 0%Z /\
  sockets (deliver (SocketOpen id) w) = update id OPEN (sockets w) /\
  timerSeq (deliver (SocketOpen id) w) = timerSeq w.
Proof.
  intros Hid. unfold deliver. rewrite Hid. unfold onOpen.
  destruct (reconnectTimer w) as [t|] eqn:Ht; cbn; rewrite Ht; cbn;
    repeat split.
Qed.

(** X4.  A successful open restores the retry budget: whatever the
    attempt counter was, when the held socket opens and later closes
    with the feature enabled, a reconnect timer is set. *)
Theorem open_rearms (w : World) (id : nat) (code : Z) (reason : string) :
  gscoreEnable (config w) = true ->
  ws w = Some id ->
  nth_error (sockets w) id = Some CONNECTING ->
  let w1 := deliver (SocketOpen id) w in
  timeoutsSet (since w1 (deliver (SocketClose id code reason) w1))
  = [(timerSeq w, intervalMs w)].
Proof.
  intros Hon Hws Hid w1.
  assert (Hin : (id < List.length (sockets w))%nat)
    by (apply nth_error_Some; now rewrite Hid).
  destruct (open_effects w id Hid)
    as (Hcfg & Hattempts & Hsockets & Hseq).
  fold w1 in Hcfg, Hattempts, Hsockets, Hseq. clearbody w1.
  assert (Hopen : nth_error (sockets w1) id = Some OPEN)
    by (rewrite Hsockets; now apply nth_error_update).
  assert (Hon1 : gscoreEnable (config w1) = true) by now rewrite Hcfg.
  assert (Hleft :
            ~ (0 < maxAttempts w1 /\ maxAttempts w1 <= reconnectAttempts w1)%Z)
    by (rewrite Hattempts; lia).
  assert (Hrun :
            deliver (SocketClose id code reason) w1
            = onClose code reason
                      (set_sockets (update id CLOSED (sockets w1)) w1)).
  { unfold deliver. now rewrite Hopen. }
  rewrite Hrun. unfold onClose.
  set (w0 := log Warn (ClosedText code reason)
                 (set_ws None
                         (set_isConnecting
                            false
                            (set_sockets (update id CLOSED (sockets w1))
                                         w1)))).
  destruct (scheduleReconnect_retry_fields w0 Hon1 Hleft) as (Htrace & _).
  erewrite since_extension;
    [|rewrite Htrace; cbn; rewrite <- app_assoc; reflexivity].
  cbn. unfold intervalMs. cbn. now rewrite Hseq, Hcfg.
Qed.

End LifecycleFacts.

(** ** The retry budget and the timers *)

Section BudgetFacts.

Context `{Host}.

Local Open Scope list_scope.

Lemma onClose_retry (code : Z) (reason : string) (w : World) :
  gscoreEnable (config w) = true ->
  ~ (0 < maxAttempts w /\ maxAttempts w <= reconnectAttempts w)%Z ->
  timeoutsSet (since w (onClose code reason w))
  = [(timerSeq w, intervalMs w)].
Proof.
  intros Hon Hleft. unfold onClose.
  set (w0 := log Warn (ClosedText code reason)
                 (set_ws None (set_isConnecting false w))).
  destruct (scheduleReconnect_retry_fields w0 Hon Hleft) as (Htrace & _).
  erewrite since_extension;
    [|rewrite Htrace; cbn; rewrite <- app_assoc; reflexivity].
  reflexivity.
Qed.

Lemma turns_cons (c : Z * string) (closes : list (Z * string)) (w : World) :
  turns (c :: closes) w = turns closes (closeAndRetry (fst c) (snd c) w).
Proof. reflexivity. Qed.

(** The counter after some turns of the loop. *)
Lemma turns_attempts (closes : list (Z * string)) (w : World) :
  gscoreEnable (config w) = true ->
  (0 < maxAttempts w)%Z ->
  (0 <= reconnectAttempts w)%Z ->
  config (turns closes w) = config w /\
  (Z.min (reconnectAttempts w + Z.of_nat (List.length closes)) (maxAttempts w)
   <= reconnectAttempts (turns closes w))%Z /\
  ((reconnectAttempts w + Z.of_nat (List.length closes) <= maxAttempts w)%Z ->
   reconnectAttempts (turns closes w)
   = (reconnectAttempts w + Z.of_nat (List.length closes))%Z).
Proof.
  revert w. induction closes as [|c closes IH]; intros w Hon Hmax Hstart.
  - cbn. repeat split; lia.
  - rewrite turns_cons.
    pose proof (closeAndRetry_keeps (fst c) (snd c) w Hon) as Hcfg.
    pose proof (closeAndRetry_progress (fst c) (snd c) w Hon) as Hstep.
    set (w1 := closeAndRetry (fst c) (snd c) w) in *.
    assert (Hm : maxAttempts w1 = maxAttempts w)
      by (unfold maxAttempts; now rewrite Hcfg).
    assert (Hon1 : gscoreEnable (config w1) = true) by now rewrite Hcfg.
    destruct (IH w1 Hon1 ltac:(lia) ltac:(lia)) as (Hc & Hle & Heq).
    rewrite Hm in Hle, Heq.
    change (List.length (c :: closes)) with (S (List.length closes)).
    split; [now rewrite Hc|]. split; [lia|].
    intros Hroom.
    assert (Hone : reconnectAttempts w1 = (reconnectAttempts w + 1)%Z).
    { apply closeAndRetry_retry; [exact Hon | lia]. }
    rewrite Heq; lia.
Qed.

(** X5.  With [maxAttempts = M > 0] and the counter at 0, the loop
    retries exactly [M] times: after fewer than [M] turns of close and
    retry the next close sets a timer of the configured interval, and
    after [M] turns or more it sets none. *)
Theorem retry_budget (w : World) (closes : list (Z * string))
        (code : Z) (reason : string) :
  gscoreEnable (config w) = true ->
  (0 < maxAttempts w)%Z ->
  reconnectAttempts w = 0%Z ->
  ((Z.of_nat (List.length closes) < maxAttempts w)%Z ->
   timeoutsSet (since (turns closes w) (onClose code reason (turns closes w)))
   = [(timerSeq (turns closes w), intervalMs w)]) /\
  ((maxAttempts w <= Z.of_nat (List.length closes))%Z ->
   timeoutsSet (since (turns closes w) (onClose code reason (turns closes w)))
   = []).
Proof.
  intros Hon Hmax Hzero.
  destruct (turns_attempts closes w Hon Hmax ltac:(lia)) as (Hc & Hle & Heq).
  rewrite Hzero in Hle, Heq.
  assert (Hm : maxAttempts (turns closes w) = maxAttempts w)
    by (unfold maxAttempts; now rewrite Hc).
  assert (Hi : intervalMs (turns closes w) = intervalMs w)
    by (unfold intervalMs; now rewrite Hc).
  assert (Hon' : gscoreEnable (config (turns closes w)) = true)
    by now rewrite Hc.
  split.
  - intros Hfew. rewrite <- Hi. apply onClose_retry; [exact Hon'|].
    rewrite Hm, Heq; lia.
  - intros Hmany.
    destruct (onClose_exhausted code reason (turns closes w) Hon')
      as (-> & _); [lia | lia | reflexivity].
Qed.

Lemma pending_snoc (t t' : nat) (d : Z) (l : list (nat * Z)) :
  existsb (isTimer t) l = true ->
  existsb (isTimer t) (l ++ [(t', d)]) = true.
Proof. intros Hl. rewrite existsb_app, Hl. reflexivity. Qed.

Lemma pending_filter_other (t t' : nat) (l : list (nat * Z)) :
  t <> t' ->
  existsb (isTimer t) (filter (fun e => negb (isTimer t' e)) l)
  = existsb (isTimer t) l.
Proof.
  intros Hother. induction l as [|e l IH]; [reflexivity|]. cbn.
  destruct (isTimer t' e) eqn:E'; cbn; rewrite IH; [|reflexivity].
  unfold isTimer in *. apply Nat.eqb_eq in E'.
  destruct (Nat.eqb_spec (fst e) t); [congruence | reflexivity].
Qed.

Lemma disconnect_timers (w : World) :
  timers (disconnect w)
  = match reconnectTimer w with
    | Some t => filter (fun e => negb (isTimer t e)) (timers w)
    | None => timers w
    end.
Proof.
  unfold disconnect, closeSocket.
  destruct (reconnectTimer w), (ws w) as [held|] eqn:Ews; cbn;
    rewrite ?Ews; cbn; try reflexivity;
    now destruct (nth_error (sockets w) held) as [[]|].
Qed.

(** X6.  [scheduleReconnect] does not cancel a timer that is already
    pending: when it sets a timer, an earlier one stays pending beside
    it and the handle moves to the new one, so a later [disconnect]
    cancels the new timer only. *)
Theorem earlier_timer_kept (w : World) (t : nat) :
  gscoreEnable (config w) = true ->
  ~ (0 < maxAttempts w /\ maxAttempts w <= reconnectAttempts w)%Z ->
  pending t w = true ->
  t <> timerSeq w ->
  pending t (scheduleReconnect w) = true /\
  pending (timerSeq w) (scheduleReconnect w) = true /\
  reconnectTimer (scheduleReconnect w) = Some (timerSeq w) /\
  pending t (disconnect (scheduleReconnect w)) = true /\
  pending (timerSeq w) (disconnect (scheduleReconnect w)) = false.
Proof.
  intros Hon Hleft Ht Hother.
  destruct (scheduleReconnect_retry_fields w Hon Hleft)
    as (_ & Htimers & Hhandle & Hnew).
  unfold pending in *. rewrite disconnect_timers, Hhandle, Htimers.
  repeat split.
  - now apply pending_snoc.
  - apply existsb_last.
  - rewrite (pending_filter_other _ _ _ Hother). now apply pending_snoc.
  - apply pending_cleared.
Qed.

End BudgetFacts.

(** ** Frames in both directions *)

Section FrameFacts.

Context `{Host}.

Local Open Scope list_scope.

Ltac branch :=
  match goal with
  | |- context [match ?x with _ => _ end] =>
      match x with
      | context [match _ with _ => _ end] => fail 1
      | _ => destruct x eqn:?
      end
  end.

Lemma sameConnection_refl (w : World) : sameConnection w w.
Proof. unfold sameConnection. repeat split. Qed.

Lemma sameConnection_emit (e : Effect) (w : World) :
  sameConnection w (emit e w).
Proof. unfold sameConnection. repeat split. Qed.

Lemma sameConnection_trans (w1 w2 w3 : World) :
  sameConnection w1 w2 -> sameConnection w2 w3 -> sameConnection w1 w3.
Proof.
  unfold sameConnection.
  intros (A1 & A2 & A3 & A4 & A5 & A6 & A7 & A8)
         (B1 & B2 & B3 & B4 & B5 & B6 & B7 & B8).
  repeat split; congruence.
Qed.

Lemma handle_sameConnection (msgSend : GsCoreMessageSend) (w : World) :
  sameConnection w (handleGsCoreMessage msgSend w).
Proof.
  unfold handleGsCoreMessage, log.
  repeat branch; cbv zeta;
    repeat (apply sameConnection_emit
            || apply sameConnection_refl
            || (eapply sameConnection_trans; [|apply sameConnection_emit])).
Qed.

(** X7.  A message or error event never touches the connection: the
    socket handle, the flags, the attempt counter, the sockets and the
    timers are as before, whatever the frame holds and whether or not
    a send is rejected.  A frame that does not parse is logged and
    dropped. *)
Theorem events_keep_connection (w : World) :
  (forall parsed, sameConnection w (onMessage parsed w)) /\
  (forall message, sameConnection w (onError message w)) /\
  since w (onMessage None w)
  = [Logged Error (Text "[GScore] 解析收到的消息失败:")].
Proof.
  split; [|split].
  - intros [msgSend|]; unfold onMessage, log.
    + eapply sameConnection_trans;
        [apply sameConnection_emit | apply handle_sameConnection].
    + apply sameConnection_emit.
  - intros message. apply sameConnection_emit.
  - now apply since_extension.
Qed.

(** X8.  The send call is issued once and its outcome is only logged:
    an accepted send is followed by one debug line naming the target,
    a rejected one by one error line, and nothing is retried. *)
Theorem send_outcome (msgSend : GsCoreMessageSend)
        (first : GsCoreMessage) (rest : list GsCoreMessage)
        (id : string) (w : World) :
  content msgSend = Some (first :: rest) ->
  isLogType (type first) = false ->
  target_id msgSend = Some id ->
  id <> ""%string ->
  convertGsCoreToOB11 (first :: rest) <> [] ->
  let params :=
    if isDirect (target_type msgSend)
    then SendPrivate id (convertGsCoreToOB11 (first :: rest))
    else SendGroup id (convertGsCoreToOB11 (first :: rest)) in
  (send_msg (ctx w) params = true ->
   since w (handleGsCoreMessage msgSend w)
   = [Called params;
      Logged Debug
             (Text ((if isDirect (target_type msgSend)
                     then "[GScore] 已发送私聊消息到 "
                     else "[GScore] 已发送群消息到 ") ++ id)%string)]) /\
  (send_msg (ctx w) params = false ->
   since w (handleGsCoreMessage msgSend w)
   = [Called params; Logged Error (Text "[GScore] 发送回复消息失败:")]).
Proof.
  intros Hc Hlog Hid Hne Hsome params. unfold handleGsCoreMessage.
  rewrite Hc, Hlog, Hid.
  destruct id as [|c id]; [contradiction|].
  subst params.
  destruct (convertGsCoreToOB11 (first :: rest)) as [|seg segs] eqn:Hsegs;
    [contradiction|].
  cbn [List.length Nat.eqb].
  destruct (isDirect (target_type msgSend)); cbv zeta; cbn [ctx emit];
    split; intros ->;
    (erewrite since_extension;
     [|cbn; rewrite <- app_assoc; reflexivity]);
    reflexivity.
Qed.

(** *** Forwarding *)

Lemma fold_pushQuotedImage (urls : list string)
      (items : list GsCoreMessage) (w : World) :
  fst (fold_left pushQuotedImage urls (items, w))
  = items ++ map (fun url => item "image" (JString url)) urls /\
  sameConnection w (snd (fold_left pushQuotedImage urls (items, w))) /\
  selfId (snd (fold_left pushQuotedImage urls (items, w))) = selfId w /\
  exists logs,
    trace (snd (fold_left pushQuotedImage urls (items, w)))
    = trace w ++ logs /\
    frames logs = [].
Proof.
  revert items w. induction urls as [|url urls IH]; intros items w.
  - cbn. rewrite app_nil_r. repeat split. exists []. now rewrite app_nil_r.
  - change (fold_left pushQuotedImage (url :: urls) (items, w))
      with (fold_left
              pushQuotedImage urls
              (items ++ [item "image" (JString url)],
               log Debug
                   (Text ("[GScore] 已提取引用消息中的图片: " ++ url)%string)
                   w)).
    destruct (IH (items ++ [item "image" (JString url)])
                 (log Debug
                      (Text ("[GScore] 已提取引用消息中的图片: " ++ url)%string)
                      w))
      as (Hitems & Hconn & Hself & logs & Htrace & Hframes).
    rewrite Hitems, Hself, Htrace, <- app_assoc.
    split; [reflexivity|]. split; [|split; [reflexivity|]].
    + eapply sameConnection_trans; [apply sameConnection_emit | exact Hconn].
    + eexists. split; [cbn; rewrite <- app_assoc; reflexivity | exact Hframes].
Qed.

(** The reply enrichment only adds items and log lines. *)
Lemma enrichReply_effects (event : OB11Message)
      (items : list GsCoreMessage) (w : World) :
  sameConnection w (snd (enrichReply event items w)) /\
  selfId (snd (enrichReply event items w)) = selfId w /\
  (exists more, fst (enrichReply event items w) = items ++ more) /\
  exists logs,
    trace (snd (enrichReply event items w)) = trace w ++ logs /\
    frames logs = [].
Proof.
  assert (Hsame :
            sameConnection w w /\ selfId w = selfId w /\
            (exists more, items = items ++ more) /\
            exists logs, trace w = trace w ++ logs /\ frames logs = []).
  { split; [apply sameConnection_refl|]. split; [reflexivity|].
    split; exists []; now rewrite app_nil_r. }
  assert (Hlog :
            forall level text,
              sameConnection w (log level text w) /\
              selfId (log level text w) = selfId w /\
              (exists more, items = items ++ more) /\
              exists logs,
                trace (log level text w) = trace w ++ logs /\
                frames logs = []).
  { intros level text. split; [apply sameConnection_emit|].
    split; [reflexivity|]. split.
    - exists []. now rewrite app_nil_r.
    - eexists. split; reflexivity. }
  unfold enrichReply.
  destruct (match message event with
            | MessageArray segments =>
                find (fun seg => String.eqb (seg_type seg) "reply") segments
            | _ => None
            end) as [seg|]; [|exact Hsame].
  destruct (truthy (prop (seg_data seg) "id")); [|exact Hsame].
  destruct (get_msg (ctx w) (prop (seg_data seg) "id")) as [[quoted|]|];
    cbn [fst snd]; try apply Hlog.
  destruct (message quoted) as [| |segments]; cbn [fst snd]; try apply Hlog.
  destruct (fold_pushQuotedImage
              (flat_map quotedImage segments) items
              (log Debug (QuotedText (Some quoted)) w))
    as (Hitems & Hconn & Hself & logs & Htrace & Hframes).
  split; [|split; [exact Hself|split]].
  - eapply sameConnection_trans; [apply sameConnection_emit | exact Hconn].
  - eexists. exact Hitems.
  - eexists. split; [rewrite Htrace; cbn; rewrite <- app_assoc; reflexivity|].
    exact Hframes.
Qed.

Lemma frames_app (l r : list Effect) : frames (l ++ r) = frames l ++ frames r.
Proof. apply flat_map_app. Qed.

(** [forwardMessage] past its two guards: the frame it sends. *)
Lemma forward_frame (event : OB11Message) (w : World) :
  getStatus w = connected ->
  message_type event = "group"%string \/
  message_type event = "private"%string ->
  sameConnection w (forwardMessage event w) /\
  exists id frame,
    ws w = Some id /\
    frames (since w (forwardMessage event w)) = [(id, frame)] /\
    recv_bot_id frame = "onebot"%string /\
    recv_bot_self_id frame
    = ToString (orElse (orElse (JString (selfId w)) (self_id event))
                       (JString "")) /\
    recv_msg_id frame = ToString (orElse (message_id event) (JString "")) /\
    recv_user_type frame
    = (if String.eqb (message_type event) "group" then "group" else "direct")
        %string /\
    recv_group_id frame
    = (if truthy (group_id event) then Some (ToString (group_id event))
       else None) /\
    recv_user_id frame = ToString (user_id event) /\
    recv_user_pm frame
    = match sender event with
      | Some sender =>
          if isRole sender "owner" then 2%Z
          else if isRole sender "admin" then 3%Z
          else 6%Z
      | None => 6%Z
      end /\
    recv_content frame
    = fst (enrichReply event (convertOB11ToGsCoreContent event) w).
Proof.
  intros Hup Htype.
  destruct (connected_socket w Hup) as [id Hid].
  assert (Hpass :
            negb (String.eqb (message_type event) "group")
            && negb (String.eqb (message_type event) "private") = false).
  { destruct Htype as [-> | ->]; reflexivity. }
  unfold forwardMessage. rewrite Hup, Hpass.
  destruct (enrichReply_effects event (convertOB11ToGsCoreContent event) w)
    as (Hconn & Hself & _ & logs & Htrace & Hframes).
  destruct (enrichReply event (convertOB11ToGsCoreContent event) w)
    as [items w'].
  cbn [fst snd] in *.
  assert (Hws : ws w' = Some id)
    by (destruct Hconn as (_ & -> & _); exact Hid).
  rewrite Hws, Hself. split.
  - eapply sameConnection_trans; [exact Hconn|].
    eapply sameConnection_trans; apply sameConnection_emit.
  - exists id. eexists. split; [exact Hid|]. split.
    + erewrite since_extension;
        [|cbn; rewrite Htrace, <- !app_assoc; reflexivity].
      rewrite frames_app, Hframes. reflexivity.
    + repeat split.
Qed.

(** X9.  [forwardMessage] sends nothing and changes nothing unless the
    service is connected and the event is a group or private message.
    Otherwise it sends exactly one frame, on the socket the service
    holds, with user type [group] for a group message and [direct] for
    a private one, identifiers printed as strings, the permission level
    2 for an owner, 3 for an admin and 6 for anyone else, and a content
    that starts with the encoded message.  It never touches the
    connection. *)
Theorem forward_gate (event : OB11Message) (w : World) :
  (getStatus w <> connected -> forwardMessage event w = w) /\
  (message_type event <> "group"%string ->
   message_type event <> "private"%string ->
   forwardMessage event w = w) /\
  (getStatus w = connected ->
   message_type event = "group"%string \/
   message_type event = "private"%string ->
   sameConnection w (forwardMessage event w) /\
   exists id frame,
     ws w = Some id /\
     frames (since w (forwardMessage event w)) = [(id, frame)] /\
     recv_user_type frame
     = (if String.eqb (message_type event) "group" then "group"
        else "direct")%string /\
     recv_user_id frame = ToString (user_id event) /\
     recv_msg_id frame = ToString (orElse (message_id event) (JString "")) /\
     recv_user_pm frame
     = match sender event with
       | Some sender =>
           if isRole sender "owner" then 2%Z
           else if isRole sender "admin" then 3%Z
           else 6%Z
       | None => 6%Z
       end /\
     exists more,
       recv_content frame = convertOB11ToGsCoreContent event ++ more).
Proof.
  split; [|split].
  - intros Hdown. unfold forwardMessage.
    destruct (getStatus w); [contradiction | reflexivity | reflexivity].
  - intros Hg Hp. unfold forwardMessage.
    destruct (getStatus w); try reflexivity.
    apply String.eqb_neq in Hg, Hp. now rewrite Hg, Hp.
  - intros Hup Htype.
    destruct (forward_frame event w Hup Htype)
      as (Hconn & id & frame & Hid & Hframes & _ & _ & Hmsg & Htype' & _
          & Huser & Hpm & Hcontent).
    split; [exact Hconn|]. exists id, frame.
    repeat split; try assumption.
    destruct (enrichReply_effects event (convertOB11ToGsCoreContent event) w)
      as (_ & _ & (more & Hmore) & _).
    exists more. now rewrite Hcontent.
Qed.

(** X10.  A failed lookup of the quoted message does not block
    forwarding: the failure is logged as a warning and the frame is
    sent with the content of the message alone.  When the lookup
    succeeds, every image of the quoted message whose url (or else
    file) is a string that is not blank is appended, trimmed, after the
    content of the message, in order. *)
Theorem reply_enrichment (event : OB11Message) (w : World)
        (segments : list MessageSegment) (seg : MessageSegment) :
  getStatus w = connected ->
  message_type event = "group"%string \/
  message_type event = "private"%string ->
  message event = MessageArray segments ->
  find (fun seg => String.eqb (seg_type seg) "reply") segments = Some seg ->
  truthy (prop (seg_data seg) "id") = true ->
  (get_msg (ctx w) (prop (seg_data seg) "id") = None ->
   map (fun f => recv_content (snd f))
       (frames (since w (forwardMessage event w)))
   = [convertOB11ToGsCoreContent event] /\
   In (Logged Warn (Text "[GScore] 获取引用消息失败"))
      (since w (forwardMessage event w))) /\
  (forall quoted quotedSegments,
      get_msg (ctx w) (prop (seg_data seg) "id") = Some (Some quoted) ->
      message quoted = MessageArray quotedSegments ->
      map (fun f => recv_content (snd f))
          (frames (since w (forwardMessage event w)))
      = [convertOB11ToGsCoreContent event ++
         map (fun url => item "image" (JString url))
             (flat_map quotedImage quotedSegments)]).
Proof.
  intros Hup Htype Hmsg Hfind Hid.
  destruct (forward_frame event w Hup Htype)
    as (_ & id & frame & Hws & Hframes & _ & _ & _ & _ & _ & _ & _
        & Hcontent).
  rewrite Hframes. cbn [map snd].
  assert (Hpass :
            negb (String.eqb (message_type event) "group")
            && negb (String.eqb (message_type event) "private") = false).
  { destruct Htype as [-> | ->]; reflexivity. }
  split.
  - intros Hfail. split.
    + rewrite Hcontent. unfold enrichReply.
      now rewrite Hmsg, Hfind, Hid, Hfail.
    + unfold forwardMessage. rewrite Hup, Hpass.
      unfold enrichReply. rewrite Hmsg, Hfind, Hid, Hfail.
      change (ws (log Warn (Text "[GScore] 获取引用消息失败") w)) with (ws w).
      rewrite Hws.
      erewrite since_extension;
        [|cbn; rewrite <- !app_assoc; reflexivity].
      now left.
  - intros quoted quotedSegments Hfound Hquoted.
    rewrite Hcontent. unfold enrichReply.
    rewrite Hmsg, Hfind, Hid, Hfound, Hquoted.
    now destruct (fold_pushQuotedImage
                    (flat_map quotedImage quotedSegments)
                    (convertOB11ToGsCoreContent event)
                    (log Debug (QuotedText (Some quoted)) w)) as (-> & _).
Qed.

End FrameFacts.

(** ** More of the content codecs *)

Section CodecMore.

Context `{Host}.

Local Open Scope list_scope.

Lemma truthy_payload (v : JsValue) : truthy v = true -> isNullish v = false.
Proof. now destruct v. Qed.

Lemma orElse_payload (a b : JsValue) :
  isNullish b = false -> isNullish (orElse a b) = false.
Proof.
  intros Hb. unfold orElse. destruct (truthy a) eqn:Ha; [|exact Hb].
  now apply truthy_payload.
Qed.

Lemma encoded_item (t : string) (d : JsValue) :
  In t ["text"; "image"; "at"; "reply"; "record"; "file"]%string ->
  isNullish d = false ->
  encoded (item t d).
Proof. intros Ht Hd. exists t. now repeat split. Qed.

Lemma convertSegment_encoded (seg : MessageSegment) :
  Forall encoded (convertSegment seg).
Proof.
  unfold convertSegment.
  repeat match goal with
         | |- context [if ?b then _ else _] => destruct b eqn:?
         end;
    try apply Forall_nil;
    (apply Forall_cons; [|apply Forall_nil]);
    apply encoded_item;
    try (cbn; tauto);
    try reflexivity;
    try (apply orElse_payload; reflexivity);
    now apply truthy_payload.
Qed.

(** X11.  Every item the encoder produces has one of the six kinds
    [text], [image], [at], [reply], [record], [file] and a payload that
    is neither null nor undefined, so the decoder skips none of them as
    untyped or empty. *)
Theorem encoder_items (event : OB11Message) :
  Forall encoded (convertOB11ToGsCoreContent event).
Proof.
  unfold convertOB11ToGsCoreContent.
  destruct (message event) as [|s|segments];
    try (destruct (negb _); repeat constructor;
         apply encoded_item; [cbn; tauto | reflexivity]).
  induction segments as [|seg segments IH]; [constructor|].
  cbn [flat_map]. apply Forall_app. split; [|exact IH].
  apply convertSegment_encoded.
Qed.

Lemma convertItem_image (d : JsValue) :
  isNullish d = false ->
  convertItem (item "image" d) = [SegImage (unlinked (ToString d))].
Proof.
  intros Hd. unfold item, unlinked. cbn [convertItem]. rewrite Hd.
  cbn [String.eqb Ascii.eqb Bool.eqb orb].
  destruct (Js.startsWith (ToString d) "base64://") eqn:Hb.
  - assert (Hl : Js.startsWith (ToString d) "link://" = false).
    { unfold Js.startsWith in *. apply prefix_split in Hb as [r ->].
      reflexivity. }
    now rewrite Hl.
  - destruct (Js.startsWith (ToString d) "link://"); [reflexivity|].
    now destruct (Js.startsWith (ToString d) "http").
Qed.

Lemma unlinked_link (u : string) : unlinked ("link://" ++ u)%string = u.
Proof.
  unfold unlinked, Js.startsWith.
  now rewrite prefix_append, replace_prefix.
Qed.

(** X12.  Decoding an [image] item removes one leading [link://] from
    the payload and passes every other payload through unchanged,
    [base64://] and [http] ones included. *)
Theorem image_item_decoding (d : JsValue) :
  isNullish d = false ->
  (forall u,
      ToString d = ("link://" ++ u)%string ->
      convertGsCoreToOB11 [item "image" d] = [SegImage u]) /\
  (Js.startsWith (ToString d) "link://" = false ->
   convertGsCoreToOB11 [item "image" d] = [SegImage (ToString d)]).
Proof.
  intros Hd. rewrite convertGsCoreToOB11_one, (convertItem_image d Hd).
  split.
  - intros u ->. now rewrite unlinked_link.
  - intros Hplain. unfold unlinked. now rewrite Hplain.
Qed.

Lemma orElse_string (s : string) :
  orElse (JString s) (JString "") = JString s.
Proof.
  unfold orElse, truthy. now destruct (String.eqb_spec s "") as [->|].
Qed.

Lemma convertSegment_image (seg : MessageSegment) :
  seg_type seg = "image"%string ->
  convertSegment seg
  = [item "image"
          (orElse (orElse (prop (seg_data seg) "url")
                          (prop (seg_data seg) "file"))
                  (JString ""))].
Proof. intros Ht. unfold convertSegment. now rewrite Ht. Qed.

(** X13.  An image segment survives encoding and decoding as an image
    segment: it carries the url when the url is a string that is not
    empty, else the file attribute, else the empty string, in each case
    without one leading [link://]. *)
Theorem image_round_trip (seg : MessageSegment) :
  seg_type seg = "image"%string ->
  (forall u,
      prop (seg_data seg) "url" = JString u -> u <> ""%string ->
      convertGsCoreToOB11 (convertSegment seg) = [SegImage (unlinked u)]) /\
  (forall f,
      truthy (prop (seg_data seg) "url") = false ->
      prop (seg_data seg) "file" = JString f ->
      convertGsCoreToOB11 (convertSegment seg) = [SegImage (unlinked f)]) /\
  (truthy (prop (seg_data seg) "url") = false ->
   truthy (prop (seg_data seg) "file") = false ->
   convertGsCoreToOB11 (convertSegment seg) = [SegImage ""]).
Proof.
  intros Ht. rewrite (convertSegment_image seg Ht), convertGsCoreToOB11_one.
  split; [|split].
  - intros u Hu Hne. rewrite Hu.
    assert (Htruthy : truthy (JString u) = true).
    { cbn. now destruct (String.eqb_spec u "") as [->|]. }
    unfold orElse at 2. rewrite Htruthy. unfold orElse. rewrite Htruthy.
    now rewrite convertItem_image.
  - intros f Hurl Hfile. unfold orElse at 2. rewrite Hurl, Hfile.
    rewrite orElse_string. now rewrite convertItem_image.
  - intros Hurl Hfile. unfold orElse at 2. rewrite Hurl.
    unfold orElse. rewrite Hfile. reflexivity.
Qed.

Lemma printed_target (v : JsValue) :
  (forall q, v = JString q -> ToString (orElse v (JString "")) = q) /\
  (forall n, v = JNumber n -> num_truthy n = true ->
             ToString (orElse v (JString "")) = num_toString n) /\
  (truthy v = false -> ToString (orElse v (JString "")) = ""%string).
Proof.
  split; [|split].
  - intros q ->. now rewrite orElse_string.
  - intros n -> Hn. unfold orElse. cbn. now rewrite Hn.
  - intros Hv. unfold orElse. now rewrite Hv.
Qed.

(** X14.  A mention and a reply reference survive encoding and
    decoding with their target printed as a string: an [at] segment
    comes back as an [at] segment whose target is the string [qq], or
    the number [qq] printed, or the empty string when [qq] is missing
    or falsy; a [reply] segment comes back the same way with [id]. *)
Theorem mention_round_trip (seg : MessageSegment) :
  (seg_type seg = "at"%string ->
   (forall q,
       prop (seg_data seg) "qq" = JString q ->
       convertGsCoreToOB11 (convertSegment seg) = [SegAt q]) /\
   (forall n,
       prop (seg_data seg) "qq" = JNumber n -> num_truthy n = true ->
       convertGsCoreToOB11 (convertSegment seg) = [SegAt (num_toString n)]) /\
   (truthy (prop (seg_data seg) "qq") = false ->
    convertGsCoreToOB11 (convertSegment seg) = [SegAt ""])) /\
  (seg_type seg = "reply"%string ->
   (forall i,
       prop (seg_data seg) "id" = JString i ->
       convertGsCoreToOB11 (convertSegment seg) = [SegReply i]) /\
   (forall n,
       prop (seg_data seg) "id" = JNumber n -> num_truthy n = true ->
       convertGsCoreToOB11 (convertSegment seg)
       = [SegReply (num_toString n)]) /\
   (truthy (prop (seg_data seg) "id") = false ->
    convertGsCoreToOB11 (convertSegment seg) = [SegReply ""])).
Proof.
  split; intros Ht.
  - assert (Hrun :
              convertGsCoreToOB11 (convertSegment seg)
              = [SegAt (ToString (orElse (prop (seg_data seg) "qq")
                                         (JString "")))])
      by (unfold convertSegment; now rewrite Ht).
    rewrite Hrun.
    destruct (printed_target (prop (seg_data seg) "qq")) as (Hs & Hn & Hf).
    split; [|split].
    + intros q Hq. now rewrite (Hs q Hq).
    + intros n Hq Hnum. now rewrite (Hn n Hq Hnum).
    + intros Hq. now rewrite (Hf Hq).
  - assert (Hrun :
              convertGsCoreToOB11 (convertSegment seg)
              = [SegReply (ToString (orElse (prop (seg_data seg) "id")
                                            (JString "")))])
      by (unfold convertSegment; now rewrite Ht).
    rewrite Hrun.
    destruct (printed_target (prop (seg_data seg) "id")) as (Hs & Hn & Hf).
    split; [|split].
    + intros i Hi. now rewrite (Hs i Hi).
    + intros n Hi Hnum. now rewrite (Hn n Hi Hnum).
    + intros Hi. now rewrite (Hf Hi).
Qed.

Lemma convertSegment_file (seg : MessageSegment) :
  seg_type seg = "file"%string ->
  convertSegment seg
  = [item "file"
          (JString
             (ToString (orElse (prop (seg_data seg) "name") (JString "file"))
              ++ "|" ++
              ToString (orElse (prop (seg_data seg) "url") (JString ""))))].
Proof. intros Ht. unfold convertSegment. now rewrite Ht. Qed.

(** X15.  A file segment does not survive the round trip as a file: it
    comes back as one text segment naming the file, [[文件: name]], and
    the url is kept, after the name, only when it starts with
    [link://].  This holds for a name that is a string, not empty and
    without [|]. *)
Theorem file_round_trip (seg : MessageSegment) (name url : string) :
  seg_type seg = "file"%string ->
  prop (seg_data seg) "name" = JString name ->
  name <> ""%string ->
  Js.includes name "|" = false ->
  prop (seg_data seg) "url" = JString url ->
  (Js.startsWith url "link://" = false ->
   convertGsCoreToOB11 (convertSegment seg)
   = [SegText ("[文件: " ++ name ++ "]")%string]) /\
  (forall rest,
      url = ("link://" ++ rest)%string ->
      convertGsCoreToOB11 (convertSegment seg)
      = [SegText ("[文件: " ++ name ++ "] " ++ rest)%string]).
Proof.
  intros Ht Hname Hne Hbar Hurl.
  rewrite (convertSegment_file seg Ht), convertGsCoreToOB11_one.
  rewrite convertItem_file by reflexivity.
  rewrite Hname, Hurl, orElse_string.
  assert (Hn : orElse (JString name) (JString "file") = JString name).
  { unfold orElse, truthy.
    now destruct (String.eqb_spec name "") as [->|]. }
  rewrite Hn. cbn [ToString].
  destruct (file_split name url Hbar) as (-> & -> & ->).
  rewrite (length_positive name Hne). split.
  - intros Hplain. now rewrite Hplain.
  - intros rest ->. unfold Js.startsWith.
    now rewrite prefix_append, replace_prefix.
Qed.

Lemma convertItem_node (subs : list GsCoreMessage) :
  convertItem (item "node" (JArray subs))
  = flat_map (fun sub =>
                if (0 <? List.length (convertItem sub))%nat
                then [SegNode "3889929917" "🦊小助手" (convertItem sub)]
                else [])
             subs.
Proof. reflexivity. Qed.

(** X16.  A [node] item whose payload is an array yields forwarded
    nodes only, each with the fixed sender and some content, at most
    one per sub-item; when every sub-item decodes to something there is
    exactly one node per sub-item, in order, wrapping what that
    sub-item decodes to.  A [node] item whose payload is not an array
    yields nothing. *)
Theorem node_item_decoding (subs : list GsCoreMessage) :
  Forall forwardedNode (convertGsCoreToOB11 [item "node" (JArray subs)]) /\
  (List.length (convertGsCoreToOB11 [item "node" (JArray subs)])
   <= List.length subs)%nat /\
  (Forall (fun sub => convertGsCoreToOB11 [sub] <> []) subs ->
   convertGsCoreToOB11 [item "node" (JArray subs)]
   = map (fun sub =>
            SegNode "3889929917" "🦊小助手" (convertGsCoreToOB11 [sub]))
         subs) /\
  (forall d,
      (forall items, d <> JArray items) ->
      convertGsCoreToOB11 [item "node" d] = []).
Proof.
  rewrite convertGsCoreToOB11_one, convertItem_node.
  split; [|split; [|split]].
  - induction subs as [|sub subs IH]; [constructor|].
    cbn [flat_map]. apply Forall_app. split; [|exact IH].
    destruct (convertItem sub) as [|seg segs] eqn:Hsub; cbn;
      constructor; [|constructor].
    exists (seg :: segs). split; [reflexivity | discriminate].
  - induction subs as [|sub subs IH]; [apply Nat.le_refl|].
    cbn [flat_map]. rewrite length_app. cbn [List.length].
    destruct (0 <? List.length (convertItem sub))%nat;
      cbn [List.length Nat.add]; lia.
  - intros Hall. induction Hall as [|sub subs Hsub _ IH]; [reflexivity|].
    cbn [flat_map map]. rewrite IH.
    rewrite convertGsCoreToOB11_one in *.
    destruct (convertItem sub) as [|seg segs]; [contradiction | reflexivity].
  - intros d Hd. rewrite convertGsCoreToOB11_one.
    destruct d; try reflexivity. now elim (Hd items).
Qed.

Lemma not_known (t : string) (k : string) :
  ~ In t knownKinds -> In k knownKinds -> String.eqb t k = false.
Proof.
  intros Hnot Hk. apply String.eqb_neq. intros ->. contradiction.
Qed.

(** X17.  An item of a kind the decoder has no case for becomes a text
    segment when its payload is a string that is not empty, and is
    dropped otherwise.  An item with no kind, with an empty kind or
    with a null or undefined payload is skipped, and so is an item of
    kind [image_size], [buttons], [template_buttons],
    [template_markdown] or [group], whatever its payload. *)
Theorem other_items_decoding (t : option string) (d : JsValue) :
  (forall kind,
      t = Some kind -> kind <> ""%string -> ~ In kind knownKinds ->
      (forall s, d = JString s -> s <> ""%string ->
                 convertGsCoreToOB11 [Message t d] = [SegText s]) /\
      ((forall s, d <> JString s) \/ d = JString "" ->
       convertGsCoreToOB11 [Message t d] = [])) /\
  (t = None \/ t = Some ""%string \/ isNullish d = true ->
   convertGsCoreToOB11 [Message t d] = []) /\
  (forall kind,
      t = Some kind ->
      In kind ["image_size"; "buttons"; "template_buttons";
               "template_markdown"; "group"]%string ->
      convertGsCoreToOB11 [Message t d] = []).
Proof.
  rewrite convertGsCoreToOB11_one. split; [|split].
  - intros kind -> Hne Hnot.
    assert (Hrun :
              convertItem (Message (Some kind) d)
              = if isNullish d then []
                else match d with
                     | JString s =>
                         if (0 <? String.length s)%nat then [SegText s]
                         else []
                     | _ => []
                     end).
    { cbn [convertItem].
      apply String.eqb_neq in Hne. rewrite Hne. cbn [orb].
      rewrite !(not_known kind _ Hnot) by (cbn; tauto).
      reflexivity. }
    rewrite Hrun. split.
    + intros s -> Hs. cbn. now destruct s.
    + intros [Hother| ->]; [|reflexivity].
      destruct d; try reflexivity. now elim (Hother s).
  - intros [-> | [-> | Hd]]; [reflexivity | reflexivity |].
    destruct t as [kind|]; [|reflexivity]. cbn [convertItem].
    now rewrite Hd, orb_true_r.
  - intros kind -> Hin. cbn [convertItem].
    destruct (String.eqb kind "" || isNullish d); [reflexivity|].
    cbn in Hin.
    destruct Hin as [<- | [<- | [<- | [<- | [<- | []]]]]]; reflexivity.
Qed.

End CodecMore.

(** ** The plugin state *)

Section StateFacts.

Local Open Scope list_scope.

Lemma existsb_eqb_In (x : string) (l : list string) :
  existsb (String.eqb x) l = true <-> In x l.
Proof.
  rewrite existsb_exists. split.
  - intros (y & Hy & Heq). apply String.eqb_eq in Heq. now subst.
  - intros Hx. exists x. split; [exact Hx | apply String.eqb_refl].
Qed.

Lemma existsb_eqb_not_In (x : string) (l : list string) :
  existsb (String.eqb x) l = false <-> ~ In x l.
Proof.
  rewrite <- existsb_eqb_In. now destruct (existsb (String.eqb x) l).
Qed.

Lemma existsb_snoc_other (v u : string) (l : list string) :
  v <> u ->
  existsb (String.eqb v) (l ++ [u]) = existsb (String.eqb v) l.
Proof.
  intros Hvu. rewrite existsb_app. cbn.
  apply String.eqb_neq in Hvu. rewrite Hvu. now rewrite !orb_false_r.
Qed.

(** X18.  After [addToBlacklist(u)] the user [u] is blacklisted and
    nobody else's status has changed.  Adding a user who is already
    blacklisted changes nothing and writes nothing, so adding twice is
    adding once, and a blacklist without duplicates stays without
    duplicates. *)
Theorem blacklist_add (u : string) (s : PluginState) :
  isBlacklisted u (addToBlacklist u s) = true /\
  (forall v, v <> u ->
             isBlacklisted v (addToBlacklist u s) = isBlacklisted v s) /\
  (isBlacklisted u s = true -> addToBlacklist u s = s) /\
  addToBlacklist u (addToBlacklist u s) = addToBlacklist u s /\
  (NoDup (blacklist s) -> NoDup (blacklist (addToBlacklist u s))).
Proof.
  assert (Hin : isBlacklisted u (addToBlacklist u s) = true).
  { unfold addToBlacklist.
    destruct (isBlacklisted u s) eqn:Hu; cbn [negb]; [exact Hu|].
    unfold isBlacklisted. cbn. rewrite existsb_app. cbn.
    now rewrite String.eqb_refl, orb_true_r. }
  split; [exact Hin|]. split; [|split; [|split]].
  - intros v Hvu. unfold addToBlacklist.
    destruct (isBlacklisted u s); cbn [negb]; [reflexivity|].
    unfold isBlacklisted. cbn. now apply existsb_snoc_other.
  - intros Hu. unfold addToBlacklist. now rewrite Hu.
  - unfold addToBlacklist at 1. now rewrite Hin.
  - intros Hnodup. unfold addToBlacklist.
    destruct (isBlacklisted u s) eqn:Hu; cbn [negb]; [exact Hnodup|].
    cbn. apply NoDup_app; [exact Hnodup | repeat constructor; intros [] |].
    intros x Hx [<-|[]]. apply existsb_eqb_not_In in Hu. contradiction.
Qed.

Lemma removeFirst_other (v u : string) (l : list string) :
  v <> u ->
  existsb (String.eqb v) (removeFirst u l) = existsb (String.eqb v) l.
Proof.
  intros Hvu. induction l as [|y l IH]; [reflexivity|]. cbn.
  destruct (String.eqb_spec u y) as [<-|Huy].
  - apply String.eqb_neq in Hvu. now rewrite Hvu.
  - cbn. now rewrite IH.
Qed.

Lemma removeFirst_split (u : string) (a b : list string) :
  ~ In u a -> removeFirst u (a ++ u :: b) = a ++ b.
Proof.
  induction a as [|y a IH]; intros Ha; cbn.
  - now rewrite String.eqb_refl.
  - destruct (String.eqb_spec u y) as [->|_].
    + elim Ha. now left.
    + rewrite IH; [reflexivity|]. intros Hu. apply Ha. now right.
Qed.

Lemma removeFirst_In (v u : string) (l : list string) :
  In v (removeFirst u l) -> In v l.
Proof.
  induction l as [|y l IH]; [easy|]. cbn.
  destruct (String.eqb u y); [now right|].
  intros [<-|Hv]; [now left | right; now apply IH].
Qed.

Lemma removeFirst_NoDup (u : string) (l : list string) :
  NoDup l -> NoDup (removeFirst u l) /\ ~ In u (removeFirst u l).
Proof.
  induction 1 as [|y l Hy Hl IH]; cbn.
  - split; [constructor | easy].
  - destruct (String.eqb_spec u y) as [->|Huy]; [now split|].
    destruct IH as (Hrest & Hu). split.
    + constructor; [|exact Hrest]. intros Hin. apply Hy.
      now apply removeFirst_In in Hin.
    + intros [Heq|Hin]; [congruence | contradiction].
Qed.

Lemma removeFirst_snoc (u : string) (l : list string) :
  ~ In u l -> removeFirst u (l ++ [u]) = l.
Proof.
  intros Hu. rewrite (removeFirst_split u l [] Hu). apply app_nil_r.
Qed.

(** X19.  [removeFromBlacklist(u)] takes out the first entry for [u]
    only and leaves everybody else's status as it was.  On a blacklist
    without duplicates the user is no longer blacklisted afterwards and
    the list is still without duplicates; removing a user who is not
    listed changes nothing and writes nothing; and adding a user who
    was not listed and removing them again gives the former list. *)
Theorem blacklist_remove (u : string) (s : PluginState) :
  (forall v, v <> u ->
             isBlacklisted v (removeFromBlacklist u s) = isBlacklisted v s) /\
  (forall a b,
      blacklist s = a ++ u :: b -> ~ In u a ->
      blacklist (removeFromBlacklist u s) = a ++ b) /\
  (NoDup (blacklist s) ->
   isBlacklisted u (removeFromBlacklist u s) = false /\
   NoDup (blacklist (removeFromBlacklist u s))) /\
  (isBlacklisted u s = false -> removeFromBlacklist u s = s) /\
  (isBlacklisted u s = false ->
   blacklist (removeFromBlacklist u (addToBlacklist u s)) = blacklist s).
Proof.
  split; [|split; [|split; [|split]]].
  - intros v Hvu. unfold removeFromBlacklist.
    destruct (isBlacklisted u s); [|reflexivity].
    unfold isBlacklisted. cbn. now apply removeFirst_other.
  - intros a b Hsplit Ha. unfold removeFromBlacklist.
    assert (Hu : isBlacklisted u s = true).
    { unfold isBlacklisted. apply existsb_eqb_In. rewrite Hsplit.
      apply in_or_app. right. now left. }
    rewrite Hu. cbn. rewrite Hsplit. now apply removeFirst_split.
  - intros Hnodup. unfold removeFromBlacklist.
    destruct (isBlacklisted u s) eqn:Hu.
    + unfold isBlacklisted. cbn.
      destruct (removeFirst_NoDup u (blacklist s) Hnodup) as (Hrest & Hout).
      split; [now apply existsb_eqb_not_In | exact Hrest].
    + now split.
  - intros Hu. unfold removeFromBlacklist. now rewrite Hu.
  - intros Hu. unfold addToBlacklist. rewrite Hu. cbn [negb].
    unfold removeFromBlacklist.
    assert (Hin : isBlacklisted
                    u (saveConfig (with_blacklist (blacklist s ++ [u]) s))
                  = true).
    { unfold isBlacklisted. cbn. rewrite existsb_app. cbn.
      now rewrite String.eqb_refl, orb_true_r. }
    rewrite Hin. cbn. apply removeFirst_snoc.
    now apply existsb_eqb_not_In.
Qed.

Lemma lookup_storeGroup (g : string) (c : GroupConfig)
      (l : list (string * GroupConfig)) :
  lookupGroup g (storeGroup g c l) = Some c.
Proof.
  induction l as [|[g' c'] l IH]; cbn.
  - now rewrite String.eqb_refl.
  - destruct (String.eqb g g') eqn:E; cbn; now rewrite E.
Qed.

Lemma lookup_storeGroup_other (g g' : string) (c : GroupConfig)
      (l : list (string * GroupConfig)) :
  g' <> g -> lookupGroup g' (storeGroup g c l) = lookupGroup g' l.
Proof.
  intros Hother. induction l as [|[h c'] l IH]; cbn.
  - apply String.eqb_neq in Hother. now rewrite Hother.
  - destruct (String.eqb_spec g h) as [->|Hgh]; cbn.
    + apply String.eqb_neq in Hother. now rewrite Hother.
    + now rewrite IH.
Qed.

(** X20.  A group is enabled unless its stored entry says [false], so
    a group with no entry is enabled.  After
    [updateGroupConfig(g, {enabled: b})] the group [g] is enabled
    exactly when [b] is true, an update that carries no [enabled] leaves
    the group as it was, and no other group is affected. *)
Theorem group_switch (g : string) (s : PluginState) :
  (lookupGroup g (groupConfigs s) = None -> isGroupEnabled g s = true) /\
  (forall b,
      isGroupEnabled g (updateGroupConfig g {| enabled := Some b |} s) = b) /\
  isGroupEnabled g (updateGroupConfig g {| enabled := None |} s)
  = isGroupEnabled g s /\
  (forall g' c,
      g' <> g ->
      isGroupEnabled g' (updateGroupConfig g c s) = isGroupEnabled g' s).
Proof.
  split; [|split; [|split]].
  - intros Hnone. unfold isGroupEnabled. now rewrite Hnone.
  - intros b. unfold isGroupEnabled, updateGroupConfig. cbn.
    rewrite lookup_storeGroup. now destruct b.
  - unfold isGroupEnabled, updateGroupConfig. cbn.
    rewrite lookup_storeGroup.
    now destruct (lookupGroup g (groupConfigs s)) as [[[[]|]]|].
  - intros g' c Hother. unfold isGroupEnabled, updateGroupConfig. cbn.
    now rewrite (lookup_storeGroup_other g g' _ _ Hother).
Qed.

(** X21.  For an uptime that is not negative, [getUptimeFormatted]
    prints the two largest units that apply (days and hours, hours and
    minutes, minutes and seconds, or seconds alone), with both numbers
    in range, and the time printed is the uptime rounded down to the
    smaller of the two units. *)
Theorem uptime_format (ms : Z) :
  (0 <= ms)%Z ->
  exists u,
    getUptimeFormatted ms = printUptime u /\
    uptimeInRange u /\
    (uptimeMs u <= ms < uptimeMs u + uptimeStep u)%Z.
Proof.
  intros Hms. unfold getUptimeFormatted.
  set (s := (ms / 1000)%Z). set (m := (s / 60)%Z).
  set (h := (m / 60)%Z). set (d := (h / 24)%Z).
  assert (Hs : (0 <= s)%Z) by (subst s; apply Z.div_pos; lia).
  assert (Hm : (0 <= m)%Z) by (subst m; apply Z.div_pos; lia).
  assert (Hh : (0 <= h)%Z) by (subst h; apply Z.div_pos; lia).
  assert (Hd : (0 <= d)%Z) by (subst d; apply Z.div_pos; lia).
  pose proof (Z.div_mod ms 1000 ltac:(lia)) as Es.
  pose proof (Z.mod_pos_bound ms 1000 ltac:(lia)) as Bs.
  pose proof (Z.div_mod s 60 ltac:(lia)) as Em.
  pose proof (Z.mod_pos_bound s 60 ltac:(lia)) as Bm.
  pose proof (Z.div_mod m 60 ltac:(lia)) as Eh.
  pose proof (Z.mod_pos_bound m 60 ltac:(lia)) as Bh.
  pose proof (Z.div_mod h 24 ltac:(lia)) as Ed.
  pose proof (Z.mod_pos_bound h 24 ltac:(lia)) as Bd.
  fold s in Es. fold m in Em. fold h in Eh. fold d in Ed.
  rewrite !Z.rem_mod_nonneg by lia.
  destruct (Z.gtb_spec d 0) as [Hd0|Hd0].
  - exists (DaysHours d (h mod 24)). cbn. repeat split; lia.
  - destruct (Z.gtb_spec h 0) as [Hh0|Hh0].
    + exists (HoursMinutes h (m mod 60)). cbn. repeat split; lia.
    + destruct (Z.gtb_spec m 0) as [Hm0|Hm0].
      * exists (MinutesSeconds m (s mod 60)). cbn. repeat split; lia.
      * exists (Seconds s). cbn. repeat split; lia.
Qed.

End StateFacts.

(** ** The message handler *)

Section HandlerFacts.

Context `{Host}.

Variable splitSpaces : string -> list string.

Local Open Scope list_scope.

Lemma stepsSince_extension (p p' : Plugin) (l : list Step) :
  steps p' = steps p ++ l -> stepsSince p p' = l.
Proof. unfold stepsSince. intros ->. apply skipn_length_app. Qed.

Lemma stepsSince_same (p p' : Plugin) :
  steps p' = steps p -> stepsSince p p' = [].
Proof.
  intros Hsame. apply stepsSince_extension. now rewrite app_nil_r.
Qed.


Lemma forwards_app (l r : list Step) :
  forwards (l ++ r) = forwards l ++ forwards r.
Proof. apply flat_map_app. Qed.

(** *** sendReply *)

Lemma sendReply_spec (event : OB11Message) (message : string) (p : Plugin) :
  exists r,
    steps (sendReply event message p) = steps p ++ [Answered r] /\
    reply_message r = message /\
    addressed event r /\
    state (sendReply event message p) = state p /\
    config (service (sendReply event message p)) = config (service p).
Proof.
  unfold sendReply. eexists. split; [|split; [|split; [|split]]].
  - destruct (send_text _ _); reflexivity.
  - reflexivity.
  - unfold addressed. cbn. split; [reflexivity|]. split.
    + destruct (String.eqb_spec (message_type event) "group") as [E|E];
        cbn; [|congruence].
      destruct (truthy (group_id event)); [|congruence]. now split.
    + destruct (String.eqb_spec (message_type event) "private") as [E|E];
        cbn; [|congruence].
      destruct (truthy (user_id event)); [|congruence]. now split.
  - destruct (send_text _ _); reflexivity.
  - destruct (send_text _ _); reflexivity.
Qed.

(** *** The branches of the handler *)

Lemma guarded_cases (event : OB11Message) (run : Plugin -> Plugin)
      (p : Plugin) (P : Plugin -> Prop) :
  (truthy (group_id event) = false ->
   P (sendReply event "请在群组中使用此命令" p)) ->
  (truthy (group_id event) = true ->
   checkPermission event (state p) = false ->
   P (sendReply event "❌ 没有权限，仅授权用户可操作" p)) ->
  (truthy (group_id event) = true ->
   checkPermission event (state p) = true -> P (run p)) ->
  P (guarded event run p).
Proof.
  intros Hgroup Hperm Hrun. unfold guarded.
  destruct (truthy (group_id event)); cbn [negb]; [|now apply Hgroup].
  destruct (checkPermission event (state p)); cbn [negb];
    [now apply Hrun | now apply Hperm].
Qed.

Lemma isManagement_false (prefix rawMessage : string) :
  isManagement prefix rawMessage = false ->
  (String.eqb rawMessage (prefix ++ "群开启")
   || String.eqb rawMessage (prefix ++ "群启用") = false) /\
  (String.eqb rawMessage (prefix ++ "群关闭")
   || String.eqb rawMessage (prefix ++ "群禁用") = false) /\
  Js.startsWith rawMessage (prefix ++ "拉黑") = false /\
  Js.startsWith rawMessage (prefix ++ "取消拉黑") = false.
Proof.
  unfold isManagement. intros Hm.
  repeat (apply orb_false_iff in Hm; destruct Hm as [Hm ?]).
  repeat split; try assumption; apply orb_false_iff; now split.
Qed.

(** The case analysis [handleMessage] makes, in its order. *)
Lemma handle_cases (now : Z) (event : OB11Message) (p : Plugin)
      (P : Plugin -> Prop) :
  let raw := raw_message event in
  let prefix := effectivePrefix (state p) in
  let q :=
    note Debug ("收到消息: " ++ raw ++ " | 类型: " ++ message_type event) p in
  let targets := extractAtTargets event in
  (isManagement prefix raw = true ->
   truthy (group_id event) = false ->
   P (sendReply event "请在群组中使用此命令" q)) ->
  (isManagement prefix raw = true ->
   truthy (group_id event) = true ->
   checkPermission event (state p) = false ->
   P (sendReply event "❌ 没有权限，仅授权用户可操作" q)) ->
  (forall on word,
      In word (if on : bool then ["群开启"; "群启用"]
               else ["群关闭"; "群禁用"])%string ->
      raw = (prefix ++ word)%string ->
      truthy (group_id event) = true ->
      checkPermission event (state p) = true ->
      P (sendReply event
                   (if on then "✅ 本群早柚核心适配已开启"
                    else "🚫 本群早柚核心适配已关闭")
                   (with_state
                      (updateGroupConfig (ToString (group_id event))
                                         {| enabled := Some on |} (state p))
                      q))) ->
  (forall block : bool,
      Js.startsWith raw (prefix ++ (if block then "拉黑" else "取消拉黑"))
      = true ->
      (block = false -> Js.startsWith raw (prefix ++ "拉黑") = false) ->
      truthy (group_id event) = true ->
      checkPermission event (state p) = true ->
      (targets = [] ->
       P (sendReply event
                    (if block then "❌ 请 @要拉黑的用户"
                     else "❌ 请 @要取消拉黑的用户") q)) /\
      (targets <> [] ->
       forall done,
         done = fold_left (if block then blockTarget else unblockTarget)
                          targets ([], state p) ->
         P (sendReply event (Js.join newline (fst done))
                      (with_state (snd done) q)))) ->
  (isManagement prefix raw = false ->
   isBlacklisted (ToString (user_id event)) (state p) = true ->
   P (note Debug ("用户 " ++ ToString (user_id event)
                  ++ " 在黑名单中，跳过转发") q)) ->
  (isManagement prefix raw = false ->
   isBlacklisted (ToString (user_id event)) (state p) = false ->
   forall q',
     q' = (if gscoreEnable (config (service p))
              && ((String.eqb (message_type event) "group"
                   && truthy (group_id event)
                   && isGroupEnabled (ToString (group_id event)) (state p))
                  || (negb (String.eqb (message_type event) "group"
                            && truthy (group_id event))
                      && String.eqb (message_type event) "private"))
           then step (Forwarded event) q else q) ->
     P q' /\
     (Js.startsWith raw prefix = true -> forall message,
         P (sendReply event message q'))) ->
  P (handleMessage splitSpaces now event p).
Proof.
  intros raw prefix q targets Hgroup Hperm Hswitch Hlist Hblack Hplain.
  unfold handleMessage. cbn zeta.
  change (state (note Debug _ p)) with (state p).
  fold raw prefix q targets.
  destruct (isManagement prefix raw) eqn:Hm.
  - specialize (Hgroup eq_refl). specialize (Hperm eq_refl).
    destruct (String.eqb raw (prefix ++ "群开启")
              || String.eqb raw (prefix ++ "群启用")) eqn:Hon.
    { apply guarded_cases; [now apply Hgroup | now apply Hperm |].
      intros Hg Hp. apply (Hswitch true) with
        (word := if String.eqb raw (prefix ++ "群开启")
                 then "群开启"%string else "群启用"%string);
        try assumption.
      - destruct (String.eqb raw (prefix ++ "群开启")); cbn; tauto.
      - destruct (String.eqb_spec raw (prefix ++ "群开启")) as [E|_];
          [exact E|]. cbn in Hon. now apply String.eqb_eq in Hon. }
    destruct (String.eqb raw (prefix ++ "群关闭")
              || String.eqb raw (prefix ++ "群禁用")) eqn:Hoff.
    { apply guarded_cases; [now apply Hgroup | now apply Hperm |].
      intros Hg Hp. apply (Hswitch false) with
        (word := if String.eqb raw (prefix ++ "群关闭")
                 then "群关闭"%string else "群禁用"%string);
        try assumption.
      - destruct (String.eqb raw (prefix ++ "群关闭")); cbn; tauto.
      - destruct (String.eqb_spec raw (prefix ++ "群关闭")) as [E|_];
          [exact E|]. cbn in Hoff. now apply String.eqb_eq in Hoff. }
    destruct (Js.startsWith raw (prefix ++ "拉黑")) eqn:Hblock.
    { apply guarded_cases; [now apply Hgroup | now apply Hperm |].
      intros Hg Hp.
      destruct (Hlist true Hblock ltac:(discriminate) Hg Hp)
        as (Hnone & Hsome).
      change (state q) with (state p).
      destruct targets as [|t targets'] eqn:Ht; [now apply Hnone|].
      cbn [List.length Nat.eqb].
      specialize (Hsome ltac:(discriminate) _ eq_refl).
      now destruct (fold_left blockTarget (t :: targets') ([], state p)). }
    destruct (Js.startsWith raw (prefix ++ "取消拉黑")) eqn:Hun.
    { apply guarded_cases; [now apply Hgroup | now apply Hperm |].
      intros Hg Hp.
      destruct (Hlist false Hun ltac:(reflexivity) Hg Hp)
        as (Hnone & Hsome).
      change (state q) with (state p).
      destruct targets as [|t targets'] eqn:Ht; [now apply Hnone|].
      cbn [List.length Nat.eqb].
      specialize (Hsome ltac:(discriminate) _ eq_refl).
      now destruct (fold_left unblockTarget (t :: targets') ([], state p)). }
    exfalso. unfold isManagement in Hm.
    apply orb_false_elim in Hon as (Ha & Hb).
    apply orb_false_elim in Hoff as (Hc & Hd).
    rewrite Ha, Hb, Hc, Hd, Hblock, Hun in Hm. discriminate.
  - destruct (isManagement_false _ _ Hm) as (Hon & Hoff & Hblock & Hun).
    rewrite Hon, Hoff, Hblock, Hun.
    destruct (isBlacklisted (ToString (user_id event)) (state p)) eqn:Hb;
      [now apply Hblack|].
    change (config (service q)) with (config (service p)).
    specialize (Hplain eq_refl eq_refl).
    match goal with
    | |- context [sendReply event (helpText prefix) ?e] =>
        set (q' := e); destruct (Hplain q') as (Hquiet & Hreply)
    end.
    { subst q'.
      destruct (gscoreEnable (config (service p))); cbn [negb andb];
        [|reflexivity].
      destruct (String.eqb (message_type event) "group"
                && truthy (group_id event)); cbn [negb andb orb].
      - now destruct (isGroupEnabled _ _).
      - now destruct (String.eqb (message_type event) "private"). }
    clearbody q'.
    destruct (Js.startsWith raw prefix) eqn:Hstart; cbn [negb];
      [|exact Hquiet].
    match goal with
    | |- context [match ?args with [] => _ | _ :: _ => _ end] =>
        destruct args as [|first rest]
    end.
    + cbn. exact Hquiet.
    + destruct (String.eqb (Js.toLowerCase first) "help");
        [now apply Hreply|].
      destruct (String.eqb (Js.toLowerCase first) "status");
        [now apply Hreply | exact Hquiet].
Qed.

Lemma switch_isManagement (prefix word : string) (on : bool) :
  In word (if on then ["群开启"; "群启用"] else ["群关闭"; "群禁用"])%string ->
  isManagement prefix (prefix ++ word) = true.
Proof.
  unfold isManagement.
  destruct on; cbn [In]; intros [<-|[<-|[]]]; rewrite String.eqb_refl;
    rewrite ?orb_true_r; reflexivity.
Qed.

Lemma list_isManagement (prefix raw : string) (block : bool) :
  Js.startsWith raw (prefix ++ (if block then "拉黑" else "取消拉黑")) = true ->
  isManagement prefix raw = true.
Proof.
  unfold isManagement. destruct block; intros ->;
    rewrite ?orb_true_r; reflexivity.
Qed.

(** *** Who may change the settings *)

(** X22.  Whatever the text of the message, the handler leaves the
    blacklist and the group switches as they are unless the message is
    a management command, comes with a group id and its sender passes
    [checkPermission]. *)
Theorem settings_guard (now : Z) (event : OB11Message) (p : Plugin) :
  isManagement (effectivePrefix (state p)) (raw_message event) = false \/
  truthy (group_id event) = false \/
  checkPermission event (state p) = false ->
  state (handleMessage splitSpaces now event p) = state p.
Proof.
  intros Hguard.
  apply handle_cases with (P := fun p' => state p' = state p).
  - intros _ _.
    now destruct (sendReply_spec event "请在群组中使用此命令"
                   (note Debug ("收到消息: " ++ raw_message event
                                ++ " | 类型: " ++ message_type event) p))
      as (r & _ & _ & _ & -> & _).
  - intros _ _ _.
    now destruct (sendReply_spec event "❌ 没有权限，仅授权用户可操作"
                   (note Debug ("收到消息: " ++ raw_message event
                                ++ " | 类型: " ++ message_type event) p))
      as (r & _ & _ & _ & -> & _).
  - intros on word Hword Hraw Hg Hp. exfalso.
    pose proof (switch_isManagement (effectivePrefix (state p)) word on Hword)
      as Hm.
    rewrite <- Hraw in Hm. destruct Hguard as [E|[E|E]]; congruence.
  - intros block Hstart _ Hg Hp. exfalso.
    pose proof (list_isManagement _ _ block Hstart) as Hm.
    destruct Hguard as [E|[E|E]]; congruence.
  - reflexivity.
  - intros _ _ q' ->. split.
    + now destruct (_ && _).
    + intros _ message.
      match goal with
      | |- state (sendReply event message ?e) = _ =>
          destruct (sendReply_spec event message e) as (r & _ & _ & _ & -> & _)
      end.
      now destruct (_ && _).
Qed.

(** *** What is handed to the service *)

Lemma handle_forwards (now : Z) (event : OB11Message) (p : Plugin) :
  forwards (stepsSince p (handleMessage splitSpaces now event p)) =
  if negb (isManagement (effectivePrefix (state p)) (raw_message event))
     && negb (isBlacklisted (ToString (user_id event)) (state p))
     && gscoreEnable (config (service p))
     && ((String.eqb (message_type event) "group"
          && truthy (group_id event)
          && isGroupEnabled (ToString (group_id event)) (state p))
         || (negb (String.eqb (message_type event) "group"
                   && truthy (group_id event))
             && String.eqb (message_type event) "private"))
  then [event] else [].
Proof.
  apply handle_cases with
    (P := fun p' => forwards (stepsSince p p') = _).
  - intros Hm _. rewrite Hm.
    match goal with
    | |- context [sendReply event ?m ?e] =>
        destruct (sendReply_spec event m e) as (r & Hsteps & _)
    end.
    now rewrite (stepsSince_extension p _ _ Hsteps).
  - intros Hm _ _. rewrite Hm.
    match goal with
    | |- context [sendReply event ?m ?e] =>
        destruct (sendReply_spec event m e) as (r & Hsteps & _)
    end.
    now rewrite (stepsSince_extension p _ _ Hsteps).
  - intros on word Hword Hraw _ _.
    rewrite Hraw, (switch_isManagement _ _ _ Hword).
    match goal with
    | |- context [sendReply event ?m ?e] =>
        destruct (sendReply_spec event m e) as (r & Hsteps & _)
    end.
    now rewrite (stepsSince_extension p _ _ Hsteps).
  - intros block Hstart _ _ _. rewrite (list_isManagement _ _ _ Hstart).
    split.
    + intros _.
      match goal with
      | |- context [sendReply event ?m ?e] =>
          destruct (sendReply_spec event m e) as (r & Hsteps & _)
      end.
      now rewrite (stepsSince_extension p _ _ Hsteps).
    + intros _ done _.
      match goal with
      | |- context [sendReply event ?m ?e] =>
          destruct (sendReply_spec event m e) as (r & Hsteps & _)
      end.
      now rewrite (stepsSince_extension p _ _ Hsteps).
  - intros Hm Hb. rewrite Hm, Hb. cbn [negb andb].
    now rewrite stepsSince_same.
  - intros Hm Hb q' ->. rewrite Hm, Hb. cbn [negb andb].
    destruct (gscoreEnable (config (service p)) && _); split.
    + now erewrite stepsSince_extension by reflexivity.
    + intros _ message.
      match goal with
      | |- context [sendReply event ?m ?e] =>
          destruct (sendReply_spec event m e) as (r & Hsteps & _)
      end.
      cbn [steps step note] in Hsteps. rewrite <- app_assoc in Hsteps.
      now rewrite (stepsSince_extension p _ _ Hsteps).
    + now rewrite stepsSince_same.
    + intros _ message.
      match goal with
      | |- context [sendReply event ?m ?e] =>
          destruct (sendReply_spec event m e) as (r & Hsteps & _)
      end.
      now rewrite (stepsSince_extension p _ _ Hsteps).
Qed.

(** X23.  A message is handed to the service at most once, and
    exactly when it is no management command, its sender is not
    blacklisted, the feature is enabled, and it is either a group
    message with a group id whose group is enabled or a private
    message.  Help and status commands are handed over like any other
    text. *)
Theorem forward_decision (now : Z) (event : OB11Message) (p : Plugin) :
  let handed := forwards (stepsSince p (handleMessage splitSpaces now event p))
  in
  (handed = [event] \/ handed = []) /\
  (handed = [event] <->
   isManagement (effectivePrefix (state p)) (raw_message event) = false /\
   isBlacklisted (ToString (user_id event)) (state p) = false /\
   gscoreEnable (config (service p)) = true /\
   ((message_type event = "group"%string /\
     truthy (group_id event) = true /\
     isGroupEnabled (ToString (group_id event)) (state p) = true) \/
    message_type event = "private"%string)).
Proof.
  cbn zeta. rewrite handle_forwards.
  destruct (isManagement _ _); cbn [negb andb];
    [split; [now right | split; [discriminate | intros (E & _); discriminate]]
    |].
  destruct (isBlacklisted _ _); cbn [negb andb];
    [split; [now right
            | split; [discriminate | intros (_ & E & _); discriminate]]
    |].
  destruct (gscoreEnable _); cbn [negb andb];
    [|split; [now right
             | split; [discriminate | intros (_ & _ & E & _); discriminate]]].
  destruct (String.eqb_spec (message_type event) "group") as [Egroup|Egroup];
    cbn [negb andb orb].
  - destruct (truthy (group_id event)); cbn [negb andb orb].
    + destruct (isGroupEnabled _ _); cbn [negb andb orb].
      * split; [now left|]. split; [|reflexivity]. intros _.
        repeat split. now left.
      * split; [now right|]. split; [discriminate|].
        intros (_ & _ & _ & [(_ & _ & E)|E]); [discriminate|].
        rewrite Egroup in E. discriminate.
    + rewrite Egroup. cbn. split; [now right|]. split; [discriminate|].
      intros (_ & _ & _ & [(_ & E & _)|E]); discriminate.
  - destruct (String.eqb_spec (message_type event) "private") as [Epriv|Epriv].
    + split; [now left|]. split; [|reflexivity]. intros _.
      repeat split. now right.
    + split; [now right|]. split; [discriminate|].
      intros (_ & _ & _ & [(E & _)|E]); contradiction.
Qed.

(** *** What is answered *)




(** *** The group switch commands *)

Lemma append_inj (p a b : string) : (p ++ a = p ++ b)%string -> a = b.
Proof.
  induction p as [|c p IH]; cbn; [easy|]. intros E. injection E as E.
  now apply IH.
Qed.

Lemma prefix_append_both (p a s : string) :
  String.prefix (p ++ a) (p ++ s) = String.prefix a s.
Proof.
  induction p as [|c p IH]; cbn; [reflexivity|].
  destruct (ascii_dec c c) as [_|E]; [exact IH | now elim E].
Qed.

Lemma switch_not_list (word : string) (on block : bool) :
  In word (if on then ["群开启"; "群启用"] else ["群关闭"; "群禁用"])%string ->
  String.prefix (if block then "拉黑" else "取消拉黑") word = false.
Proof.
  destruct on, block; cbn [In]; intros [<-|[<-|[]]]; reflexivity.
Qed.

Lemma switch_word (word : string) (on on' : bool) :
  In word (if on then ["群开启"; "群启用"] else ["群关闭"; "群禁用"])%string ->
  In word (if on' then ["群开启"; "群启用"] else ["群关闭"; "群禁用"])%string ->
  on = on'.
Proof.
  destruct on, on'; cbn [In]; try reflexivity;
    intros [<-|[<-|[]]] [E|[E|[]]]; discriminate.
Qed.

Lemma group_command_effect (now : Z) (event : OB11Message) (p : Plugin)
      (on : bool) (word : string) :
  In word (if on then ["群开启"; "群启用"] else ["群关闭"; "群禁用"])%string ->
  raw_message event = (effectivePrefix (state p) ++ word)%string ->
  truthy (group_id event) = true ->
  checkPermission event (state p) = true ->
  let p' := handleMessage splitSpaces now event p in
  state p' = updateGroupConfig (ToString (group_id event))
                               {| enabled := Some on |} (state p) /\
  config (service p') = config (service p) /\
  exists r,
    stepsSince p p' = [Answered r] /\
    reply_message r = (if on then "✅ 本群早柚核心适配已开启"
                       else "🚫 本群早柚核心适配已关闭")%string /\
    addressed event r.
Proof.
  intros Hword Hraw Hg Hp. cbn zeta.
  pose proof (switch_isManagement (effectivePrefix (state p)) word on Hword)
    as Hm.
  rewrite <- Hraw in Hm.
  apply handle_cases with
    (P := fun p' =>
            state p' = updateGroupConfig (ToString (group_id event))
                                         {| enabled := Some on |} (state p) /\
            config (service p') = config (service p) /\
            exists r,
              stepsSince p p' = [Answered r] /\
              reply_message r = (if on then "✅ 本群早柚核心适配已开启"
                                 else "🚫 本群早柚核心适配已关闭")%string /\
              addressed event r).
  - congruence.
  - congruence.
  - intros on' word' Hword' Hraw' _ _.
    assert (word' = word) as ->
        by (rewrite Hraw in Hraw'; now apply append_inj in Hraw').
    assert (on' = on) as -> by now apply (switch_word word).
    match goal with
    | |- context [sendReply event ?m ?e] =>
        destruct (sendReply_spec event m e) as (r & Hsteps & Hr & Ha & -> & ->)
    end.
    split; [reflexivity|]. split; [reflexivity|].
    exists r. split; [|now split].
    now apply stepsSince_extension.
  - intros block Hstart _ _ _. exfalso.
    unfold Js.startsWith in Hstart.
    rewrite Hraw, prefix_append_both in Hstart.
    now rewrite (switch_not_list word on block Hword) in Hstart.
  - congruence.
  - congruence.
Qed.

Lemma isGroupEnabled_updated (g : string) (b : bool) (s : PluginState) :
  isGroupEnabled g (updateGroupConfig g {| enabled := Some b |} s) = b.
Proof.
  unfold isGroupEnabled, updateGroupConfig. cbn.
  rewrite lookup_storeGroup. now destruct b.
Qed.

Lemma isGroupEnabled_other (g g' : string) (c : GroupConfig)
      (s : PluginState) :
  g' <> g ->
  isGroupEnabled g' (updateGroupConfig g c s) = isGroupEnabled g' s.
Proof.
  intros Hother. unfold isGroupEnabled, updateGroupConfig. cbn.
  now rewrite (lookup_storeGroup_other g g' _ _ Hother).
Qed.

(** X25.  A group switch command ([群开启], [群启用], [群关闭], [群禁用]
    after the prefix) of a permitted sender in a group sets the switch
    of that group and of no other, leaves the blacklist alone and is
    answered with the confirmation.  After the group was switched off,
    no group message of that group is handed to the service; after it
    was switched on, every group message of that group is, unless it
    is a management command, its sender is blacklisted or the feature
    is disabled. *)
Theorem group_command (now : Z) (event : OB11Message) (p : Plugin)
        (on : bool) (word : string) :
  In word (if on then ["群开启"; "群启用"] else ["群关闭"; "群禁用"])%string ->
  raw_message event = (effectivePrefix (state p) ++ word)%string ->
  truthy (group_id event) = true ->
  checkPermission event (state p) = true ->
  let p' := handleMessage splitSpaces now event p in
  isGroupEnabled (ToString (group_id event)) (state p') = on /\
  (forall g, g <> ToString (group_id event) ->
             isGroupEnabled g (state p') = isGroupEnabled g (state p)) /\
  blacklist (state p') = blacklist (state p) /\
  (exists r,
      stepsSince p p' = [Answered r] /\
      reply_message r = (if on then "✅ 本群早柚核心适配已开启"
                         else "🚫 本群早柚核心适配已关闭")%string /\
      addressed event r) /\
  (forall now' event',
      message_type event' = "group"%string ->
      ToString (group_id event') = ToString (group_id event) ->
      let handed :=
        forwards (stepsSince p' (handleMessage splitSpaces now' event' p')) in
      if on then
        isManagement (effectivePrefix (state p')) (raw_message event') = false ->
        isBlacklisted (ToString (user_id event')) (state p') = false ->
        gscoreEnable (config (service p')) = true ->
        truthy (group_id event') = true ->
        handed = [event']
      else handed = []).
Proof.
  intros Hword Hraw Hg Hp.
  destruct (group_command_effect now event p on word Hword Hraw Hg Hp)
    as (Hstate & Hconfig & Hreply).
  cbn zeta. rewrite Hstate. split; [apply isGroupEnabled_updated|].
  split; [intros g Hother; now apply isGroupEnabled_other|].
  split; [reflexivity|]. split; [exact Hreply|].
  intros now' event' Htype Hsame. cbn zeta. rewrite handle_forwards.
  rewrite Hstate, Htype, Hsame, isGroupEnabled_updated.
  change (String.eqb "group" "group") with true.
  change (String.eqb "group" "private") with false.
  rewrite !andb_false_r, orb_false_r. cbn [andb].
  destruct on.
  - now intros -> -> -> ->.
  - now rewrite !andb_false_r.
Qed.

(** *** The blacklist commands *)

Lemma atTarget_named (seg : MessageSegment) :
  Forall (fun t => t <> ""%string /\ t <> "all"%string) (atTarget seg).
Proof.
  unfold atTarget. destruct (String.eqb (seg_type seg) "at"); [|constructor].
  destruct (String.eqb_spec
              (ToString (orElse (prop (seg_data seg) "qq") (JString "")))
              "") as [E|E]; cbn [negb andb]; [constructor|].
  destruct (String.eqb_spec
              (ToString (orElse (prop (seg_data seg) "qq") (JString "")))
              "all") as [E'|E']; cbn [negb]; [constructor|].
  now repeat constructor.
Qed.

Lemma extractAtTargets_named (event : OB11Message) :
  Forall (fun t => t <> ""%string /\ t <> "all"%string)
         (extractAtTargets event).
Proof.
  unfold extractAtTargets. destruct (message event); try constructor.
  induction segments as [|seg segments IH]; cbn; [constructor|].
  apply Forall_app. split; [apply atTarget_named | exact IH].
Qed.

Lemma blacklisted_ignored (now : Z) (event : OB11Message) (p : Plugin) :
  isBlacklisted (ToString (user_id event)) (state p) = true ->
  isManagement (effectivePrefix (state p)) (raw_message event) = false ->
  stepsSince p (handleMessage splitSpaces now event p) = [] /\
  state (handleMessage splitSpaces now event p) = state p.
Proof.
  intros Hb Hm.
  apply handle_cases with
    (P := fun p' => stepsSince p p' = [] /\ state p' = state p);
    try congruence.
  - intros on word Hword Hraw. exfalso.
    pose proof (switch_isManagement (effectivePrefix (state p)) word on Hword).
    congruence.
  - intros block Hstart. exfalso.
    pose proof (list_isManagement _ _ block Hstart). congruence.
  - intros _ _. split; [now apply stepsSince_same | reflexivity].
Qed.

Lemma blockTarget_blacklist (acc : list string * PluginState) (t : string) :
  blacklist (snd (blockTarget acc t)) =
  (if isBlacklisted t (snd acc) then blacklist (snd acc)
   else blacklist (snd acc) ++ [t]) /\
  groupConfigs (snd (blockTarget acc t)) = groupConfigs (snd acc) /\
  List.length (fst (blockTarget acc t)) = S (List.length (fst acc)).
Proof.
  unfold blockTarget, addToBlacklist.
  destruct (isBlacklisted t (snd acc)); cbn;
    rewrite length_app; cbn; repeat split; lia.
Qed.

Lemma block_fold (targets : list string) :
  forall acc,
    let done := fold_left blockTarget targets acc in
    (exists added,
        blacklist (snd done) = blacklist (snd acc) ++ added /\
        NoDup added /\
        forall t, In t added <->
                  In t targets /\ isBlacklisted t (snd acc) = false) /\
    groupConfigs (snd done) = groupConfigs (snd acc) /\
    List.length (fst done) = (List.length (fst acc) + List.length targets)%nat.
Proof.
  induction targets as [|t targets IH]; intros acc; cbn zeta.
  - cbn. split; [|split; [reflexivity | lia]].
    exists []. rewrite app_nil_r. split; [reflexivity|].
    split; [constructor | intros t; cbn; tauto].
  - cbn [fold_left List.length].
    destruct (IH (blockTarget acc t)) as ((added & Hlist & Hnodup & Hin)
                                          & Hgroups & Hlen).
    destruct (blockTarget_blacklist acc t) as (Hstep & Hgstep & Hlstep).
    rewrite Hgroups, Hlen, Hgstep, Hlstep.
    split; [|split; [reflexivity | lia]].
    unfold isBlacklisted in *. rewrite Hlist, Hstep.
    destruct (existsb (String.eqb t) (blacklist (snd acc))) eqn:Hb.
    + exists added. split; [reflexivity|]. split; [exact Hnodup|].
      intros t'. rewrite Hin, Hstep. cbn [In]. split.
      * intros (Ht & Hfree). now split; [right|].
      * intros ([<-|Ht] & Hfree); [congruence | now split].
    + exists (t :: added). rewrite <- app_assoc. split; [reflexivity|].
      split.
      * constructor; [|exact Hnodup]. rewrite Hin, Hstep.
        intros (_ & Hfree). rewrite existsb_app in Hfree. cbn in Hfree.
        now rewrite String.eqb_refl, orb_true_r in Hfree.
      * intros t'. cbn [In]. rewrite Hin, Hstep, existsb_app. cbn.
        rewrite orb_false_r.
        destruct (String.eqb_spec t' t) as [->|Hother].
        -- rewrite orb_true_r. split; [intros _|intros _; now left].
           split; [now left | exact Hb].
        -- rewrite orb_false_r. split.
           ++ intros [E|(Ht & Hfree)]; [congruence|]. now split; [right|].
           ++ intros ([E|Ht] & Hfree); [congruence|]. right. now split.
Qed.

Lemma list_command_effect (now : Z) (event : OB11Message) (p : Plugin)
      (block : bool) :
  Js.startsWith (raw_message event)
                (effectivePrefix (state p)
                 ++ (if block then "拉黑" else "取消拉黑")) = true ->
  truthy (group_id event) = true ->
  checkPermission event (state p) = true ->
  let p' := handleMessage splitSpaces now event p in
  let targets := extractAtTargets event in
  let done := fold_left (if block then blockTarget else unblockTarget)
                        targets ([], state p) in
  state p' = (if (List.length targets =? 0)%nat then state p else snd done) /\
  config (service p') = config (service p) /\
  exists r,
    stepsSince p p' = [Answered r] /\
    addressed event r /\
    reply_message r =
    (if (List.length targets =? 0)%nat then
       if block then "❌ 请 @要拉黑的用户" else "❌ 请 @要取消拉黑的用户"
     else Js.join newline (fst done))%string.
Proof.
  intros Hstart Hg Hp. cbn zeta.
  pose proof (list_isManagement _ _ block Hstart) as Hm.
  apply handle_cases with
    (P := fun p' =>
            state p' = (if (List.length (extractAtTargets event) =? 0)%nat
                        then state p else _) /\
            config (service p') = config (service p) /\
            exists r,
              stepsSince p p' = [Answered r] /\
              addressed event r /\
              reply_message r =
              (if (List.length (extractAtTargets event) =? 0)%nat
               then _ else _)); try congruence.
  - intros on word Hword Hraw _ _. exfalso.
    unfold Js.startsWith in Hstart.
    rewrite Hraw, prefix_append_both in Hstart.
    now rewrite (switch_not_list word on block Hword) in Hstart.
  - intros block' Hstart' Hearlier _ _.
    assert (block' = block) as ->.
    { destruct block, block'; try reflexivity.
      - specialize (Hearlier eq_refl). congruence.
      - unfold Js.startsWith in Hstart, Hstart'.
        apply prefix_iff in Hstart'. destruct Hstart' as [rest Hraw].
        rewrite Hraw, append_assoc, prefix_append_both in Hstart.
        discriminate. }
    split.
    + intros ->. cbn [List.length Nat.eqb].
      match goal with
      | |- context [sendReply event ?m ?e] =>
          destruct (sendReply_spec event m e)
          as (r & Hsteps & Hr & Ha & -> & ->)
      end.
      split; [reflexivity|]. split; [reflexivity|].
      exists r. split; [now apply stepsSince_extension | now split].
    + intros Hsome done ->.
      destruct (extractAtTargets event) as [|t targets] eqn:Ht;
        [now elim Hsome|].
      cbn [List.length Nat.eqb].
      match goal with
      | |- context [sendReply event ?m ?e] =>
          destruct (sendReply_spec event m e)
          as (r & Hsteps & Hr & Ha & -> & ->)
      end.
      split; [reflexivity|]. split; [reflexivity|].
      exists r. split; [now apply stepsSince_extension | now split].
Qed.

(** X26.  The block command ([拉黑] after the prefix) of a permitted
    sender in a group appends to the blacklist the users mentioned in
    the message that were not blacklisted, each once; a mention of
    everybody names nobody.  It leaves the group switches alone and is
    answered once, with one line per user mentioned, or with a request
    to mention somebody.  From then on a message of a
    mentioned user that is no management command is neither answered
    nor handed to the service. *)
Theorem block_command (now : Z) (event : OB11Message) (p : Plugin) :
  Js.startsWith (raw_message event) (effectivePrefix (state p) ++ "拉黑")
  = true ->
  truthy (group_id event) = true ->
  checkPermission event (state p) = true ->
  let p' := handleMessage splitSpaces now event p in
  let targets := extractAtTargets event in
  (exists added,
      blacklist (state p') = blacklist (state p) ++ added /\
      NoDup added /\
      forall t, In t added <->
                In t targets /\ isBlacklisted t (state p) = false) /\
  ~ In "all"%string targets /\
  ~ In ""%string targets /\
  groupConfigs (state p') = groupConfigs (state p) /\
  (exists r,
      stepsSince p p' = [Answered r] /\
      addressed event r /\
      if (List.length targets =? 0)%nat
      then reply_message r = "❌ 请 @要拉黑的用户"%string
      else exists lines,
          reply_message r = Js.join newline lines /\
          List.length lines = List.length targets) /\
  (forall now' event',
      In (ToString (user_id event')) targets ->
      isManagement (effectivePrefix (state p')) (raw_message event') = false ->
      stepsSince p' (handleMessage splitSpaces now' event' p') = []).
Proof.
  intros Hstart Hg Hp.
  destruct (list_command_effect now event p true Hstart Hg Hp)
    as (Hstate & _ & r & Hsteps & Ha & Hr).
  destruct (block_fold (extractAtTargets event) ([], state p))
    as (Hadded & Hgroups & Hlen).
  cbn zeta in *. cbn [fst snd List.length Nat.add] in *.
  pose proof (extractAtTargets_named event) as Hnamed.
  rewrite Forall_forall in Hnamed.
  assert (Hlist : exists added,
             blacklist (state (handleMessage splitSpaces now event p))
             = blacklist (state p) ++ added /\
             NoDup added /\
             forall t, In t added <->
                       In t (extractAtTargets event) /\
                       isBlacklisted t (state p) = false).
  { rewrite Hstate.
    destruct (extractAtTargets event) as [|t targets]; exact Hadded. }
  split; [exact Hlist|].
  split; [intros Hall; now destruct (Hnamed _ Hall)|].
  split; [intros Hempty; now destruct (Hnamed _ Hempty)|].
  split.
  { rewrite Hstate.
    now destruct (extractAtTargets event) as [|t targets]. }
  split.
  { exists r. split; [exact Hsteps|]. split; [exact Ha|].
    destruct (List.length (extractAtTargets event) =? 0)%nat;
      [exact Hr|].
    eexists. split; [exact Hr | exact Hlen]. }
  intros now' event' Htarget Hm'.
  apply blacklisted_ignored; [|exact Hm'].
  destruct Hlist as (added & Hlist & _ & Hin).
  unfold isBlacklisted. rewrite Hlist, existsb_app.
  destruct (existsb (String.eqb (ToString (user_id event')))
                    (blacklist (state p))) eqn:Hb; [reflexivity|].
  cbn [orb]. apply existsb_eqb_In. apply Hin. now split.
Qed.

Lemma removeFirst_absent (t : string) (l : list string) :
  ~ In t l -> removeFirst t l = l.
Proof.
  induction l as [|y l IH]; [reflexivity|]. cbn. intros Hout.
  destruct (String.eqb_spec t y) as [->|_]; [elim Hout; now left|].
  rewrite IH; [reflexivity|]. intros Hin. apply Hout. now right.
Qed.

Lemma removeFirst_app_absent (t : string) (l a : list string) :
  ~ In t l -> removeFirst t (l ++ a) = l ++ removeFirst t a.
Proof.
  induction l as [|y l IH]; [reflexivity|]. cbn. intros Hout.
  destruct (String.eqb_spec t y) as [->|_]; [elim Hout; now left|].
  rewrite IH; [reflexivity|]. intros Hin. apply Hout. now right.
Qed.

Lemma removeFirst_existsb (v t : string) (l : list string) :
  NoDup l ->
  existsb (String.eqb v) (removeFirst t l) =
  existsb (String.eqb v) l && negb (String.eqb v t).
Proof.
  intros Hnodup. destruct (String.eqb_spec v t) as [->|Hother].
  - rewrite andb_false_r. apply existsb_eqb_not_In.
    now apply removeFirst_NoDup.
  - rewrite andb_true_r. now apply removeFirst_other.
Qed.

Lemma unblockTarget_blacklist (acc : list string * PluginState) (t : string) :
  blacklist (snd (unblockTarget acc t))
  = removeFirst t (blacklist (snd acc)) /\
  groupConfigs (snd (unblockTarget acc t)) = groupConfigs (snd acc) /\
  List.length (fst (unblockTarget acc t)) = S (List.length (fst acc)).
Proof.
  unfold unblockTarget, removeFromBlacklist.
  destruct (isBlacklisted t (snd acc)) eqn:Hb; cbn;
    rewrite length_app; cbn; repeat split; try lia.
  symmetry. apply removeFirst_absent. now apply existsb_eqb_not_In.
Qed.

Lemma unblock_fold (targets : list string) :
  forall acc,
    let done := fold_left unblockTarget targets acc in
    blacklist (snd done)
    = fold_left (fun l t => removeFirst t l) targets (blacklist (snd acc)) /\
    groupConfigs (snd done) = groupConfigs (snd acc) /\
    List.length (fst done) = (List.length (fst acc) + List.length targets)%nat.
Proof.
  induction targets as [|t targets IH]; intros acc; cbn zeta.
  - cbn. repeat split. lia.
  - cbn [fold_left List.length].
    destruct (IH (unblockTarget acc t)) as (Hlist & Hgroups & Hlen).
    destruct (unblockTarget_blacklist acc t) as (Hstep & Hgstep & Hlstep).
    rewrite Hlist, Hgroups, Hlen, Hstep, Hgstep, Hlstep.
    repeat split. lia.
Qed.

Lemma removed_other (v : string) (targets : list string) :
  ~ In v targets ->
  forall l,
    existsb (String.eqb v) (fold_left (fun l t => removeFirst t l) targets l)
    = existsb (String.eqb v) l.
Proof.
  induction targets as [|t targets IH]; intros Hout l; [reflexivity|].
  cbn [fold_left]. rewrite IH by (intros Hin; apply Hout; now right).
  apply removeFirst_other. intros ->. apply Hout. now left.
Qed.

Lemma removed_NoDup (targets : list string) :
  forall l,
    NoDup l ->
    NoDup (fold_left (fun l t => removeFirst t l) targets l) /\
    forall v,
      existsb (String.eqb v) (fold_left (fun l t => removeFirst t l) targets l)
      = existsb (String.eqb v) l && negb (existsb (String.eqb v) targets).
Proof.
  induction targets as [|t targets IH]; intros l Hnodup.
  - split; [exact Hnodup|]. intros v. cbn. now rewrite andb_true_r.
  - cbn [fold_left].
    destruct (IH (removeFirst t l)) as (Hrest & Hin);
      [now apply removeFirst_NoDup|].
    split; [exact Hrest|]. intros v.
    rewrite Hin, (removeFirst_existsb v t l Hnodup). cbn [existsb].
    rewrite negb_orb. now rewrite andb_assoc.
Qed.

Lemma removed_all (targets : list string) :
  forall kept added,
    (forall t, In t targets -> ~ In t kept) ->
    NoDup added ->
    (forall t, In t added -> In t targets) ->
    fold_left (fun l t => removeFirst t l) targets (kept ++ added) = kept.
Proof.
  induction targets as [|t targets IH]; intros kept added Hkept Hnodup Hsub.
  - destruct added as [|x added]; [apply app_nil_r|].
    elim (Hsub x). now left.
  - cbn [fold_left].
    rewrite removeFirst_app_absent by (apply Hkept; now left).
    destruct (removeFirst_NoDup t added Hnodup) as (Hrest & Hout).
    apply IH; [|exact Hrest|].
    + intros t' Ht'. apply Hkept. now right.
    + intros x Hx. destruct (Hsub x (removeFirst_In _ _ _ Hx)) as [<-|Hx'];
        [contradiction | exact Hx'].
Qed.

(** X27.  The unblock command ([取消拉黑] after the prefix) of a
    permitted sender in a group leaves the blacklist status of every
    user it does not mention as it was.  On a blacklist without
    duplicates, the users that stay blacklisted are those that were
    and are not mentioned, and the list is still without duplicates.
    The command leaves the group switches alone and is answered once,
    with one line per user mentioned or with a request to mention
    somebody. *)
Theorem unblock_command (now : Z) (event : OB11Message) (p : Plugin) :
  Js.startsWith (raw_message event) (effectivePrefix (state p) ++ "取消拉黑")
  = true ->
  truthy (group_id event) = true ->
  checkPermission event (state p) = true ->
  let p' := handleMessage splitSpaces now event p in
  let targets := extractAtTargets event in
  (forall v, ~ In v targets ->
             isBlacklisted v (state p') = isBlacklisted v (state p)) /\
  (NoDup (blacklist (state p)) ->
   NoDup (blacklist (state p')) /\
   forall v, isBlacklisted v (state p')
             = isBlacklisted v (state p)
               && negb (existsb (String.eqb v) targets)) /\
  groupConfigs (state p') = groupConfigs (state p) /\
  (exists r,
      stepsSince p p' = [Answered r] /\
      addressed event r /\
      if (List.length targets =? 0)%nat
      then reply_message r = "❌ 请 @要取消拉黑的用户"%string
      else exists lines,
          reply_message r = Js.join newline lines /\
          List.length lines = List.length targets).
Proof.
  intros Hstart Hg Hp.
  destruct (list_command_effect now event p false Hstart Hg Hp)
    as (Hstate & _ & r & Hsteps & Ha & Hr).
  destruct (unblock_fold (extractAtTargets event) ([], state p))
    as (Hlist & Hgroups & Hlen).
  cbn zeta in *. cbn [fst snd List.length Nat.add] in *.
  assert (Hblack : blacklist (state (handleMessage splitSpaces now event p))
                   = fold_left (fun l t => removeFirst t l)
                               (extractAtTargets event) (blacklist (state p))).
  { rewrite Hstate.
    destruct (extractAtTargets event) as [|t targets]; exact Hlist. }
  split; [|split; [|split; [|]]].
  - intros v Hout. unfold isBlacklisted. rewrite Hblack.
    now apply removed_other.
  - intros Hnodup. unfold isBlacklisted. rewrite Hblack.
    now apply removed_NoDup.
  - rewrite Hstate.
    now destruct (extractAtTargets event) as [|t targets].
  - exists r. split; [exact Hsteps|]. split; [exact Ha|].
    destruct (List.length (extractAtTargets event) =? 0)%nat;
      [exact Hr|].
    eexists. split; [exact Hr | exact Hlen].
Qed.

(** X28.  Blocking users and then unblocking them gives back the
    blacklist as it was: when a block command is followed by an
    unblock command that mentions at least the same users, and none of
    the users the second command mentions was blacklisted before the
    first, the blacklist after both is the blacklist before. *)
Theorem block_then_unblock (now now' : Z) (event event' : OB11Message)
        (p : Plugin) :
  Js.startsWith (raw_message event) (effectivePrefix (state p) ++ "拉黑")
  = true ->
  truthy (group_id event) = true ->
  checkPermission event (state p) = true ->
  Js.startsWith (raw_message event')
                (effectivePrefix (state (handleMessage splitSpaces now event p))
                 ++ "取消拉黑") = true ->
  truthy (group_id event') = true ->
  checkPermission event' (state (handleMessage splitSpaces now event p))
  = true ->
  (forall t, In t (extractAtTargets event) ->
             In t (extractAtTargets event')) ->
  (forall t, In t (extractAtTargets event') ->
             isBlacklisted t (state p) = false) ->
  blacklist (state (handleMessage splitSpaces now' event'
                                  (handleMessage splitSpaces now event p)))
  = blacklist (state p).
Proof.
  intros Hstart Hg Hp Hstart' Hg' Hp' Hsub Hfree.
  destruct (list_command_effect now event p true Hstart Hg Hp)
    as (Hstate & _).
  destruct (list_command_effect now' event' _ false Hstart' Hg' Hp')
    as (Hstate' & _).
  destruct (block_fold (extractAtTargets event) ([], state p))
    as ((added & Hadded & Hnodup & Hin) & _).
  destruct (unblock_fold (extractAtTargets event')
                         ([], state (handleMessage splitSpaces now event p)))
    as (Hlist & _).
  cbn zeta in *. cbn [fst snd] in *.
  assert (Hblack : blacklist (state (handleMessage splitSpaces now event p))
                   = blacklist (state p) ++ added).
  { rewrite Hstate.
    destruct (extractAtTargets event) as [|t targets]; exact Hadded. }
  rewrite Hstate'.
  assert (Hboth :
            blacklist
              (if (List.length (extractAtTargets event') =? 0)%nat
               then state (handleMessage splitSpaces now event p)
               else snd (fold_left unblockTarget (extractAtTargets event')
                           ([], state (handleMessage splitSpaces now event p))))
            = fold_left (fun l t => removeFirst t l) (extractAtTargets event')
                        (blacklist (state (handleMessage splitSpaces now event
                                                         p)))).
  { destruct (extractAtTargets event') as [|t targets]; exact Hlist. }
  rewrite Hboth, Hblack. apply removed_all.
  - intros t Ht. apply existsb_eqb_not_In. now apply Hfree.
  - exact Hnodup.
  - intros t Ht. apply Hsub. now apply Hin.
Qed.

End HandlerFacts.

(** ** Reconnection and the invalid URL *)

Section ReconnectFacts.

Context `{Host}.

Local Open Scope list_scope.

Lemma length_update {A : Type} (i : nat) (x : A) (l : list A) :
  List.length (update i x l) = List.length l.
Proof.
  revert i; induction l as [|y l IH]; intros [|i]; simpl;
    try reflexivity. now rewrite IH.
Qed.

Lemma length_sockets_disconnect (w : World) :
  List.length (sockets (disconnect w)) = List.length (sockets w).
Proof.
  rewrite sockets_disconnect.
  destruct (ws w) as [held|]; [|reflexivity].
  destruct (nth_error (sockets w) held) as [[]|];
    try reflexivity; apply length_update.
Qed.

Lemma disconnect_singleSocket (w : World) :
  singleSocket w -> singleSocket (disconnect w).
Proof.
  intros Hw. destruct (disconnect_fields w) as (_ & Hws & _ & _ & _).
  split.
  - intros id state Hid Hlive.
    destruct (disconnect_sockets w id state Hid Hlive) as (Hold & Hother).
    destruct Hw as (Hheld & _).
    elim Hother. exact (Hheld id state Hold Hlive).
  - intros id Hid. rewrite Hws in Hid. discriminate.
Qed.

Lemma disconnect_passes (w : World) :
  isOpen (disconnect w) || isConnecting (disconnect w) = false.
Proof.
  destruct (disconnect_fields w) as (_ & Hws & _ & Hflag & _).
  unfold isOpen, readyState. now rewrite Hws, Hflag.
Qed.

(** X29.  The reconnection the configuration hooks perform restarts
    the connection from any state of the service (connected,
    connecting, waiting for a retry, or out of attempts): with the
    feature enabled and a socket URL the host accepts, it requests
    exactly one socket, to the URL of the current configuration, and
    leaves the service connecting on it with the attempt counter at
    zero and no timer; the timer and the socket held before are
    cancelled and closing; and a service that held every live socket
    still does. *)
Theorem reconnect_restarts (w : World) (u : URL) :
  gscoreEnable (config w) = true ->
  URL_new (routedUrl w) = Some u ->
  WebSocket_new (URL_toString (withToken w u)) = true ->
  let w' := reconnect w in
  ws w' = Some (List.length (sockets w)) /\
  nth_error (sockets w') (List.length (sockets w)) = Some CONNECTING /\
  getStatus w' = connecting /\
  requested (since w w') = [URL_toString (withToken w u)] /\
  reconnectAttempts w' = 0%Z /\
  reconnectTimer w' = None /\
  (forall t, reconnectTimer w = Some t -> pending t w' = false) /\
  (forall id state,
      ws w = Some id -> nth_error (sockets w) id = Some state ->
      exists state',
        nth_error (sockets w') id = Some state' /\ live state' = false) /\
  (singleSocket w -> singleSocket w').
Proof.
  intros Hon Hurl Hsocket. cbn zeta.
  destruct (disconnect_fields w) as (Htimer & Hws & Hattempts & Hflag & Hconfig).
  assert (Hrouted : routedUrl (disconnect w) = routedUrl w)
    by (unfold routedUrl, strippedUrl, baseUrl; now rewrite Hconfig).
  assert (Htoken : withToken (disconnect w) u = withToken w u)
    by (unfold withToken; now rewrite Hconfig).
  assert (Hrun : reconnect w = connect (disconnect w))
    by (unfold reconnect; cbn zeta; now rewrite Hconfig, Hon).
  assert (Hsingle : singleSocket w -> singleSocket (reconnect w))
    by (intros Hw; rewrite Hrun;
        now apply connect_singleSocket, disconnect_singleSocket).
  revert Hsingle. rewrite Hrun.
  rewrite (connect_attempt (disconnect w)
                           ltac:(now rewrite Hconfig) (disconnect_passes w)).
  rewrite Hrouted, Hurl. cbv zeta. rewrite Htoken, Hsocket.
  rewrite length_sockets_disconnect. intros Hsingle.
  split; [reflexivity|].
  split; [cbn; rewrite <- (length_sockets_disconnect w); apply nth_error_last|].
  split.
  { unfold getStatus, isOpen, readyState. cbn.
    rewrite <- (length_sockets_disconnect w), nth_error_last. reflexivity. }
  split.
  { erewrite since_extension;
      [|cbn [trace set_ws set_sockets emit log set_isConnecting];
        rewrite trace_disconnect, <- !app_assoc; reflexivity].
    unfold cleared, closed.
    now destruct (reconnectTimer w), (ws w). }
  split; [exact Hattempts|]. split; [exact Htimer|].
  split.
  { intros t Ht. pose proof (disconnect_timer w t Ht) as Hgone.
    exact Hgone. }
  split; [|exact Hsingle].
  intros id state Hid Hstate.
  pose proof (disconnect_socket w id state Hid Hstate) as Hclosing.
  exists (match state with CLOSED => CLOSED | _ => CLOSING end).
  split; [|now destruct state].
  cbn [sockets set_ws set_sockets emit log set_isConnecting].
  rewrite nth_error_app1; [exact Hclosing|].
  apply nth_error_Some. now rewrite Hclosing.
Qed.

(** X30.  When the URL class rejects the text derived from the
    configured URL, [connect] throws after it has set its flag: the
    service holds the socket, timers and counter it had, reports
    [connecting] when it holds no open socket, and every further call
    of [connect] does nothing.  No retry is scheduled; [disconnect]
    clears the flag. *)
Theorem invalid_url_stalls (w : World) :
  gscoreEnable (config w) = true ->
  isOpen w || isConnecting w = false ->
  URL_new (routedUrl w) = None ->
  let w' := connect w in
  since w w' = [InvalidURL (routedUrl w)] /\
  isConnecting w' = true /\
  getStatus w' = connecting /\
  ws w' = ws w /\
  sockets w' = sockets w /\
  timers w' = timers w /\
  reconnectTimer w' = reconnectTimer w /\
  reconnectAttempts w' = reconnectAttempts w /\
  connect w' = w' /\
  isConnecting (disconnect w') = false.
Proof.
  intros Hon Hidle Hurl. cbn zeta.
  assert (Hrun : connect w
                 = emit (InvalidURL (routedUrl w)) (set_isConnecting true w))
    by (rewrite (connect_attempt w Hon Hidle); now rewrite Hurl).
  rewrite Hrun.
  apply orb_false_iff in Hidle as (Hopen & _).
  split; [now apply since_extension|]. split; [reflexivity|].
  split.
  { unfold getStatus.
    change (isOpen (emit (InvalidURL (routedUrl w)) (set_isConnecting true w)))
      with (isOpen w).
    now rewrite Hopen. }
  repeat (split; [reflexivity|]).
  split.
  - apply connect_guard; [exact Hon|]. apply orb_true_r.
  - now destruct (disconnect_fields
                    (emit (InvalidURL (routedUrl w))
                          (set_isConnecting true w)))
      as (_ & _ & _ & -> & _).
Qed.

End ReconnectFacts.

(** ** The service on concrete inputs *)

Import Sample.

Local Open Scope list_scope.


(** With [maxAttempts = 0] a timer is set after 1000 attempts too. *)
Example unlimited_retries :
  timeoutsSet
    (since (set_reconnectAttempts 1000 (fresh unlimited))
           (scheduleReconnect (set_reconnectAttempts 1000 (fresh unlimited))))
  = [(0%nat, 1000%Z)].
Proof. reflexivity. Qed.

(** A second [connect] while connecting changes nothing, and the first
    one leaves a single live socket. *)
Lemma connect_idempotent_run :
  let w := connect (fresh defaults) in
  getStatus w = connecting /\
  (connect w = w /\ requested (since w (connect w)) = []) /\
  singleSocket w.
Proof.
  split; [reflexivity|]. split.
  - apply (proj1 (connect_idempotent (connect (fresh defaults))));
      [reflexivity | right; reflexivity].
  - apply (proj2 (proj2 (proj2 (connect_idempotent (fresh defaults))))).
    split; [intros [|id] state Hid | intros id Hid]; discriminate.
Defined.

(** The close handler does not look at which socket closed.  After a
    [disconnect] and [connect] in a row on a connected service, the
    close event of the first socket clears the handle of the second,
    and the timer it sets makes [connect] construct a third while the
    second is still open. *)
Example stale_close_event :
  let w1 := deliver (SocketOpen 0) (connect (fresh defaults)) in
  let w2 := connect (disconnect w1) in
  let w3 := deliver (SocketOpen 1) w2 in
  let w4 := deliver (SocketClose 0 1000 "") w3 in
  let w5 := deliver (Timeout 0) w4 in
  (sockets w3 = [CLOSING; OPEN] /\ ws w3 = Some 1%nat) /\
  (sockets w4 = [CLOSED; OPEN] /\ ws w4 = None) /\
  (sockets w5 = [CLOSED; OPEN; CONNECTING] /\ ws w5 = Some 2%nat).
Proof. repeat split; reflexivity. Qed.

(** C2.  "At most one socket is ever live at a time" fails on the
    code.  A connected service is reconfigured ([disconnect] then
    [connect], as the configuration hooks do) and its new socket
    opens.  The close event of the first socket then clears the handle
    of the second, which stays open, and sets a reconnect timer; when
    the timer fires, [connect] finds no handle and no flag, passes its
    guard and constructs a third socket.  Two sockets are live, and
    the service holds only one of them. *)
Theorem connect_second_live_socket :
  let w1 := deliver (SocketOpen 0) (connect (fresh defaults)) in
  let w2 := deliver (SocketOpen 1) (reconnect w1) in
  let w3 := deliver (SocketClose 0 1000 "") w2 in
  let w4 := deliver (Timeout 0) w3 in
  (getStatus w1 = connected /\ singleSocket w1) /\
  (sockets w2 = [CLOSING; OPEN] /\ ws w2 = Some 1%nat) /\
  (sockets w3 = [CLOSED; OPEN] /\ ws w3 = None /\
   getStatus w3 = disconnected) /\
  constructed (since w3 w4) = [2%nat] /\
  sockets w4 = [CLOSED; OPEN; CONNECTING] /\
  ws w4 = Some 2%nat /\
  ~ singleSocket w4.
Proof.
  cbv zeta. unfold singleSocket. vm_compute.
  split; [split; [reflexivity|]|].
  - split; [intros [|id] state Hid Hlive | intros id Hid Hstate].
    + reflexivity.
    + now destruct id.
    + injection Hid as <-. discriminate.
  - split; [split; reflexivity|].
    split; [repeat split; reflexivity|].
    repeat (split; [reflexivity|]).
    intros (Hheld & _).
    specialize (Hheld 1%nat OPEN eq_refl eq_refl). discriminate.
Qed.

(** The URL derived from [ws://localhost:8765/] and the token [secret]. *)
Lemma connect_socket_url_run :
  requested (since (fresh limited) (connect (fresh limited)))
  = ["ws://localhost:8765/ws/napcat?token=secret"%string] /\
  exists s r,
    stripped (baseUrl (fresh limited)) s /\
    routed s r /\
    match URL_new r with
    | Some u =>
        exists u',
          authenticated (gscoreToken (config (fresh limited))) u u' /\
          requested (since (fresh limited) (connect (fresh limited)))
          = [URL_toString u']
    | None => since (fresh limited) (connect (fresh limited)) = [InvalidURL r]
    end.
Proof.
  split; [reflexivity|].
  apply (connect_socket_url (fresh limited)); reflexivity.
Defined.

(** C3 as stated fails: the suffix depends on the text [/ws/] occurring
    anywhere, not on the path.  [ws://ws/gs] has the host [ws] and the
    path [/gs], and [ws://localhost:8765?next=/ws/x] has an empty path:
    neither has a path segment [ws], and neither gets the suffix.
    [ws://localhost:8765/ws/] has the path segment [ws] and gets the
    suffix once its trailing [/] is stripped. *)
Lemma ws_outside_the_path :
  (hasWsSegment "ws://ws/gs" = false /\
   requested (since (configured "ws://ws/gs")
                    (connect (configured "ws://ws/gs")))
   = ["ws://ws/gs"%string]) /\
  (hasWsSegment "ws://localhost:8765?next=/ws/x" = false /\
   requested (since (configured "ws://localhost:8765?next=/ws/x")
                    (connect (configured "ws://localhost:8765?next=/ws/x")))
   = ["ws://localhost:8765?next=/ws/x"%string]) /\
  (hasWsSegment "ws://localhost:8765/ws/" = true /\
   hasWsSegment (strippedUrl (configured "ws://localhost:8765/ws/")) = true /\
   requested (since (configured "ws://localhost:8765/ws/")
                    (connect (configured "ws://localhost:8765/ws/")))
   = ["ws://localhost:8765/ws/ws/napcat"%string]).
Proof. vm_compute. repeat split. Qed.

(** [connect] with the feature disabled, on a service that holds a
    connecting socket and a pending timer. *)
Lemma connect_disabled_run :
  since busy (connect busy) = [TimeoutCleared 4; SocketClosed 0] /\
  requested (since busy (connect busy)) = [] /\
  reconnectTimer (connect busy) = None /\
  pending 4 (connect busy) = false /\
  ws (connect busy) = None /\
  nth_error (sockets (connect busy)) 0 = Some CLOSING /\
  reconnectAttempts (connect busy) = 0%Z /\
  getStatus (connect busy) = disconnected.
Proof.
  destruct (connect_disabled busy eq_refl)
    as (Hreq & Htimer & Hclear & Hws & Hclose & Hattempts & _ & Hstatus).
  split; [reflexivity|].
  split; [exact Hreq|].
  split; [exact Htimer|].
  split; [exact (proj2 (Hclear 4%nat eq_refl))|].
  split; [exact Hws|].
  split; [exact (proj2 (Hclose 0%nat CONNECTING eq_refl eq_refl))|].
  split; [exact Hattempts | exact Hstatus].
Defined.

(** C9 as stated fails: [connect] with the feature disabled cancels the
    timer whose handle the service holds, and no other.  A connected
    service is reconfigured twice; the three sockets close one after
    the other and each close sets a timer, the handle moving to the
    last.  Once the feature is switched off, [connect] clears timer 2
    and leaves the timers 0 and 1 pending; and when the hook has done
    so and timer 0 fires, the [connect] of its callback does nothing
    and timer 1 is still pending. *)
Lemma unheld_timer_survives :
  let w1 := deliver (SocketOpen 0) (connect (fresh defaults)) in
  let w2 := reconnect (reconnect w1) in
  let w3 := deliver (SocketClose 2 1006 "")
                    (deliver (SocketClose 1 1000 "")
                             (deliver (SocketClose 0 1000 "") w2)) in
  let w4 := set_config disabled w3 in
  let w5 := reconnect w4 in
  let w6 := deliver (Timeout 0) w5 in
  (timers w3 = [(0%nat, 5000%Z); (1%nat, 5000%Z); (2%nat, 5000%Z)] /\
   reconnectTimer w3 = Some 2%nat) /\
  (gscoreEnable (config w4) = false /\
   since w4 (connect w4) = [TimeoutCleared 2] /\
   pending 0 (connect w4) = true /\
   pending 1 (connect w4) = true) /\
  (gscoreEnable (config w5) = false /\
   since w5 w6 = [] /\
   pending 1 w6 = true).
Proof. vm_compute. repeat split. Qed.

(** A [log_SUCCESS] item is logged at info with the marker. *)
Lemma log_passthrough_run :
  let m := envelope (Some "group") (Some "1")
                    (Some [item "log_SUCCESS" (JString "done");
                           item "text" (JString "ignored")]) in
  since (fresh defaults) (handleGsCoreMessage m (fresh defaults))
  = [Logged Info (Text "[GScore Log] ✅ done")] /\
  calls (since (fresh defaults) (handleGsCoreMessage m (fresh defaults))) = [].
Proof.
  apply (log_passthrough
           (envelope (Some "group"%string) (Some "1"%string)
                     (Some [item "log_SUCCESS" (JString "done");
                            item "text" (JString "ignored")]))
           (item "log_SUCCESS" (JString "done"))
           [item "text" (JString "ignored")] "SUCCESS" (fresh defaults));
    reflexivity.
Defined.

(** C4 as stated fails: the suffix [INFO] is none of the four words,
    so it should select debug, and the line is logged at info. *)
Lemma log_suffix_upper_case :
  let m := envelope (Some "group") (Some "1")
                    (Some [item "log_INFO" (JString "x")]) in
  severity "INFO" = Debug /\
  since (fresh defaults) (handleGsCoreMessage m (fresh defaults))
  = [Logged Info (Text "[GScore Log] x")].
Proof. split; reflexivity. Qed.

(** A [direct] envelope is sent as a private message, a [channel] one as
    a group message. *)
Lemma dispatch_by_target_type_run :
  calls (since online
               (handleGsCoreMessage
                  (envelope (Some "direct") (Some "99")
                            (Some [item "text" (JString "hi")]))
                  online))
  = [SendPrivate "99" [SegText "hi"]] /\
  calls (since online
               (handleGsCoreMessage
                  (envelope (Some "channel") (Some "42")
                            (Some [item "text" (JString "hi")]))
                  online))
  = [SendGroup "42" [SegText "hi"]].
Proof.
  split.
  - apply (proj1 (proj2 (proj2 (dispatch_by_target_type
                                  (envelope (Some "direct"%string)
                                            (Some "99"%string)
                                            (Some [item "text" (JString "hi")]))
                                  online)
                               (item "text" (JString "hi")) [] eq_refl eq_refl)
                        "99"%string eq_refl ltac:(discriminate)
                        ltac:(discriminate))
                 eq_refl).
  - apply (proj2 (proj2 (proj2 (dispatch_by_target_type
                                  (envelope (Some "channel"%string)
                                            (Some "42"%string)
                                            (Some [item "text" (JString "hi")]))
                                  online)
                               (item "text" (JString "hi")) [] eq_refl eq_refl)
                        "42"%string eq_refl ltac:(discriminate)
                        ltac:(discriminate))
                 "channel"%string eq_refl ltac:(discriminate)).
Defined.

(** C5 as stated fails: a [direct] envelope with a target id whose only
    item is [buttons] has content that is not log-typed, and no send
    call is issued. *)
Lemma direct_envelope_without_segments :
  let m := envelope (Some "direct") (Some "99")
                    (Some [item "buttons" (JString "x")]) in
  isLogType (type (item "buttons" (JString "x"))) = false /\
  since online (handleGsCoreMessage m online)
  = [Logged Debug (Text "[GScore] 转换后消息为空，忽略")] /\
  calls (since online (handleGsCoreMessage m online)) = [].
Proof. repeat split; reflexivity. Qed.

(** An envelope with no target type is sent as a group message. *)
Lemma dispatch_always_sends_run :
  calls (since online
               (handleGsCoreMessage
                  (envelope None (Some "42") (Some [item "text" (JString "hi")]))
                  online))
  = [SendGroup "42" [SegText "hi"]].
Proof.
  apply (proj2 (dispatch_always_sends
                  (envelope None (Some "42"%string)
                            (Some [item "text" (JString "hi")]))
                  (item "text" (JString "hi")) [] "42"%string online
                  eq_refl eq_refl ltac:(discriminate) eq_refl
                  ltac:(discriminate))
               ltac:(discriminate)).
Defined.

(** C10 as stated fails: the target id [""] is not null, the content
    decodes to one segment, and no send call is issued. *)
Lemma empty_target_id_not_sent :
  let m := envelope (Some "group") (Some "")
                    (Some [item "text" (JString "hi")]) in
  target_id m <> None /\
  isLogType (type (item "text" (JString "hi"))) = false /\
  convertGsCoreToOB11 [item "text" (JString "hi")] = [SegText "hi"] /\
  calls (since online (handleGsCoreMessage m online)) = [].
Proof. repeat split; try reflexivity. discriminate. Qed.

(** A [file] item with a name and a link. *)
Lemma file_item_decoding_run :
  convertGsCoreToOB11 [item "file" (JString "a.txt|link://http://x/a")]
  = [SegText "[文件: a.txt] http://x/a"].
Proof.
  apply (proj1 (proj1 (file_item_decoding
                         (JString "a.txt|link://http://x/a") eq_refl)
                      "a.txt"%string "link://http://x/a"%string
                      eq_refl eq_refl ltac:(discriminate))
               "http://x/a"%string eq_refl).
Defined.

(** C6 as stated fails: the payload [|link://http://x/r.pdf] has a
    separator, its remainder starts with [link://], and the item is
    dropped instead of giving the text [[文件: ] http://x/r.pdf]. *)
Lemma file_item_empty_name :
  Js.indexOf "|link://http://x/r.pdf" "|" = 0%Z /\
  Js.startsWith "link://http://x/r.pdf" "link://" = true /\
  convertGsCoreToOB11 [item "file" (JString "|link://http://x/r.pdf")] = [] /\
  convertGsCoreToOB11 [item "file" (JString "|link://http://x/r.pdf")]
  <> [SegText "[文件: ] http://x/r.pdf"].
Proof. repeat split; try reflexivity. discriminate. Qed.

(** Two text segments, one of them empty, survive the round trip. *)
Lemma text_round_trip_run :
  convertGsCoreToOB11
    (convertOB11ToGsCoreContent
       (event "group" (MessageArray [textSegment "hello"; textSegment ""])
              "hello"))
  = [SegText "hello"; SegText ""].
Proof.
  apply (text_round_trip
           (event "group" (MessageArray [textSegment "hello"; textSegment ""])
                  "hello")
           [textSegment "hello"; textSegment ""]
           ["hello"%string; ""%string] eq_refl).
  repeat constructor.
Defined.

(** The group message [hello] with no segments, end to end. *)
Lemma raw_text_fallback_run :
  convertOB11ToGsCoreContent (event "group" NoMessage "hello")
  = [item "text" (JString "hello")] /\
  exists id frame,
    ws online = Some id /\
    since online (forwardMessage (event "group" NoMessage "hello") online)
    = [SocketSent id frame; Logged Debug (Text "[GScore] 已转发群 42 消息")] /\
    recv_content frame = [item "text" (JString "hello")] /\
    recv_user_type frame = "group"%string.
Proof.
  destruct (raw_text_fallback (event "group" NoMessage "hello") online
                              I ltac:(discriminate)) as (Hcontent & Hsent).
  split; [exact Hcontent | exact (Hsent eq_refl eq_refl)].
Defined.

(** C8 as stated fails: an event with no segments and an empty raw
    text yields no item, and so does an event whose segment array is
    empty, whatever its raw text. *)
Lemma raw_text_fallback_gaps :
  convertOB11ToGsCoreContent (event "group" NoMessage "") = [] /\
  convertOB11ToGsCoreContent (event "group" (MessageArray []) "hello") = [].
Proof. split; reflexivity. Qed.
(** *** The connection life cycle *)

(** The socket of a service that was retrying opens: the service is
    connected, the counter is back at zero and the retry timer is
    cancelled. *)
Lemma open_event_run :
  getStatus (deliver (SocketOpen 2) retrying) = connected /\
  reconnectAttempts (deliver (SocketOpen 2) retrying) = 0%Z /\
  pending 1 (deliver (SocketOpen 2) retrying) = false.
Proof.
  destruct (open_event retrying 2 eq_refl eq_refl)
    as (Hstatus & _ & Hattempts & _ & Htimer).
  split; [exact Hstatus|]. split; [exact Hattempts|].
  exact (Htimer 1%nat eq_refl).
Defined.

(** The socket of a connected service closes. *)
Lemma close_event_run :
  ws (deliver (SocketClose 0 1006 "") online) = None /\
  getStatus (deliver (SocketClose 0 1006 "") online) = disconnected /\
  timeoutsSet (since online (deliver (SocketClose 0 1006 "") online))
  = [(0%nat, 5000%Z)].
Proof.
  destruct (close_event online 0 OPEN 1006 "" eq_refl ltac:(discriminate))
    as (Hws & Hstatus & _ & Htimer).
  split; [exact Hws|]. split; [exact Hstatus|].
  exact (Htimer eq_refl ltac:(cbn; lia)).
Defined.

(** After two failed attempts out of three, a connection that opens and
    then closes is retried. *)
Lemma open_rearms_run :
  let w1 := deliver (SocketOpen 2) retrying in
  timeoutsSet (since w1 (deliver (SocketClose 2 1006 "") w1))
  = [(2%nat, 5000%Z)].
Proof.
  exact (open_rearms retrying 2 1006 "" eq_refl eq_refl eq_refl).
Defined.

(** With three attempts allowed, the close after two turns is retried
    and the close after three is not. *)
Lemma retry_budget_run :
  let two := turns [(1006%Z, ""%string); (1006%Z, ""%string)]
                   (fresh limited) in
  let three := turns [(1006%Z, ""%string); (1006%Z, ""%string);
                      (1006%Z, ""%string)] (fresh limited) in
  timeoutsSet (since two (onClose 1006 "" two)) = [(2%nat, 5000%Z)] /\
  timeoutsSet (since three (onClose 1006 "" three)) = [].
Proof.
  split.
  - exact (proj1 (retry_budget (fresh limited)
                               [(1006%Z, ""%string); (1006%Z, ""%string)]
                               1006 "" eq_refl ltac:(cbn; lia) eq_refl)
                 ltac:(cbn; lia)).
  - exact (proj2 (retry_budget (fresh limited)
                               [(1006%Z, ""%string); (1006%Z, ""%string);
                                (1006%Z, ""%string)]
                               1006 "" eq_refl ltac:(cbn; lia) eq_refl)
                 ltac:(cbn; lia)).
Defined.

(** A second timer set while the first is pending: [disconnect]
    cancels the second only. *)
Lemma earlier_timer_kept_run :
  reconnectTimer (scheduleReconnect retrying) = Some 2%nat /\
  pending 1 (disconnect (scheduleReconnect retrying)) = true /\
  pending 2 (disconnect (scheduleReconnect retrying)) = false.
Proof.
  destruct (earlier_timer_kept retrying 1 eq_refl ltac:(cbn; lia) eq_refl
                               ltac:(discriminate))
    as (_ & _ & Hheld & Hfirst & Hsecond).
  split; [exact Hheld|]. split; [exact Hfirst | exact Hsecond].
Defined.

(** *** Frames in both directions *)

(** A private send the platform rejects. *)
Lemma send_outcome_run :
  since refusing
        (handleGsCoreMessage
           (envelope (Some "direct") (Some "99")
                     (Some [item "text" (JString "hi")]))
           refusing)
  = [Called (SendPrivate "99" [SegText "hi"]);
     Logged Error (Text "[GScore] 发送回复消息失败:")].
Proof.
  exact (proj2 (send_outcome
                  (envelope (Some "direct"%string) (Some "99"%string)
                            (Some [item "text" (JString "hi")]))
                  (item "text" (JString "hi")) [] "99" refusing
                  eq_refl eq_refl eq_refl ltac:(discriminate)
                  ltac:(discriminate))
               eq_refl).
Defined.

(** A message that is neither a group nor a private message is not
    forwarded, and nothing is forwarded while the service is not
    connected. *)
Lemma forward_gate_run :
  forwardMessage (event "guild" NoMessage "hello") online = online /\
  forwardMessage (event "group" NoMessage "hello") retrying = retrying.
Proof.
  split.
  - exact (proj1 (proj2 (forward_gate (event "guild" NoMessage "hello")
                                      online))
                 ltac:(discriminate) ltac:(discriminate)).
  - exact (proj1 (forward_gate (event "group" NoMessage "hello") retrying)
                 ltac:(discriminate)).
Defined.

(** A reply to a message with one image: the image follows the reply
    item, its URL trimmed. *)
Lemma reply_enrichment_run :
  map (fun f => recv_content (snd f))
      (frames (since quoting
                     (forwardMessage
                        (event "group"
                               (MessageArray
                                  [segment "reply" [("id", JNumber 5%Z)]])
                               "")
                        quoting)))
  = [[item "reply" (JString "5"); item "image" (JString "http://x/a.png")]].
Proof.
  exact (proj2 (reply_enrichment
                  (event "group"
                         (MessageArray [segment "reply" [("id", JNumber 5%Z)]])
                         "")
                  quoting
                  [segment "reply" [("id", JNumber 5%Z)]]
                  (segment "reply" [("id", JNumber 5%Z)])
                  eq_refl (or_introl eq_refl) eq_refl eq_refl eq_refl)
               (event "group"
                      (MessageArray
                         [segment "image"
                                  [("url", JString " http://x/a.png ")]])
                      "")
               [segment "image" [("url", JString " http://x/a.png ")]]
               eq_refl eq_refl).
Defined.

(** *** More of the content codecs *)

Lemma image_item_decoding_run :
  convertGsCoreToOB11 [item "image" (JString "link://http://x/a.png")]
  = [SegImage "http://x/a.png"].
Proof.
  exact (proj1 (image_item_decoding (JString "link://http://x/a.png") eq_refl)
               "http://x/a.png"%string eq_refl).
Defined.

Lemma image_round_trip_run :
  convertGsCoreToOB11
    (convertSegment (segment "image" [("url", JString "http://x/a.png")]))
  = [SegImage "http://x/a.png"].
Proof.
  exact (proj1 (image_round_trip
                  (segment "image" [("url", JString "http://x/a.png")])
                  eq_refl)
               "http://x/a.png"%string eq_refl ltac:(discriminate)).
Defined.

Lemma mention_round_trip_run :
  convertGsCoreToOB11 (convertSegment (segment "at" [("qq", JNumber 7%Z)]))
  = [SegAt "7"].
Proof.
  exact (proj1 (proj2 (proj1 (mention_round_trip
                                (segment "at" [("qq", JNumber 7%Z)]))
                             eq_refl))
               7%Z eq_refl eq_refl).
Defined.

Lemma file_round_trip_run :
  convertGsCoreToOB11
    (convertSegment
       (segment "file" [("name", JString "a.txt");
                        ("url", JString "link://http://x/a.txt")]))
  = [SegText "[文件: a.txt] http://x/a.txt"].
Proof.
  exact (proj2 (file_round_trip
                  (segment "file" [("name", JString "a.txt");
                                   ("url", JString "link://http://x/a.txt")])
                  "a.txt" "link://http://x/a.txt"
                  eq_refl eq_refl ltac:(discriminate) eq_refl eq_refl)
               "http://x/a.txt"%string eq_refl).
Defined.

Lemma node_item_decoding_run :
  convertGsCoreToOB11
    [item "node" (JArray [item "text" (JString "a");
                          item "image" (JString "b")])]
  = [SegNode "3889929917" "🦊小助手" [SegText "a"];
     SegNode "3889929917" "🦊小助手" [SegImage "b"]].
Proof.
  exact (proj1 (proj2 (proj2 (node_item_decoding
                                [item "text" (JString "a");
                                 item "image" (JString "b")])))
               ltac:(repeat constructor; discriminate)).
Defined.

Lemma other_items_decoding_run :
  convertGsCoreToOB11 [Message (Some "video") (JString "x")] = [SegText "x"].
Proof.
  exact (proj1 (proj1 (other_items_decoding (Some "video"%string)
                                            (JString "x"))
                      "video"%string eq_refl ltac:(discriminate)
                      ltac:(cbn; intuition discriminate))
               "x"%string eq_refl ltac:(discriminate)).
Defined.

(** *** The plugin state *)

Lemma blacklist_add_run :
  isBlacklisted "7" (addToBlacklist "7" settings) = true /\
  NoDup (blacklist (addToBlacklist "7" settings)).
Proof.
  destruct (blacklist_add "7" settings) as (Hin & _ & _ & _ & Hnodup).
  split; [exact Hin | exact (Hnodup (NoDup_nil _))].
Defined.

Lemma blacklist_remove_run :
  isBlacklisted "7" (removeFromBlacklist "7" (addToBlacklist "7" settings))
  = false /\
  blacklist (removeFromBlacklist "7" (addToBlacklist "7" settings))
  = blacklist settings.
Proof.
  split.
  - exact (proj1 (proj1 (proj2 (proj2 (blacklist_remove
                                         "7" (addToBlacklist "7" settings))))
                        ltac:(repeat constructor; intros []))).
  - exact (proj2 (proj2 (proj2 (proj2 (blacklist_remove "7" settings))))
                 eq_refl).
Defined.

Lemma group_switch_run :
  isGroupEnabled "42" settings = true /\
  isGroupEnabled "42" (updateGroupConfig "42" {| enabled := Some false |}
                                         settings) = false /\
  isGroupEnabled "43" (updateGroupConfig "42" {| enabled := Some false |}
                                         settings) = true.
Proof.
  destruct (group_switch "42" settings) as (Hnone & Hset & _ & Hother).
  split; [exact (Hnone eq_refl)|]. split; [exact (Hset false)|].
  exact (Hother "43"%string {| enabled := Some false |} ltac:(discriminate)).
Defined.

(** One hour, two minutes and five seconds are shown as one hour and
    two minutes. *)
Lemma uptime_format_run :
  exists u,
    getUptimeFormatted 3725000 = printUptime u /\
    uptimeInRange u /\
    (uptimeMs u <= 3725000 < uptimeMs u + uptimeStep u)%Z.
Proof.
  exact (uptime_format 3725000 ltac:(lia)).
Defined.

(** *** The message handler *)

(** User 7 is not the master: the switch command changes nothing. *)
Lemma settings_guard_run :
  state (handleMessage words 0 (from7 "group" "#早柚群关闭") (plugin online))
  = settings.
Proof.
  exact (settings_guard words 0 (from7 "group" "#早柚群关闭") (plugin online)
                        (or_intror (or_intror eq_refl))).
Defined.

(** A group message is handed to the connected service. *)
Lemma forward_decision_run :
  forwards (stepsSince (plugin online)
                       (handleMessage words 0 (from7 "group" "hello")
                                      (plugin online)))
  = [from7 "group" "hello"].
Proof.
  pose proof (forward_decision words 0 (from7 "group" "hello") (plugin online))
    as Hrun.
  cbn zeta in Hrun. destruct Hrun as (_ & Hiff).
  apply Hiff. repeat split. left. repeat split.
Defined.


(** The master switches group 42 off: the next message of the group is
    not handed to the service. *)
Lemma group_command_run :
  let p' := handleMessage words 0 (event "group" NoMessage "#早柚群关闭")
                          (plugin online) in
  isGroupEnabled "42" (state p') = false /\
  forwards (stepsSince p' (handleMessage words 1 (from7 "group" "hello") p'))
  = [].
Proof.
  pose proof (group_command words 0 (event "group" NoMessage "#早柚群关闭")
                            (plugin online) false "群关闭"
                            (or_introl eq_refl) eq_refl eq_refl eq_refl)
    as Hrun.
  cbn zeta in Hrun. destruct Hrun as (Hoff & _ & _ & _ & Hlater).
  split; [exact Hoff|].
  exact (Hlater 1%Z (from7 "group" "hello") eq_refl eq_refl).
Defined.

(** The master blocks the users 7 and 8: a later message of user 7 is
    dropped. *)
Lemma block_command_run :
  let p' := handleMessage words 0 (mentioning "#早柚拉黑") (plugin online) in
  stepsSince p' (handleMessage words 1 (from7 "group" "hello") p') = [].
Proof.
  pose proof (block_command words 0 (mentioning "#早柚拉黑") (plugin online)
                            eq_refl eq_refl eq_refl) as Hrun.
  cbn zeta in Hrun. destruct Hrun as (_ & _ & _ & _ & _ & Hlater).
  exact (Hlater 1%Z (from7 "group" "hello") (or_introl eq_refl) eq_refl).
Defined.

(** The master unblocks the users 7 and 8 again. *)
Lemma unblock_command_run :
  let p1 := handleMessage words 0 (mentioning "#早柚拉黑") (plugin online) in
  let p2 := handleMessage words 1 (mentioning "#早柚取消拉黑") p1 in
  isBlacklisted "7" (state p1) = true /\
  isBlacklisted "7" (state p2) = false.
Proof.
  split; [reflexivity|].
  pose proof (unblock_command
                words 1 (mentioning "#早柚取消拉黑")
                (handleMessage words 0 (mentioning "#早柚拉黑") (plugin online))
                eq_refl eq_refl eq_refl) as Hrun.
  cbn zeta in Hrun. destruct Hrun as (_ & Hnodup & _).
  destruct (Hnodup ltac:(repeat constructor; cbn; intuition discriminate))
    as (_ & Hgone).
  exact (Hgone "7"%string).
Defined.

Lemma block_then_unblock_run :
  blacklist
    (state (handleMessage words 1 (mentioning "#早柚取消拉黑")
                          (handleMessage words 0 (mentioning "#早柚拉黑")
                                         (plugin online))))
  = [].
Proof.
  exact (block_then_unblock words 0 1 (mentioning "#早柚拉黑")
                            (mentioning "#早柚取消拉黑") (plugin online)
                            eq_refl eq_refl eq_refl eq_refl eq_refl eq_refl
                            (fun t Ht => Ht) (fun t _ => eq_refl)).
Defined.

(** *** Reconnection and the invalid URL *)

(** The reconnection on a connected service. *)
Lemma reconnect_restarts_run :
  ws (reconnect online) = Some 1%nat /\
  sockets (reconnect online) = [CLOSING; CONNECTING] /\
  requested (since online (reconnect online))
  = ["ws://localhost:8765/ws/napcat"%string].
Proof.
  destruct (reconnect_restarts
              online
              {| address := "ws://localhost:8765/ws/napcat"; params := [] |}
              eq_refl eq_refl eq_refl)
    as (Hws & _ & _ & Hrequested & _).
  split; [exact Hws|]. split; [reflexivity | exact Hrequested].
Defined.

(** [localhost/ws/napcat] has no scheme and is no URL: the service is
    left connecting with no socket, and a second call does nothing. *)
Lemma invalid_url_stalls_run :
  since misconfigured (connect misconfigured)
  = [InvalidURL "localhost/ws/napcat"] /\
  getStatus (connect misconfigured) = connecting /\
  ws (connect misconfigured) = None /\
  connect (connect misconfigured) = connect misconfigured.
Proof.
  destruct (invalid_url_stalls misconfigured eq_refl eq_refl eq_refl)
    as (Htrace & _ & Hstatus & Hws & _ & _ & _ & _ & Hagain & _).
  split; [exact Htrace|]. split; [exact Hstatus|].
  split; [exact Hws | exact Hagain].
Defined.
